(** * tiktok-stocks-generator: investment simulator, interpolator, frame pacer

    A shallow embedding of the numeric core of [src/index.ts]
    ([calculateInvestmentGrowth], [interpolateChartData] and the frame loops
    of [generateVideo]) together with the properties its specification
    states about it.

    Conventions of the embedding.
    - Numbers come in two models.  In the exact one a JavaScript [number] is
      a rational or one of the IEEE special values [Infinity], [-Infinity],
      [NaN] (type [number] below): every finite operation is exact, and the
      sign of zero is not modelled.  What is stated of the program there
      is what rounding to nearest preserves (what is copied, counted,
      compared or ordered).  In the binary64 one ([Module Double]) the
      simulator runs on the kernel's primitive floats, bit for bit as the
      engine computes; this is where the arithmetic of a run is evaluated
      and where rounding shows.
    - In the exact model the numbers that enter the program (prices and
      dividends of the provider's JSON, the command-line amounts, the
      configured durations) are finite, hence of type [Q]; computed numbers
      are of type [number], since a division by a zero price leaves the
      finite numbers.
    - A JavaScript exception is an explicit [Throw] result.
    - [console.log] calls are dropped, except where evaluating their
      argument can throw. *)

From Stdlib Require Import List String Ascii ZArith QArith Qround Bool Lia Lqa.
From Stdlib Require PrimFloat FloatOps SpecFloat Uint63.
Import ListNotations.

Set Implicit Arguments.

(** ** JavaScript numbers *)

Module Num.

Inductive number : Type :=
| Fin (q : Q)
| PosInf
| NegInf
| NaN.

Definition Qltb (a b : Q) : bool := negb (Qle_bool b a).

(** The infinity that has the sign of [q]; [NaN] when [q] is zero
    ([Infinity * 0] and [0 / 0]). *)
Definition inf_of_sign (q : Q) : number :=
  if Qltb 0 q then PosInf else if Qltb q 0 then NegInf else NaN.

Definition neg (a : number) : number :=
  match a with
  | Fin x => Fin (- x)
  | PosInf => NegInf
  | NegInf => PosInf
  | NaN => NaN
  end.

Definition add (a b : number) : number :=
  match a, b with
  | NaN, _ | _, NaN => NaN
  | Fin x, Fin y => Fin (x + y)
  | PosInf, NegInf | NegInf, PosInf => NaN
  | PosInf, _ | _, PosInf => PosInf
  | NegInf, _ | _, NegInf => NegInf
  end.

Definition sub (a b : number) : number := add a (neg b).

Definition mul (a b : number) : number :=
  match a, b with
  | NaN, _ | _, NaN => NaN
  | Fin x, Fin y => Fin (x * y)
  | Fin x, PosInf | PosInf, Fin x => inf_of_sign x
  | Fin x, NegInf | NegInf, Fin x => inf_of_sign (- x)
  | PosInf, PosInf | NegInf, NegInf => PosInf
  | PosInf, NegInf | NegInf, PosInf => NegInf
  end.

Definition div (a b : number) : number :=
  match a, b with
  | NaN, _ | _, NaN => NaN
  | Fin x, Fin y => if Qeq_bool y 0 then inf_of_sign x else Fin (x / y)
  | Fin _, (PosInf | NegInf) => Fin 0
  | PosInf, Fin y => if Qle_bool 0 y then PosInf else NegInf
  | NegInf, Fin y => if Qle_bool 0 y then NegInf else PosInf
  | (PosInf | NegInf), (PosInf | NegInf) => NaN
  end.

(** [Math.floor] *)
Definition floor (a : number) : number :=
  match a with
  | Fin x => Fin (inject_Z (Qfloor x))
  | _ => a
  end.

(** [a > b]; false as soon as one side is [NaN]. *)
Definition gtb (a b : number) : bool :=
  match a, b with
  | NaN, _ | _, NaN => false
  | Fin x, Fin y => Qltb y x
  | PosInf, PosInf => false
  | PosInf, _ => true
  | _, NegInf => match a with NegInf => false | _ => true end
  | _, _ => false
  end.

(** [Math.max(a, b)] *)
Definition max (a b : number) : number :=
  match a, b with
  | NaN, _ | _, NaN => NaN
  | _, _ => if gtb b a then b else a
  end.

Definition zero : number := Fin 0.

(** Equality of the denoted values: [Qeq] on finite numbers. *)
Definition eqv (a b : number) : Prop :=
  match a, b with
  | Fin x, Fin y => x == y
  | PosInf, PosInf | NegInf, NegInf | NaN, NaN => True
  | _, _ => False
  end.

Definition finite (a : number) : Prop :=
  match a with Fin _ => True | _ => False end.

(** The orders on the denoted values; nothing is related to [NaN]. *)
Definition le (a b : number) : Prop :=
  match a, b with
  | NaN, _ | _, NaN => False
  | Fin x, Fin y => x <= y
  | NegInf, _ | _, PosInf => True
  | _, _ => False
  end.

Definition lt (a b : number) : Prop := gtb b a = true.

End Num.

Export Num(number, Fin, PosInf, NegInf, NaN).

Declare Scope num_scope.
Delimit Scope num_scope with num.
Bind Scope num_scope with number.
Infix "+" := Num.add : num_scope.
Infix "-" := Num.sub : num_scope.
Infix "*" := Num.mul : num_scope.
Infix "/" := Num.div : num_scope.
Infix ">?" := Num.gtb (at level 70, no associativity) : num_scope.
Infix "~=" := Num.eqv (at level 70, no associativity) : num_scope.
Infix "<=" := Num.le : num_scope.
Infix "<" := Num.lt : num_scope.

Coercion Fin : Q >-> number.

(** ** Exceptions *)

(** The only exception the modelled code can raise is the [TypeError] of a
    property read on [undefined]. *)
Inductive exn : Type :=
| TypeError.

Inductive result (A : Type) : Type :=
| Ok (a : A)
| Throw (e : exn).

Arguments Ok {A} a.
Arguments Throw {A} e.

Definition bind {A B : Type} (r : result A) (k : A -> result B) : result B :=
  match r with
  | Ok a => k a
  | Throw e => Throw e
  end.

Notation "x <- r ;; k" := (bind r (fun x => k))
  (at level 61, r at next level, right associativity).

(** [xs[i]] followed by a property read: [undefined] raises. *)
Definition index {A : Type} (xs : list A) (i : nat) : result A :=
  match nth_error xs i with
  | Some x => Ok x
  | None => Throw TypeError
  end.

(** ** Data model ([interface]s of index.ts) *)

Module StockDataPoint.
Record t : Type := mk {
  date : string;          (* 'Jan 2020' for monthly, the day otherwise *)
  formattedDate : string; (* 'January 2020' *)
  value : Q;              (* stock price *)
  dividend : Q;           (* dividend per share for that period *)
  timestamp : Z
}.
End StockDataPoint.

Module MonthlyDataPoint.
Record t : Type := mk {
  date : string;
  formattedDate : string;
  stockPrice : number;
  shares : number;
  totalInvested : number;
  portfolioValue : number;
  totalDividends : number;
  cashBalance : number
}.
End MonthlyDataPoint.

Module ChartDataPoint.
Record t : Type := mk {
  date : string;
  formattedDate : string;
  portfolioValue : number;
  totalInvested : number;
  shares : option number;         (* [shares?: number] *)
  totalDividends : option number; (* [totalDividends?: number] *)
  stockPrice : number
}.
End ChartDataPoint.

(** ** Investment simulator: [calculateInvestmentGrowth] *)

Module Sim.

(** The four [let] variables the [map] callback closes over. *)
Record state : Type := mkState {
  totalShares : number;
  cashBalance : number;
  totalInvested : number;
  totalDividendsReceived : number
}.

Definition init (initialBalance : Q) : state :=
  {| totalShares := Num.zero;
     cashBalance := initialBalance;
     totalInvested := initialBalance;
     totalDividendsReceived := Num.zero |}.

(** "Buy initial shares with starting balance if any" *)
Definition initialPurchase (data0 : StockDataPoint.t) (initialBalance : Q)
  : state :=
  let st := init initialBalance in
  if (Fin initialBalance >? Num.zero)%num then
    let initialSharesToBuy :=
      Num.floor (Fin initialBalance / Fin (StockDataPoint.value data0))%num in
    if (initialSharesToBuy >? Num.zero)%num then
      let initialCost :=
        (initialSharesToBuy * Fin (StockDataPoint.value data0))%num in
      {| totalShares := (totalShares st + initialSharesToBuy)%num;
         cashBalance := (cashBalance st - initialCost)%num;
         totalInvested := totalInvested st;
         totalDividendsReceived := totalDividendsReceived st |}
    else st
  else st.

(** The body of the [data.map] callback: the variables after the call and
    the object it returns. *)
Definition monthStep (monthlyInvestment : Q) (st : state)
           (dataPoint : StockDataPoint.t) : state * MonthlyDataPoint.t :=
  (* Add monthly investment *)
  let cashBalance := (cashBalance st + Fin monthlyInvestment)%num in
  let totalInvested := (totalInvested st + Fin monthlyInvestment)%num in
  let totalShares := totalShares st in
  (* Process dividends (if any) *)
  let '(totalDividendsReceived, cashBalance) :=
    if (Fin (StockDataPoint.dividend dataPoint) >? Num.zero)%num
       && (totalShares >? Num.zero)%num
    then
      let dividendAmount :=
        (Fin (StockDataPoint.dividend dataPoint) * totalShares)%num in
      ((totalDividendsReceived st + dividendAmount)%num,
       (cashBalance + dividendAmount)%num)
    else (totalDividendsReceived st, cashBalance) in
  (* Buy whole shares with available cash *)
  let sharesToBuy :=
    Num.floor (cashBalance / Fin (StockDataPoint.value dataPoint))%num in
  let '(cashBalance, totalShares) :=
    if (sharesToBuy >? Num.zero)%num then
      let cost := (sharesToBuy * Fin (StockDataPoint.value dataPoint))%num in
      ((cashBalance - cost)%num, (totalShares + sharesToBuy)%num)
    else (cashBalance, totalShares) in
  (* Calculate portfolio value (shares * current price + remaining cash) *)
  let portfolioValue :=
    (Fin (StockDataPoint.value dataPoint) * totalShares + cashBalance)%num in
  ({| Sim.totalShares := totalShares;
      Sim.cashBalance := cashBalance;
      Sim.totalInvested := totalInvested;
      Sim.totalDividendsReceived := totalDividendsReceived |},
   {| MonthlyDataPoint.date := StockDataPoint.date dataPoint;
      MonthlyDataPoint.formattedDate := StockDataPoint.formattedDate dataPoint;
      MonthlyDataPoint.stockPrice := StockDataPoint.value dataPoint;
      MonthlyDataPoint.shares := totalShares;
      MonthlyDataPoint.totalInvested := totalInvested;
      MonthlyDataPoint.portfolioValue := portfolioValue;
      MonthlyDataPoint.totalDividends := totalDividendsReceived;
      MonthlyDataPoint.cashBalance := cashBalance |}).

(** [data.map(callback)]: the callback runs once per element, in order,
    on the variables the previous call left. *)
Fixpoint mapMonths (monthlyInvestment : Q) (st : state)
         (data : list StockDataPoint.t) : list MonthlyDataPoint.t :=
  match data with
  | [] => []
  | dataPoint :: rest =>
      let '(st', out) := monthStep monthlyInvestment st dataPoint in
      out :: mapMonths monthlyInvestment st' rest
  end.

(** The whole function.  On an empty array the "Time period" log line
    reads [data[0].formattedDate] and raises before anything is computed. *)
Definition calculateInvestmentGrowth (data : list StockDataPoint.t)
           (monthlyInvestment : Q) (initialBalance : Q)
  : result (list MonthlyDataPoint.t) :=
  match data with
  | [] => Throw TypeError
  | data0 :: _ =>
      Ok (mapMonths monthlyInvestment (initialPurchase data0 initialBalance)
                    data)
  end.

End Sim.

(** An observation with the given labels, price and dividend. *)
Definition obs (date formattedDate : string) (price dividend : Q)
  : StockDataPoint.t :=
  StockDataPoint.mk date formattedDate price dividend 0.


(** ** The simulator on binary64 numbers

    The same lines of [calculateInvestmentGrowth] on the numbers the engine
    computes with: IEEE 754 binary64, every operation rounded to nearest,
    ties to even.  These are the kernel's primitive floats, so that a run
    evaluates to the last bit. *)

Module Double.

Import PrimFloat.
Local Open Scope float_scope.

(** The double of an integer below [2^63] in absolute value (exact below
    [2^53]). *)
Definition ofZ (z : Z) : float :=
  match z with
  | Z0 => 0
  | Zpos _ => of_uint63 (Uint63.of_Z z)
  | Zneg _ => - of_uint63 (Uint63.of_Z (- z))
  end.

(** [Math.floor]: a double with a non-negative exponent is an integer
    already; otherwise its mantissa is below [2^53] and so is the floor.
    [NaN], the infinities and the two zeros are returned as they are. *)
Definition floor (x : float) : float :=
  match FloatOps.Prim2SF x with
  | SpecFloat.S754_finite s m e =>
      if (0 <=? e)%Z then x
      else ofZ (Z.shiftl (if s then Zneg m else Zpos m) e)
  | _ => x
  end.

(** The number a double denotes. *)
Definition exact (x : float) : number :=
  match FloatOps.Prim2SF x with
  | SpecFloat.S754_zero _ => Fin 0
  | SpecFloat.S754_infinity false => PosInf
  | SpecFloat.S754_infinity true => NegInf
  | SpecFloat.S754_nan => NaN
  | SpecFloat.S754_finite s m e =>
      let mantissa := if s then Zneg m else Zpos m in
      if (0 <=? e)%Z then Fin (inject_Z (mantissa * 2 ^ e))
      else Fin (Qmake mantissa (2 ^ Z.to_pos (- e)))
  end.

(** The fields of an observation the simulator reads. *)
Module StockDataPoint.
Record t : Type := mk {
  date : string;
  formattedDate : string;
  value : float;
  dividend : float
}.
End StockDataPoint.

Module MonthlyDataPoint.
Record t : Type := mk {
  date : string;
  formattedDate : string;
  stockPrice : float;
  shares : float;
  totalInvested : float;
  portfolioValue : float;
  totalDividends : float;
  cashBalance : float
}.
End MonthlyDataPoint.

(** The four [let] variables the [map] callback closes over. *)
Record state : Type := mkState {
  totalShares : float;
  cashBalance : float;
  totalInvested : float;
  totalDividendsReceived : float
}.

Definition init (initialBalance : float) : state :=
  {| totalShares := 0;
     cashBalance := initialBalance;
     totalInvested := initialBalance;
     totalDividendsReceived := 0 |}.

(** "Buy initial shares with starting balance if any" *)
Definition initialPurchase (data0 : StockDataPoint.t) (initialBalance : float)
  : state :=
  let st := init initialBalance in
  if 0 <? initialBalance then
    let initialSharesToBuy :=
      floor (initialBalance / StockDataPoint.value data0) in
    if 0 <? initialSharesToBuy then
      let initialCost := initialSharesToBuy * StockDataPoint.value data0 in
      {| totalShares := totalShares st + initialSharesToBuy;
         cashBalance := cashBalance st - initialCost;
         totalInvested := totalInvested st;
         totalDividendsReceived := totalDividendsReceived st |}
    else st
  else st.

(** The body of the [data.map] callback. *)
Definition monthStep (monthlyInvestment : float) (st : state)
           (dataPoint : StockDataPoint.t) : state * MonthlyDataPoint.t :=
  (* Add monthly investment *)
  let cashBalance := cashBalance st + monthlyInvestment in
  let totalInvested := totalInvested st + monthlyInvestment in
  let totalShares := totalShares st in
  (* Process dividends (if any) *)
  let '(totalDividendsReceived, cashBalance) :=
    if (0 <? StockDataPoint.dividend dataPoint) && (0 <? totalShares)
    then
      let dividendAmount := StockDataPoint.dividend dataPoint * totalShares in
      (totalDividendsReceived st + dividendAmount,
       cashBalance + dividendAmount)
    else (totalDividendsReceived st, cashBalance) in
  (* Buy whole shares with available cash *)
  let sharesToBuy := floor (cashBalance / StockDataPoint.value dataPoint) in
  let '(cashBalance, totalShares) :=
    if 0 <? sharesToBuy then
      let cost := sharesToBuy * StockDataPoint.value dataPoint in
      (cashBalance - cost, totalShares + sharesToBuy)
    else (cashBalance, totalShares) in
  (* Calculate portfolio value (shares * current price + remaining cash) *)
  let portfolioValue :=
    StockDataPoint.value dataPoint * totalShares + cashBalance in
  ({| Double.totalShares := totalShares;
      Double.cashBalance := cashBalance;
      Double.totalInvested := totalInvested;
      Double.totalDividendsReceived := totalDividendsReceived |},
   {| MonthlyDataPoint.date := StockDataPoint.date dataPoint;
      MonthlyDataPoint.formattedDate := StockDataPoint.formattedDate dataPoint;
      MonthlyDataPoint.stockPrice := StockDataPoint.value dataPoint;
      MonthlyDataPoint.shares := totalShares;
      MonthlyDataPoint.totalInvested := totalInvested;
      MonthlyDataPoint.portfolioValue := portfolioValue;
      MonthlyDataPoint.totalDividends := totalDividendsReceived;
      MonthlyDataPoint.cashBalance := cashBalance |}).

(** [data.map(callback)] *)
Fixpoint mapMonths (monthlyInvestment : float) (st : state)
         (data : list StockDataPoint.t) : list MonthlyDataPoint.t :=
  match data with
  | [] => []
  | dataPoint :: rest =>
      let '(st', out) := monthStep monthlyInvestment st dataPoint in
      out :: mapMonths monthlyInvestment st' rest
  end.

(** The whole function; on an empty array the "Time period" log line
    raises. *)
Definition calculateInvestmentGrowth (data : list StockDataPoint.t)
           (monthlyInvestment : float) (initialBalance : float)
  : result (list MonthlyDataPoint.t) :=
  match data with
  | [] => Throw TypeError
  | data0 :: _ =>
      Ok (mapMonths monthlyInvestment (initialPurchase data0 initialBalance)
                    data)
  end.

(** The running totals an entry records: every variable of the simulator
    is copied into the entry it emits. *)
Definition stateOf (s : MonthlyDataPoint.t) : state :=
  {| totalShares := MonthlyDataPoint.shares s;
     cashBalance := MonthlyDataPoint.cashBalance s;
     totalInvested := MonthlyDataPoint.totalInvested s;
     totalDividendsReceived := MonthlyDataPoint.totalDividends s |}.

(** [b] after [n] additions of [c], each rounded: [((b + c) + c) + ...]. *)
Definition runningSum (b c : float) (n : nat) : float :=
  Nat.iter n (fun total => total + c) b.

(** A monthly observation without dividend. *)
Definition month (date formattedDate : string) (price : float)
  : StockDataPoint.t :=
  StockDataPoint.mk date formattedDate price 0.

End Double.

(** ** Dates

    [new Date(s)] on a display string, then the comparison of two dates by
    their time values.  The parser is the engine's; it is a parameter here,
    with [None] for an [Invalid Date] (whose time value is [NaN], so that
    every comparison with it is false). *)

Section Dates.

Variable parseDate : string -> option Z.

(** [new Date(a) <= new Date(b)] *)
Definition dateLe (a b : string) : bool :=
  match parseDate a, parseDate b with
  | Some x, Some y => (x <=? y)%Z
  | _, _ => false
  end.

(** ** Cross-granularity interpolator: [interpolateChartData] *)

(** The scan "closest without going over": [i] is the loop index of the
    head of [monthlyData], [matchingMonthlyIndex] the variable. *)
Fixpoint scanMatchingIndex (periodDate : string)
         (monthlyData : list MonthlyDataPoint.t)
         (i matchingMonthlyIndex : nat) : nat :=
  match monthlyData with
  | [] => matchingMonthlyIndex
  | m :: rest =>
      if dateLe (MonthlyDataPoint.formattedDate m) periodDate
      then scanMatchingIndex periodDate rest (S i) i
      else matchingMonthlyIndex (* break *)
  end.

Definition matchingMonthlyIndex (periodPoint : StockDataPoint.t)
           (monthlyData : list MonthlyDataPoint.t) : nat :=
  scanMatchingIndex (StockDataPoint.formattedDate periodPoint) monthlyData 0 0.

(** The [periodStockData.map] callback. *)
Definition interpolatePoint (monthlyData : list MonthlyDataPoint.t)
           (periodPoint : StockDataPoint.t) : result ChartDataPoint.t :=
  prevMonthly <- index monthlyData (matchingMonthlyIndex periodPoint monthlyData) ;;
  (* If this is the exact monthly point, use those values *)
  if String.eqb (StockDataPoint.date periodPoint)
                (MonthlyDataPoint.date prevMonthly)
  then
    Ok {| ChartDataPoint.date := StockDataPoint.date periodPoint;
          ChartDataPoint.formattedDate := StockDataPoint.formattedDate periodPoint;
          ChartDataPoint.portfolioValue := MonthlyDataPoint.portfolioValue prevMonthly;
          ChartDataPoint.totalInvested := MonthlyDataPoint.totalInvested prevMonthly;
          ChartDataPoint.shares := None;
          ChartDataPoint.totalDividends := None;
          ChartDataPoint.stockPrice := StockDataPoint.value periodPoint |}
  else
    (* [priceRatio] is computed here and never read *)
    let shareValue :=
      (MonthlyDataPoint.shares prevMonthly
       * Fin (StockDataPoint.value periodPoint))%num in
    let portfolioValue :=
      (shareValue + MonthlyDataPoint.cashBalance prevMonthly)%num in
    Ok {| ChartDataPoint.date := StockDataPoint.date periodPoint;
          ChartDataPoint.formattedDate := StockDataPoint.formattedDate periodPoint;
          ChartDataPoint.portfolioValue := portfolioValue;
          ChartDataPoint.totalInvested := MonthlyDataPoint.totalInvested prevMonthly;
          ChartDataPoint.shares := None;
          ChartDataPoint.totalDividends := None;
          ChartDataPoint.stockPrice := StockDataPoint.value periodPoint |}.

(** [xs.map(f)] for a callback that can raise: the first exception
    leaves the loop. *)
Fixpoint mapM {A B : Type} (f : A -> result B) (xs : list A)
  : result (list B) :=
  match xs with
  | [] => Ok []
  | x :: rest => y <- f x ;; ys <- mapM f rest ;; Ok (y :: ys)
  end.

Definition interpolateChartData (periodStockData : list StockDataPoint.t)
           (monthlyData : list MonthlyDataPoint.t)
  : result (list ChartDataPoint.t) :=
  mapM (interpolatePoint monthlyData) periodStockData.

End Dates.


(** ** Frame pacer: the frame loops of [generateVideo] *)

Inductive ChartPeriod : Type := daily | weekly | monthly.

Definition ChartPeriod_eqb (a b : ChartPeriod) : bool :=
  match a, b with
  | daily, daily | weekly, weekly | monthly, monthly => true
  | _, _ => false
  end.

(** The fields of [ChartConfig] the frame loops read; the others (sizes,
    colours, fonts, image) only reach the renderer. *)
Module ChartConfig.
Record t : Type := mk {
  chartPeriod : option ChartPeriod;
  chartDuration : option Q;
  endingDuration : option Q
}.
End ChartConfig.

(** The arguments of one [chartService.updateChart] call: what a frame
    shows. *)
Module Frame.
Record t : Type := mk {
  dates : list string;
  values : list number;
  title : string;
  totalInvested : list number;
  currentShares : number;
  totalDividends : number;
  formattedDate : string;
  currentStockPrice : number;
  isFinalFrame : bool
}.
End Frame.

Module Pacer.

(** The constructor's defaults: [?? 20], [?? 3], monthly. *)
Definition chartDuration (config : ChartConfig.t) : Q :=
  match ChartConfig.chartDuration config with Some d => d | None => 20 end.

Definition endingDuration (config : ChartConfig.t) : Q :=
  match ChartConfig.endingDuration config with Some d => d | None => 3 end.

Definition chartPeriod (config : ChartConfig.t) : ChartPeriod :=
  match ChartConfig.chartPeriod config with Some p => p | None => monthly end.

Definition fps : Q := 30.

(** [Math.floor] of a finite number is an integer. *)
Definition chartFrames (config : ChartConfig.t) : Z :=
  Qfloor (chartDuration config * fps).

Definition endingFrames (config : ChartConfig.t) : Z :=
  Qfloor (endingDuration config * fps).

Definition ofZ (z : Z) : number := Fin (inject_Z z).

Definition frameStep (config : ChartConfig.t) (len : nat) : number :=
  Num.max (ofZ 1)
          (Num.floor (ofZ (Z.of_nat len) / ofZ (chartFrames config))%num).

(** [xs[i]] for a loop counter [i]: an element only at a non-negative
    integer below the length. *)
Definition toIndex (i : number) : option nat :=
  match i with
  | Fin q =>
      if Qeq_bool q (inject_Z (Qfloor q)) && (0 <=? Qfloor q)%Z
      then Some (Z.to_nat (Qfloor q))
      else None
  | _ => None
  end.

Definition chartOfMonthly (point : MonthlyDataPoint.t) : ChartDataPoint.t :=
  {| ChartDataPoint.date := MonthlyDataPoint.date point;
     ChartDataPoint.formattedDate := MonthlyDataPoint.formattedDate point;
     ChartDataPoint.portfolioValue := MonthlyDataPoint.portfolioValue point;
     ChartDataPoint.totalInvested := MonthlyDataPoint.totalInvested point;
     ChartDataPoint.shares := Some (MonthlyDataPoint.shares point);
     ChartDataPoint.totalDividends := Some (MonthlyDataPoint.totalDividends point);
     ChartDataPoint.stockPrice := MonthlyDataPoint.stockPrice point |}.

Section Loops.

Variable parseDate : string -> option Z.
Variable config : ChartConfig.t.
Variable title : string.
Variable monthlyData : list MonthlyDataPoint.t.
Variable chartData : list ChartDataPoint.t.

(** "Find the corresponding or most recent monthly data point": the
    inner loop over [j], updating [currentMonthlyData]. *)
Fixpoint scanMonthly (pointDate : string)
         (rest : list MonthlyDataPoint.t)
         (currentMonthlyData : option MonthlyDataPoint.t)
  : option MonthlyDataPoint.t :=
  match rest with
  | [] => currentMonthlyData
  | m :: rest' =>
      if dateLe parseDate (MonthlyDataPoint.formattedDate m) pointDate
      then scanMonthly pointDate rest' (Some m)
      else currentMonthlyData (* break *)
  end.

(** One pass through the body of the "regular frames" loop at a
    counter that is the index [i]: the new [currentMonthlyData] and the
    frame pushed.  [None] stands for [undefined]. *)
Definition growthFrame (i : nat)
           (currentMonthlyData : option MonthlyDataPoint.t)
  : result (option MonthlyDataPoint.t * Frame.t) :=
  point <- index chartData i ;;
  let currentMonthlyData :=
    if negb (ChartPeriod_eqb (chartPeriod config) monthly)
    then scanMonthly (ChartDataPoint.formattedDate point) monthlyData
                     currentMonthlyData
    else nth_error monthlyData i in
  match currentMonthlyData with
  | None => Throw TypeError
  | Some cur =>
      Ok (currentMonthlyData,
          {| Frame.dates :=
               map ChartDataPoint.date (firstn (i + 1) chartData);
             Frame.values :=
               map ChartDataPoint.portfolioValue (firstn (i + 1) chartData);
             Frame.title := title;
             Frame.totalInvested :=
               firstn (i + 1) (map ChartDataPoint.totalInvested chartData);
             Frame.currentShares := MonthlyDataPoint.shares cur;
             Frame.totalDividends := MonthlyDataPoint.totalDividends cur;
             Frame.formattedDate := ChartDataPoint.formattedDate point;
             Frame.currentStockPrice := ChartDataPoint.stockPrice point;
             Frame.isFinalFrame := false |})
  end.

(** [for (let i = 0; i < chartData.length; i += frameStep)] from the
    counter value [i] on.  [fuel] bounds the number of passes; [None]
    is returned when it runs out. *)
Fixpoint growthLoop (fuel : nat) (i : number)
         (currentMonthlyData : option MonthlyDataPoint.t)
  : option (result (list Frame.t)) :=
  if (ofZ (Z.of_nat (List.length chartData)) >? i)%num then
    match fuel with
    | O => None
    | S fuel' =>
        match toIndex i with
        | None => Some (Throw TypeError)
        | Some k =>
            match growthFrame k currentMonthlyData with
            | Throw e => Some (Throw e)
            | Ok (currentMonthlyData', frame) =>
                match growthLoop fuel'
                        (i + frameStep config (List.length chartData))%num
                        currentMonthlyData' with
                | None => None
                | Some (Throw e) => Some (Throw e)
                | Some (Ok frames) => Some (Ok (frame :: frames))
                end
            end
        end
    end
  else Some (Ok []).

(** "Generate exactly endingDuration seconds worth of frames": every
    pass pushes the same frame. *)
Definition endingLoop : result (list Frame.t) :=
  if (0 <? endingFrames config)%Z then
    lastPoint <- index chartData (List.length chartData - 1) ;;
    lastMonthlyPoint <- index monthlyData (List.length monthlyData - 1) ;;
    Ok (repeat
          {| Frame.dates := map ChartDataPoint.date chartData;
             Frame.values := map ChartDataPoint.portfolioValue chartData;
             Frame.title := title;
             Frame.totalInvested :=
               map ChartDataPoint.totalInvested chartData;
             Frame.currentShares := MonthlyDataPoint.shares lastMonthlyPoint;
             Frame.totalDividends :=
               MonthlyDataPoint.totalDividends lastMonthlyPoint;
             Frame.formattedDate := ChartDataPoint.formattedDate lastPoint;
             Frame.currentStockPrice := ChartDataPoint.stockPrice lastPoint;
             Frame.isFinalFrame := true |}
          (Z.to_nat (endingFrames config)))
  else Ok [].

(** The regular frames: the loop from [i = 0] with
    [currentMonthlyData = monthlyData[0]]. *)
Definition growthFrames (fuel : nat) : option (result (list Frame.t)) :=
  growthLoop fuel (ofZ 0) (nth_error monthlyData 0).

(** The [frames] array when both loops are done. *)
Definition paceFrames (fuel : nat) : option (result (list Frame.t)) :=
  match growthFrames fuel with
  | None => None
  | Some (Throw e) => Some (Throw e)
  | Some (Ok growth) =>
      match endingLoop with
      | Throw e => Some (Throw e)
      | Ok ending => Some (Ok (growth ++ ending))
      end
  end.

End Loops.

(** [generateVideo] up to the [frames] array: the simulation, the chart
    series of the configured period, the two frame loops.
    [periodStockData] is what the provider returns for a daily or weekly
    chart; the renderer and the encoder are outside. *)
Definition generateVideo (parseDate : string -> option Z)
           (config : ChartConfig.t) (title : string)
           (monthlyStockData periodStockData : list StockDataPoint.t)
           (monthlyInvestment initialBalance : Q) (fuel : nat)
  : option (result (list Frame.t)) :=
  match Sim.calculateInvestmentGrowth monthlyStockData monthlyInvestment
                                      initialBalance with
  | Throw e => Some (Throw e)
  | Ok monthlyData =>
      let chartData :=
        if ChartPeriod_eqb (chartPeriod config) monthly
        then Ok (map chartOfMonthly monthlyData)
        else interpolateChartData parseDate periodStockData monthlyData in
      match chartData with
      | Throw e => Some (Throw e)
      | Ok chartData =>
          paceFrames parseDate config title monthlyData chartData fuel
      end
  end.

(** The number of frames of a finished run. *)
Definition frameCount (r : option (result (list Frame.t))) : option nat :=
  match r with
  | Some (Ok frames) => Some (List.length frames)
  | _ => None
  end.

End Pacer.


(** ** The simulator as the specification words it

    Steps 2a to 2d of the specification's algorithm, each as a function of
    its own on the running totals, to be compared with [Sim.monthStep]. *)

Module SimSpec.

Import Sim.

(** 2a. Add the per-period contribution to cash balance; add it to the
    cumulative contributed total. *)
Definition contribute (contribution : Q) (st : state) : state :=
  {| totalShares := totalShares st;
     cashBalance := (cashBalance st + Fin contribution)%num;
     totalInvested := (totalInvested st + Fin contribution)%num;
     totalDividendsReceived := totalDividendsReceived st |}.

(** 2b. The payout of the period: [dividendPerShare * sharesHeld] when
    both are positive, nothing otherwise. *)
Definition dividendDue (dividendPerShare : Q) (st : state) : bool :=
  (Fin dividendPerShare >? Num.zero)%num && (totalShares st >? Num.zero)%num.

Definition dividendPayout (dividendPerShare : Q) (st : state) : number :=
  if dividendDue dividendPerShare st
  then (Fin dividendPerShare * totalShares st)%num
  else Num.zero.

Definition payDividend (dividendPerShare : Q) (st : state) : state :=
  if dividendDue dividendPerShare st then
    {| totalShares := totalShares st;
       cashBalance := (cashBalance st + dividendPayout dividendPerShare st)%num;
       totalInvested := totalInvested st;
       totalDividendsReceived :=
         (totalDividendsReceived st + dividendPayout dividendPerShare st)%num |}
  else st.

(** 2c. The single purchase attempt: [sharesToBuy = floor(cash / price)]. *)
Definition purchase (price : Q) (st : state) : state :=
  let sharesToBuy := Num.floor (cashBalance st / Fin price)%num in
  if (sharesToBuy >? Num.zero)%num then
    {| totalShares := (totalShares st + sharesToBuy)%num;
       cashBalance := (cashBalance st - sharesToBuy * Fin price)%num;
       totalInvested := totalInvested st;
       totalDividendsReceived := totalDividendsReceived st |}
  else st.

(** 2d. The emitted entry, [portfolioValue = sharesHeld * price + cash]. *)
Definition emit (p : StockDataPoint.t) (st : state) : MonthlyDataPoint.t :=
  {| MonthlyDataPoint.date := StockDataPoint.date p;
     MonthlyDataPoint.formattedDate := StockDataPoint.formattedDate p;
     MonthlyDataPoint.stockPrice := StockDataPoint.value p;
     MonthlyDataPoint.shares := totalShares st;
     MonthlyDataPoint.totalInvested := totalInvested st;
     MonthlyDataPoint.portfolioValue :=
       (totalShares st * Fin (StockDataPoint.value p) + cashBalance st)%num;
     MonthlyDataPoint.totalDividends := totalDividendsReceived st;
     MonthlyDataPoint.cashBalance := cashBalance st |}.

(** One period: contribution, then dividend, then purchase. *)
Definition period (contribution : Q) (p : StockDataPoint.t) (st : state)
  : state :=
  purchase (StockDataPoint.value p)
           (payDividend (StockDataPoint.dividend p)
                        (contribute contribution st)).

Fixpoint run (contribution : Q) (st : state) (data : list StockDataPoint.t)
  : list MonthlyDataPoint.t :=
  match data with
  | [] => []
  | p :: rest =>
      let st' := period contribution p st in
      emit p st' :: run contribution st' rest
  end.

End SimSpec.

(** ** Predicates on the simulator's totals and entries *)

Module SimInvariant.

Import Sim.

(** The running totals are finite, and the cash is not negative. *)
Definition sound (st : state) : Prop :=
  exists sh ca ti td : Q,
    st = mkState (Fin sh) (Fin ca) (Fin ti) (Fin td) /\ 0 <= ca.

(** Componentwise order of the three cumulative totals. *)
Definition grows (st st' : state) : Prop :=
  (totalShares st <= totalShares st')%num
  /\ (totalInvested st <= totalInvested st')%num
  /\ (totalDividendsReceived st <= totalDividendsReceived st')%num.

(** An emitted entry against the running totals before its period. *)
Definition after (st : state) (s : MonthlyDataPoint.t) : Prop :=
  (totalShares st <= MonthlyDataPoint.shares s)%num
  /\ (totalInvested st <= MonthlyDataPoint.totalInvested s)%num
  /\ (totalDividendsReceived st <= MonthlyDataPoint.totalDividends s)%num.

(** Two entries of the output, the second later than the first. *)
Definition nondecreasing (s s' : MonthlyDataPoint.t) : Prop :=
  (MonthlyDataPoint.shares s <= MonthlyDataPoint.shares s')%num
  /\ (MonthlyDataPoint.totalInvested s <= MonthlyDataPoint.totalInvested s')%num
  /\ (MonthlyDataPoint.totalDividends s <= MonthlyDataPoint.totalDividends s')%num.

(** What holds of the entry emitted for the observation [p]. *)
Definition settled (p : StockDataPoint.t) (s : MonthlyDataPoint.t) : Prop :=
  MonthlyDataPoint.stockPrice s = Fin (StockDataPoint.value p)
  /\ (Num.zero <= MonthlyDataPoint.cashBalance s)%num
  /\ (MonthlyDataPoint.cashBalance s < MonthlyDataPoint.stockPrice s)%num.

End SimInvariant.

(** ** Predicates on the interpolator's inputs *)

Section DatePredicates.

Variable parseDate : string -> option Z.

(** The monthly state [m] has started by the date of [p]: the comparison
    the interpolator makes. *)
Definition startedBy (m : MonthlyDataPoint.t) (p : StockDataPoint.t)
  : Prop :=
  dateLe parseDate (MonthlyDataPoint.formattedDate m)
         (StockDataPoint.formattedDate p) = true.

(** [m], at index [j], is the latest monthly state started by the date of
    [p]. *)
Definition latestStartedBy (monthlyData : list MonthlyDataPoint.t)
           (p : StockDataPoint.t) (j : nat) (m : MonthlyDataPoint.t)
  : Prop :=
  nth_error monthlyData j = Some m
  /\ startedBy m p
  /\ forall j' m',
      (j < j')%nat -> nth_error monthlyData j' = Some m' -> ~ startedBy m' p.

(** The monthly series is in date order (and its dates are valid). *)
Definition chronological (monthlyData : list MonthlyDataPoint.t) : Prop :=
  forall a b ma mb,
    (a <= b)%nat ->
    nth_error monthlyData a = Some ma ->
    nth_error monthlyData b = Some mb ->
    dateLe parseDate (MonthlyDataPoint.formattedDate ma)
           (MonthlyDataPoint.formattedDate mb) = true.

(** The date [a] is strictly before the date [b]. *)
Definition precedes (a b : string) : Prop :=
  exists x y, parseDate a = Some x /\ parseDate b = Some y /\ (x < y)%Z.

End DatePredicates.

(** ** The frame pacer as the specification words it *)

Module PacerSpec.

(** What a frame plots: the labels, the values, the total input and the
    final flag. *)
Definition shown (f : Frame.t)
  : list string * list number * list number * bool :=
  (Frame.dates f, Frame.values f, Frame.totalInvested f,
   Frame.isFinalFrame f).

(** The cumulative prefix [DisplayPoint[0..i]]. *)
Definition prefix (chartData : list ChartDataPoint.t) (i : nat)
           (isFinal : bool)
  : list string * list number * list number * bool :=
  (map ChartDataPoint.date (firstn (i + 1) chartData),
   map ChartDataPoint.portfolioValue (firstn (i + 1) chartData),
   map ChartDataPoint.totalInvested (firstn (i + 1) chartData),
   isFinal).

(** The entire series, as a freeze frame carries it. *)
Definition entire (chartData : list ChartDataPoint.t)
  : list string * list number * list number * bool :=
  (map ChartDataPoint.date chartData,
   map ChartDataPoint.portfolioValue chartData,
   map ChartDataPoint.totalInvested chartData,
   true).

(** The step as a count of indices; [None] when it is not finite
    ([chartFrames = 0]). *)
Definition stepOf (config : ChartConfig.t) (len : nat) : option nat :=
  match Pacer.frameStep config len with
  | Fin q => Some (Z.to_nat (Qfloor q))
  | _ => None
  end.

(** Step 3: the indices [0, step, 2 step, ...] below [len]; there are
    [ceil (len / step)] of them. *)
Definition growthCount (step len : nat) : nat := (len + step - 1) / step.

Definition growthIndices (step len : nat) : list nat :=
  map (fun k => k * step)%nat (seq 0 (growthCount step len)).

(** With a step that is not finite the counter leaves the loop after the
    first pass. *)
Definition indices (config : ChartConfig.t) (len : nat) : list nat :=
  match stepOf config len with
  | Some step => growthIndices step len
  | None => [0%nat]
  end.

(** Inputs on which no frame reads a property of [undefined]: some
    monthly state exists and, for a monthly chart, every chart point has
    its monthly state. *)
Definition compatible (config : ChartConfig.t)
           (monthlyData : list MonthlyDataPoint.t)
           (chartData : list ChartDataPoint.t) : Prop :=
  monthlyData <> []
  /\ (Pacer.chartPeriod config = monthly ->
      (List.length chartData <= List.length monthlyData)%nat).

End PacerSpec.

(** ** The provider's response: the pure part of [fetchStockData]

    The call to the provider is outside; what it resolves to is the input
    here.  Time values are integers, in milliseconds for a quote and in
    seconds for a dividend.  [Date.prototype.toLocaleString] is the
    engine's and comes as four parameters: the short and the long label of
    a valid time value, with ([day...]) or without ([month...]) the day of
    the month. *)

Module Yahoo.

(** One entry of [result.quotes]; [close] is [number | null]. *)
Record Quote : Type := mkQuote {
  quoteDate : Z;
  close : option Q
}.

(** One entry of [result.events.dividends]; the date is in seconds. *)
Record Dividend : Type := mkDividend {
  dividendDate : Z;
  amount : Q
}.

(** [quotes] may be missing, and so may [events?.dividends]. *)
Record Response : Type := mkResponse {
  quotes : option (list Quote);
  dividends : option (list Dividend)
}.

(** What the function rejects with: an [Error] with its message, or the
    [RangeError] of [toISOString] on an [Invalid Date]. *)
Inductive failure : Type :=
| Error (message : string)
| RangeError.

Inductive fetched (A : Type) : Type :=
| Fetched (a : A)
| Failed (e : failure).

Arguments Fetched {A} a.
Arguments Failed {A} e.

(** [new Date(t)] is a date when [t] is within 8.64e15 milliseconds of
    the epoch, and [Invalid Date] beyond. *)
Definition validTime (t : Z) : bool := (Z.abs t <=? 8640000000000000)%Z.

(** [date.toLocaleString(...)]: the label of a date, and "Invalid Date". *)
Definition localeLabel (label : Z -> string) (t : Z) : string :=
  if validTime t then label t else "Invalid Date".

(** A [Map<string, number>]: the entries in insertion order. *)
Fixpoint mapGet (key : string) (m : list (string * Q)) : option Q :=
  match m with
  | [] => None
  | (k, v) :: rest => if String.eqb k key then Some v else mapGet key rest
  end.

Fixpoint mapSet (key : string) (v : Q) (m : list (string * Q))
  : list (string * Q) :=
  match m with
  | [] => [(key, v)]
  | (k, v0) :: rest =>
      if String.eqb k key then (k, v) :: rest
      else (k, v0) :: mapSet key v rest
  end.

(** [x || 0] for [x] a number or [undefined]. *)
Definition orZero (x : option Q) : Q :=
  match x with
  | Some v => if Qeq_bool v 0 then 0 else v
  | None => 0
  end.

Section Fetch.

Variables monthShort monthLong dayShort dayLong : Z -> string.

(** [getMonthKey(date)] *)
Definition getMonthKey (date : Z) : string := localeLabel monthShort date.

(** [formatDate(date, period)]: [(shortFormat, longFormat)]. *)
Definition formatDate (date : Z) (period : ChartPeriod) : string * string :=
  match period with
  | daily => (localeLabel dayShort date, localeLabel dayLong date)
  | weekly => (localeLabel dayShort date, localeLabel dayLong date)
  | monthly => (localeLabel monthShort date, localeLabel monthLong date)
  end.

(** The month key of a dividend: that of [new Date(dividend.date * 1000)]. *)
Definition dividendKey (dividend : Dividend) : string :=
  getMonthKey (dividendDate dividend * 1000)%Z.

(** "If multiple dividends in same month, add them". *)
Definition recordDividend (dividendMap : list (string * Q))
           (dividend : Dividend) : list (string * Q) :=
  let monthKey := dividendKey dividend in
  let existingDividend := orZero (mapGet monthKey dividendMap) in
  mapSet monthKey (existingDividend + amount dividend) dividendMap.

(** One pass of the loop over [result.events.dividends]: the map is
    updated, then the "Found dividend" line is logged, whose
    [date.toISOString()] raises on an [Invalid Date]. *)
Definition addDividend (dividendMap : list (string * Q)) (dividend : Dividend)
  : fetched (list (string * Q)) :=
  let dividendMap := recordDividend dividendMap dividend in
  if validTime (dividendDate dividend * 1000)%Z
  then Fetched dividendMap
  else Failed RangeError.

Fixpoint addDividends (ds : list Dividend) (dividendMap : list (string * Q))
  : fetched (list (string * Q)) :=
  match ds with
  | [] => Fetched dividendMap
  | dividend :: rest =>
      match addDividend dividendMap dividend with
      | Failed e => Failed e
      | Fetched dividendMap => addDividends rest dividendMap
      end
  end.

Definition buildDividendMap (dividends : option (list Dividend))
  : fetched (list (string * Q)) :=
  match dividends with
  | Some ds => addDividends ds []
  | None => Fetched []
  end.

(** The [result.quotes.map] callback; [!quote.close] holds of [null] and
    of 0. *)
Definition combineQuote (period : ChartPeriod)
           (dividendMap : list (string * Q)) (quote : Quote)
  : fetched StockDataPoint.t :=
  match close quote with
  | None => Failed (Error "Missing stock price data")
  | Some price =>
      if Qeq_bool price 0 then Failed (Error "Missing stock price data")
      else
        let '(shortFormat, longFormat) := formatDate (quoteDate quote) period in
        let dividend :=
          if ChartPeriod_eqb period monthly
          then orZero (mapGet shortFormat dividendMap)
          else 0 in
        Fetched {| StockDataPoint.date := shortFormat;
                   StockDataPoint.formattedDate := longFormat;
                   StockDataPoint.value := price;
                   StockDataPoint.dividend := dividend;
                   StockDataPoint.timestamp := quoteDate quote |}
  end.

Fixpoint combineQuotes (period : ChartPeriod)
         (dividendMap : list (string * Q)) (qs : list Quote)
  : fetched (list StockDataPoint.t) :=
  match qs with
  | [] => Fetched []
  | quote :: rest =>
      match combineQuote period dividendMap quote with
      | Failed e => Failed e
      | Fetched point =>
          match combineQuotes period dividendMap rest with
          | Failed e => Failed e
          | Fetched points => Fetched (point :: points)
          end
      end
  end.

(** [fetchStockData] from the provider's response on. *)
Definition fetchStockData (result : Response) (period : ChartPeriod)
  : fetched (list StockDataPoint.t) :=
  match quotes result with
  | None => Failed (Error "Failed to fetch stock data")
  | Some qs =>
      match buildDividendMap (dividends result) with
      | Failed e => Failed e
      | Fetched dividendMap => combineQuotes period dividendMap qs
      end
  end.

(** [fetchMonthlyStockData] *)
Definition fetchMonthlyStockData (result : Response)
  : fetched (list StockDataPoint.t) :=
  fetchStockData result monthly.

(** The dividends of the response, none when the events are missing. *)
Definition dividendsOf (result : Response) : list Dividend :=
  match dividends result with
  | Some ds => ds
  | None => []
  end.

(** Every dividend of the response has a date. *)
Definition dated (result : Response) : Prop :=
  Forall (fun d => validTime (dividendDate d * 1000)%Z = true)
         (dividendsOf result).

(** A quote the callback accepts: a price that is neither [null] nor 0. *)
Definition priced (quote : Quote) : Prop :=
  exists price, close quote = Some price /\ ~ price == 0.

End Fetch.

End Yahoo.

(** ** The chart service: axis labels and the title

    [formatXAxisLabels], and the word wrapping of the title in
    [updateChart].  The canvas is outside: [measureText] is a parameter and
    the [fillText] calls of the title are the result. *)

Module Chart.

(** [hay.includes(needle)] *)
Fixpoint includes (needle hay : string) : bool :=
  if String.prefix needle hay then true
  else
    match hay with
    | EmptyString => false
    | String _ rest => includes needle rest
    end.

Definition keptDaily (totalPoints : nat) (date : string) : bool :=
  includes "1," date || ((totalPoints <? 60)%nat && includes "15," date).

Definition keptWeekly (date : string) : bool :=
  includes "1," date || includes "2," date || includes "3," date
  || includes "4," date || includes "5," date || includes "6," date
  || includes "7," date.

(** [formatXAxisLabels(dates)]; the period is the configured one, monthly
    when absent. *)
Definition formatXAxisLabels (config : ChartConfig.t) (dates : list string)
  : list string :=
  match Pacer.chartPeriod config with
  | monthly => dates
  | daily =>
      map (fun date =>
             if keptDaily (List.length dates) date then date else ""%string)
          dates
  | weekly =>
      map (fun date => if keptWeekly date then date else ""%string) dates
  end.

(** [title.split(' ')]: the pieces between the spaces, at least one. *)
Fixpoint splitSpaces (s : string) : list string :=
  match s with
  | EmptyString => [EmptyString]
  | String c rest =>
      if Ascii.eqb c " "%char then EmptyString :: splitSpaces rest
      else
        match splitSpaces rest with
        | word :: words => String c word :: words
        | [] => [String c EmptyString]
        end
  end.

(** [calculateDimensions]: the title area starts under the logo
    ([imageHeight + padding]) and leaves a padding of 40 on each side. *)
Definition titleAreaY : Q := 300 + 40.

Definition titleAreaWidth (width : Q) : Q := width - 40 * 2.

(** The texts of the lines, one after the other. *)
Definition spelled (lines : list string) : string :=
  fold_right String.append EmptyString lines.

Section Title.

Variable measureText : string -> Q.
Variable width : Q.

(** The variables of the wrapping loop: the line being built, its
    baseline, and the [fillText] calls made so far (text and baseline). *)
Record wrapping : Type := mkWrapping {
  line : string;
  y : Q;
  drawn : list (string * Q)
}.

(** One pass of the loop at the word of index [i]. *)
Definition wrapWord (st : wrapping) (i : nat) (word : string) : wrapping :=
  let testLine := (line st ++ word ++ " ")%string in
  if Num.Qltb (titleAreaWidth width) (measureText testLine)
     && Nat.ltb 0 i
  then {| line := (word ++ " ")%string;
          y := y st + 50;
          drawn := drawn st ++ [(line st, y st)] |}
  else {| line := testLine; y := y st; drawn := drawn st |}.

Fixpoint wrapWords (st : wrapping) (i : nat) (words : list string)
  : wrapping :=
  match words with
  | [] => st
  | word :: rest => wrapWords (wrapWord st i word) (S i) rest
  end.

(** "Draw title with word wrapping": every [fillText] of the title, in
    order, the last one after the loop. *)
Definition drawTitle (title : string) : list (string * Q) :=
  let st := wrapWords {| line := ""; y := titleAreaY + 40; drawn := [] |}
                      0 (splitSpaces title) in
  drawn st ++ [(line st, y st)].

(** A drawn line is within the title area, or is one of the words, with
    its space, alone. *)
Definition fitsOrSingle (words : list string) (text : string) : Prop :=
  measureText text <= titleAreaWidth width
  \/ exists word, In word words /\ text = (word ++ " ")%string.

(** What the loop keeps true after [i] words, [processed]: the lines drawn
    and the line being built spell the words, each with its space; the
    baselines go down by 50; every line drawn is within the area or a
    single word; fewer lines are drawn than words were read. *)
Definition wellWrapped (st : wrapping) (i : nat) (processed : list string)
  : Prop :=
  spelled (map fst (drawn st) ++ [line st])
  = spelled (map (fun word => (word ++ " ")%string) processed)
  /\ y st
     == titleAreaY + 40 + 50 * inject_Z (Z.of_nat (List.length (drawn st)))
  /\ (forall k text yk,
        nth_error (drawn st) k = Some (text, yk) ->
        yk == titleAreaY + 40 + 50 * inject_Z (Z.of_nat k))
  /\ Forall (fun l => fitsOrSingle processed (fst l)) (drawn st)
  /\ (i = 0%nat -> line st = EmptyString /\ drawn st = [])
  /\ ((0 < i)%nat ->
      fitsOrSingle processed (line st)
      /\ (List.length (drawn st) < i)%nat)
  /\ i = List.length processed.

End Title.

End Chart.

(** ** Example inputs *)

Module Examples.

(** Monthly prices 10, 10, 20 without dividends. *)
Definition prices_10_10_20 : list StockDataPoint.t :=
  [obs "Jan 2020" "January 2020" 10 0;
   obs "Feb 2020" "February 2020" 10 0;
   obs "Mar 2020" "March 2020" 20 0].

(** One month at price 10 that pays a dividend of 1.00 per share. *)
Definition price_10_dividend_1 : list StockDataPoint.t :=
  [obs "Jan 2020" "January 2020" 10 1].

(** A parser that knows four dates, as day numbers from 1 January 2020. *)
Definition parseDate (s : string) : option Z :=
  if String.eqb s "December 15, 2019" then Some (-17)%Z
  else if String.eqb s "January 2020" then Some 0%Z
  else if String.eqb s "January 15, 2020" then Some 14%Z
  else if String.eqb s "February 2020" then Some 31%Z
  else None.

(** Two months at prices 10 and 20, and what the simulator returns for
    them with contribution 105 and no initial balance. *)
Definition two_months : list StockDataPoint.t :=
  [obs "Jan 2020" "January 2020" 10 0; obs "Feb 2020" "February 2020" 20 0].

Definition january : MonthlyDataPoint.t :=
  {| MonthlyDataPoint.date := "Jan 2020";
     MonthlyDataPoint.formattedDate := "January 2020";
     MonthlyDataPoint.stockPrice := Fin 10;
     MonthlyDataPoint.shares := Fin 10;
     MonthlyDataPoint.totalInvested := Fin 105;
     MonthlyDataPoint.portfolioValue := Fin 105;
     MonthlyDataPoint.totalDividends := Fin 0;
     MonthlyDataPoint.cashBalance := Fin 5 |}.

Definition february : MonthlyDataPoint.t :=
  {| MonthlyDataPoint.date := "Feb 2020";
     MonthlyDataPoint.formattedDate := "February 2020";
     MonthlyDataPoint.stockPrice := Fin 20;
     MonthlyDataPoint.shares := Fin 15;
     MonthlyDataPoint.totalInvested := Fin 210;
     MonthlyDataPoint.portfolioValue := Fin 310;
     MonthlyDataPoint.totalDividends := Fin 0;
     MonthlyDataPoint.cashBalance := Fin 10 |}.

(** A denser observation on the January boundary, one inside January and
    one before the first month. *)
Definition on_january : StockDataPoint.t :=
  obs "Jan 2020" "January 2020" 11 0.

Definition mid_january : StockDataPoint.t :=
  obs "Jan 15, 2020" "January 15, 2020" 12 0.

Definition mid_december : StockDataPoint.t :=
  obs "Dec 15, 2019" "December 15, 2019" 9 0.

(** The configuration of a run without options: 20 seconds of chart,
    3 seconds of ending, a monthly chart. *)
Definition defaultConfig : ChartConfig.t := ChartConfig.mk None None None.

(** A monthly chart of the two months. *)
Definition two_month_chart : list ChartDataPoint.t :=
  map Pacer.chartOfMonthly [january; february].

(** A monthly chart of 601 months, one more than the chart frames of the
    default configuration. *)
Definition long_monthly : list MonthlyDataPoint.t := repeat january 601.

Definition long_chart : list ChartDataPoint.t :=
  map Pacer.chartOfMonthly long_monthly.

(** Two months at price 10, the second paying 1.00 per share. *)
Definition dividend_in_second_month : list StockDataPoint.t :=
  [obs "Jan 2020" "January 2020" 10 0; obs "Feb 2020" "February 2020" 10 1].

(** A labelling of time values, taken as days from 1 January 2020, and
    provider's responses of two monthly quotes: one without dividends, one
    whose second quote has no price, one with two dividends in February
    and one in December. *)
Definition monthLabel (date : Z) : string :=
  if (date <? 0)%Z then "Dec 2019"
  else if (date <? 31)%Z then "Jan 2020"
  else "Feb 2020".

Definition response : Yahoo.Response :=
  {| Yahoo.quotes :=
       Some [Yahoo.mkQuote 0 (Some 10); Yahoo.mkQuote 31 (Some 20)];
     Yahoo.dividends := None |}.

Definition response_with_dividends : Yahoo.Response :=
  {| Yahoo.quotes :=
       Some [Yahoo.mkQuote 0 (Some 10); Yahoo.mkQuote 31 (Some 20)];
     Yahoo.dividends :=
       Some [Yahoo.mkDividend 1 (1 # 2); Yahoo.mkDividend (-1) 9;
             Yahoo.mkDividend 2 (1 # 4)] |}.

Definition response_missing_price : Yahoo.Response :=
  {| Yahoo.quotes :=
       Some [Yahoo.mkQuote 0 (Some 10); Yahoo.mkQuote 31 None];
     Yahoo.dividends := None |}.

(** Responses with one dividend in February and one in December; with a
    dividend dated beyond the last valid time value; and without any
    quote. *)
Definition response_one_dividend : Yahoo.Response :=
  {| Yahoo.quotes :=
       Some [Yahoo.mkQuote 0 (Some 10); Yahoo.mkQuote 31 (Some 20)];
     Yahoo.dividends :=
       Some [Yahoo.mkDividend (-1) 9; Yahoo.mkDividend 1 (1 # 2)] |}.

Definition response_undated_dividend : Yahoo.Response :=
  {| Yahoo.quotes :=
       Some [Yahoo.mkQuote 0 (Some 10); Yahoo.mkQuote 31 (Some 20)];
     Yahoo.dividends := Some [Yahoo.mkDividend 8640000000001 1] |}.

Definition response_without_quotes : Yahoo.Response :=
  {| Yahoo.quotes := Some []; Yahoo.dividends := None |}.

(** The labels of the engine for the time values of the examples: long
    month labels, and day labels for 15 January and 14 February 2020; and
    the provider's daily response for these two days. *)
Definition monthLongLabel (date : Z) : string :=
  if (date <? 0)%Z then "December 2019"
  else if (date <? 31)%Z then "January 2020"
  else "February 2020".

Definition dayLabel (date : Z) : string :=
  if (date <? 31)%Z then "Jan 15, 2020" else "Feb 14, 2020".

Definition dayLongLabel (date : Z) : string :=
  if (date <? 31)%Z then "January 15, 2020" else "February 14, 2020".

Definition response_daily : Yahoo.Response :=
  {| Yahoo.quotes :=
       Some [Yahoo.mkQuote 14 (Some 12); Yahoo.mkQuote 44 (Some 25)];
     Yahoo.dividends := None |}.

(** What is fetched from [response] and from [response_daily], and the
    chart of the two days against the two simulated months. *)
Definition fetched_months : list StockDataPoint.t :=
  [StockDataPoint.mk "Jan 2020" "January 2020" 10 0 0;
   StockDataPoint.mk "Feb 2020" "February 2020" 20 0 31].

Definition fetched_days : list StockDataPoint.t :=
  [StockDataPoint.mk "Jan 15, 2020" "January 15, 2020" 12 0 14;
   StockDataPoint.mk "Feb 14, 2020" "February 14, 2020" 25 0 44].

Definition days_chart : list ChartDataPoint.t :=
  [ChartDataPoint.mk "Jan 15, 2020" "January 15, 2020"
                     (Fin 125) (Fin 105) None None (Fin 12);
   ChartDataPoint.mk "Feb 14, 2020" "February 14, 2020"
                     (Fin 385) (Fin 210) None None (Fin 25)].

(** A parser that also knows the trading days 1 April and 14 February
    2020, and the label of April: [new Date] reads "April 2020" as the
    first instant of 1 April. *)
Definition parseDay (s : string) : option Z :=
  if String.eqb s "February 14, 2020" then Some 44%Z
  else if String.eqb s "April 2020" then Some 91%Z
  else if String.eqb s "April 1, 2020" then Some 91%Z
  else parseDate s.

(** The daily observation of 14 February 2020, at price 25; and what it
    would be had the price stayed at February's 20. *)
Definition mid_february : StockDataPoint.t :=
  obs "Feb 14, 2020" "February 14, 2020" 25 0.

Definition mid_february_unchanged : StockDataPoint.t :=
  obs "Feb 14, 2020" "February 14, 2020" 20 0.

(** The monthly state of April 2020 and the daily observation of its first
    day, as the provider labels them. *)
Definition april : MonthlyDataPoint.t :=
  {| MonthlyDataPoint.date := "Apr 2020";
     MonthlyDataPoint.formattedDate := "April 2020";
     MonthlyDataPoint.stockPrice := Fin 10;
     MonthlyDataPoint.shares := Fin 10;
     MonthlyDataPoint.totalInvested := Fin 105;
     MonthlyDataPoint.portfolioValue := Fin 105;
     MonthlyDataPoint.totalDividends := Fin 0;
     MonthlyDataPoint.cashBalance := Fin 5 |}.

Definition on_april_first : StockDataPoint.t :=
  obs "Apr 1, 2020" "April 1, 2020" 12 0.

(** A chart of a twentieth of a second with an ending of a hundredth: one
    chart frame and no ending frame. *)
Definition briefConfig : ChartConfig.t :=
  ChartConfig.mk None (Some (1 # 20)) (Some (1 # 100)).

(** Binary64 inputs: the doubles nearest to 85.04, 19.16, 1.48, 19.24 and
    0.1 (the quotient of two small integers is rounded once, as the literal
    is), and the monthly series built from them. *)
Definition cents (n : Z) : PrimFloat.float :=
  PrimFloat.div (Double.ofZ n) (Double.ofZ 100).

Definition tenth : PrimFloat.float :=
  PrimFloat.div (Double.ofZ 1) (Double.ofZ 10).

Definition months_8504_1916 : list Double.StockDataPoint.t :=
  [Double.month "Jan 2020" "January 2020" (cents 8504);
   Double.month "Feb 2020" "February 2020" (cents 1916)].

Definition month_148 : list Double.StockDataPoint.t :=
  [Double.month "Jan 2020" "January 2020" (cents 148)].

Definition ten_months_at_10 : list Double.StockDataPoint.t :=
  repeat (Double.month "Jan 2020" "January 2020" (Double.ofZ 10)) 10.

(** Two months at price 10, the second paying 0.1 per share. *)
Definition tenth_dividend_in_second_month : list Double.StockDataPoint.t :=
  [Double.month "Jan 2020" "January 2020" (Double.ofZ 10);
   Double.StockDataPoint.mk "Feb 2020" "February 2020" (Double.ofZ 10) tenth].

End Examples.

(** ** Predicates on the denser series *)

Section SeriesPredicates.

Variable parseDate : string -> option Z.

(** The denser series is in date order (and its dates are valid). *)
Definition dateOrdered (periodStockData : list StockDataPoint.t) : Prop :=
  forall i j pi pj,
    (i <= j)%nat ->
    nth_error periodStockData i = Some pi ->
    nth_error periodStockData j = Some pj ->
    dateLe parseDate (StockDataPoint.formattedDate pi)
           (StockDataPoint.formattedDate pj) = true.

End SeriesPredicates.

(** * Properties *)

(** ** Facts about numbers *)

Module NumFacts.

Import Num.

Lemma Qltb_lt (a b : Q) : Qltb a b = true <-> a < b.
Proof.
  unfold Qltb. rewrite negb_true_iff.
  split; intro H.
  - apply Qnot_le_lt. intro Hle. apply Qle_bool_iff in Hle. congruence.
  - destruct (Qle_bool b a) eqn:E; [|reflexivity].
    apply Qle_bool_iff in E. exfalso. apply (Qlt_not_le _ _ H E).
Qed.

Lemma Qltb_ge (a b : Q) : Qltb a b = false <-> b <= a.
Proof.
  unfold Qltb. rewrite negb_false_iff. apply Qle_bool_iff.
Qed.

Lemma Qmult_comm_eq (x y : Q) : (x * y)%Q = (y * x)%Q.
Proof.
  destruct x as [a b], y as [c d]. unfold Qmult. simpl.
  rewrite (Z.mul_comm a c), (Pos.mul_comm b d). reflexivity.
Qed.

Lemma mul_comm (a b : number) : (a * b)%num = (b * a)%num.
Proof.
  destruct a, b; simpl; try reflexivity.
  f_equal. apply Qmult_comm_eq.
Qed.

Lemma eqv_refl (a : number) : (a ~= a)%num.
Proof. destruct a; simpl; auto. reflexivity. Qed.

Lemma eqv_sym (a b : number) : (a ~= b)%num -> (b ~= a)%num.
Proof. destruct a, b; simpl; auto. intro H. symmetry. exact H. Qed.

Lemma eqv_trans (a b c : number) :
  (a ~= b)%num -> (b ~= c)%num -> (a ~= c)%num.
Proof.
  destruct a, b, c; simpl; try tauto. intros H1 H2. rewrite H1. exact H2.
Qed.

Lemma gtb_zero_Fin (q : Q) : (Fin q >? zero)%num = true <-> 0 < q.
Proof. simpl. apply Qltb_lt. Qed.

End NumFacts.

(** ** The simulator follows the specified order of steps *)

Lemma monthStep_period (c : Q) (st : Sim.state) (p : StockDataPoint.t) :
  Sim.monthStep c st p
  = (SimSpec.period c p st, SimSpec.emit p (SimSpec.period c p st)).
Proof.
  unfold Sim.monthStep, SimSpec.period, SimSpec.purchase, SimSpec.payDividend,
    SimSpec.dividendPayout, SimSpec.dividendDue, SimSpec.emit,
    SimSpec.contribute.
  cbn [Sim.totalShares Sim.cashBalance Sim.totalInvested
       Sim.totalDividendsReceived].
  destruct ((Fin (StockDataPoint.dividend p) >? Num.zero)%num
            && (Sim.totalShares st >? Num.zero)%num);
    cbn [Sim.totalShares Sim.cashBalance Sim.totalInvested
         Sim.totalDividendsReceived];
    match goal with
    | |- context [(Num.floor ?x >? Num.zero)%num] =>
        destruct (Num.floor x >? Num.zero)%num
    end;
    cbn [Sim.totalShares Sim.cashBalance Sim.totalInvested
         Sim.totalDividendsReceived];
    rewrite (NumFacts.mul_comm (Fin (StockDataPoint.value p)));
    reflexivity.
Qed.

Lemma mapMonths_run (c : Q) (data : list StockDataPoint.t) :
  forall st, Sim.mapMonths c st data = SimSpec.run c st data.
Proof.
  induction data as [|p rest IH]; intro st; simpl.
  - reflexivity.
  - rewrite monthStep_period, IH. reflexivity.
Qed.


(** ** Invariants of the simulator *)

Module SimFacts.

Import Sim SimSpec SimInvariant NumFacts.

Lemma le_refl_Fin (q : Q) : (Fin q <= Fin q)%num.
Proof. simpl. apply Qle_refl. Qed.

Lemma grows_trans (a b c : state) :
  sound a -> sound b -> sound c -> grows a b -> grows b c -> grows a c.
Proof.
  intros (? & ? & ? & ? & -> & _) (? & ? & ? & ? & -> & _)
         (? & ? & ? & ? & -> & _).
  unfold grows; simpl. intros (? & ? & ?) (? & ? & ?).
  repeat split; eapply Qle_trans; eassumption.
Qed.

Lemma Qfloor_div_bounds (ca price : Q) :
  0 < price ->
  inject_Z (Qfloor (ca / price)) * price <= ca
  /\ ca < (inject_Z (Qfloor (ca / price)) + 1) * price.
Proof.
  intro Hp.
  assert (Hne : ~ price == 0) by (intro E; rewrite E in Hp; inversion Hp).
  assert (Hq : ca == (ca / price) * price).
  { field. exact Hne. }
  pose proof (Qfloor_le (ca / price)) as Hlo.
  pose proof (Qlt_floor (ca / price)) as Hhi.
  rewrite inject_Z_plus in Hhi. change (inject_Z 1) with 1 in Hhi.
  set (n := inject_Z (Qfloor (ca / price))) in *.
  set (q := ca / price) in *.
  split.
  - rewrite Hq. apply Qmult_le_compat_r; [exact Hlo|].
    apply Qlt_le_weak. exact Hp.
  - rewrite Hq. apply Qmult_lt_compat_r; assumption.
Qed.

Lemma contribute_sound (c : Q) (st : state) :
  0 <= c -> sound st ->
  sound (contribute c st) /\ grows st (contribute c st).
Proof.
  intros Hc (sh & ca & ti & td & -> & Hca).
  split.
  - exists sh, (ca + c), (ti + c), td. split; [reflexivity|].
    lra.
  - unfold grows; simpl. repeat split; lra.
Qed.

Lemma payDividend_sound (d : Q) (st : state) :
  sound st -> sound (payDividend d st) /\ grows st (payDividend d st).
Proof.
  intros (sh & ca & ti & td & -> & Hca).
  unfold payDividend, dividendPayout.
  destruct (dividendDue d _) eqn:Hdue.
  - unfold dividendDue in Hdue. apply andb_true_iff in Hdue.
    destruct Hdue as [Hd Hsh]. simpl in Hd, Hsh.
    apply Qltb_lt in Hd. apply Qltb_lt in Hsh.
    assert (Hpos : 0 < d * sh) by (apply Qmult_lt_0_compat; assumption).
    split.
    + exists sh, (ca + d * sh), ti, (td + d * sh). split; [reflexivity|].
      lra.
    + unfold grows; simpl. repeat split; lra.
  - split.
    + exists sh, ca, ti, td. split; [reflexivity|assumption].
    + unfold grows; simpl. repeat split; apply Qle_refl.
Qed.

Lemma purchase_sound (price : Q) (st : state) :
  0 < price -> sound st ->
  sound (purchase price st)
  /\ grows st (purchase price st)
  /\ (cashBalance (purchase price st) < Fin price)%num.
Proof.
  intros Hp (sh & ca & ti & td & -> & Hca).
  assert (Hne : Qeq_bool price 0 = false).
  { destruct (Qeq_bool price 0) eqn:E; [|reflexivity].
    apply Qeq_bool_eq in E. rewrite E in Hp. inversion Hp. }
  destruct (Qfloor_div_bounds ca Hp) as [Hlo Hhi].
  unfold purchase. cbn [cashBalance totalShares totalInvested
                        totalDividendsReceived].
  unfold Num.div. rewrite Hne. cbn [Num.floor].
  set (n := inject_Z (Qfloor (ca / price))) in *.
  destruct (Fin n >? Num.zero)%num eqn:Hn.
  - simpl in Hn. apply Qltb_lt in Hn.
    split; [|split].
    + exists (sh + n), (ca + - (n * price)), ti, td.
      split; [reflexivity|]. lra.
    + unfold grows; simpl. repeat split; lra.
    + unfold Num.lt. simpl. apply Qltb_lt. lra.
  - simpl in Hn. apply Qltb_ge in Hn.
    split; [|split].
    + exists sh, ca, ti, td. split; [reflexivity|assumption].
    + unfold grows; simpl. repeat split; apply Qle_refl.
    + unfold Num.lt. simpl. apply Qltb_lt.
      assert (n * price <= 0 * price).
      { apply Qmult_le_compat_r; [exact Hn|apply Qlt_le_weak; exact Hp]. }
      lra.
Qed.

Lemma period_sound (c : Q) (p : StockDataPoint.t) (st : state) :
  0 <= c -> 0 < StockDataPoint.value p -> sound st ->
  sound (period c p st)
  /\ grows st (period c p st)
  /\ (cashBalance (period c p st) < Fin (StockDataPoint.value p))%num.
Proof.
  intros Hc Hp Hst. unfold period.
  destruct (contribute_sound Hc Hst) as [H1 G1].
  destruct (payDividend_sound (StockDataPoint.dividend p) H1) as [H2 G2].
  destruct (purchase_sound Hp H2) as (H3 & G3 & Hlt).
  split; [exact H3|]. split; [|exact Hlt].
  eapply grows_trans; [exact Hst|exact H2|exact H3| |exact G3].
  eapply grows_trans; [exact Hst|exact H1|exact H2|exact G1|exact G2].
Qed.

Lemma initialPurchase_sound (p : StockDataPoint.t) (b : Q) :
  0 < StockDataPoint.value p -> 0 <= b -> sound (initialPurchase p b).
Proof.
  intros Hp Hb.
  assert (Hinit : sound (init b)).
  { exists 0, b, b, 0. split; [reflexivity|exact Hb]. }
  unfold initialPurchase.
  destruct (Fin b >? Num.zero)%num; [|exact Hinit].
  exact (proj1 (purchase_sound Hp Hinit)).
Qed.

Lemma run_length (c : Q) (data : list StockDataPoint.t) :
  forall st, List.length (run c st data) = List.length data.
Proof.
  induction data as [|p rest IH]; intro st; simpl; [reflexivity|].
  rewrite IH. reflexivity.
Qed.

Lemma run_invariants (c : Q) (data : list StockDataPoint.t) :
  0 <= c ->
  (forall p, In p data -> 0 < StockDataPoint.value p) ->
  forall st, sound st ->
    (forall s, nth_error (run c st data) 0 = Some s -> after st s)
    /\ (forall i s, nth_error (run c st data) i = Some s ->
          exists p, nth_error data i = Some p /\ settled p s)
    /\ (forall i s s',
          nth_error (run c st data) i = Some s ->
          nth_error (run c st data) (S i) = Some s' ->
          nondecreasing s s').
Proof.
  intros Hc. induction data as [|p rest IH]; intros Hpos st Hst.
  - simpl. repeat split; intros; try destruct i; discriminate.
  - assert (Hp : 0 < StockDataPoint.value p) by (apply Hpos; left; reflexivity).
    destruct (period_sound p Hc Hp Hst) as (Hst' & Hg & Hlt).
    destruct (IH (fun q Hq => Hpos q (or_intror Hq)) _ Hst')
      as (IH0 & IHs & IHm).
    simpl run. split; [|split].
    + intros s Hs. simpl in Hs. injection Hs as <-. exact Hg.
    + intros [|i] s Hs; simpl in Hs.
      * injection Hs as <-. exists p. split; [reflexivity|].
        destruct Hst' as (sh & ca & ti & td & E & Hca).
        unfold settled, emit. rewrite E in Hlt |- *. simpl in Hlt |- *.
        repeat split; assumption.
      * exact (IHs i s Hs).
    + intros [|i] s s' Hs Hs'; simpl in Hs, Hs'.
      * injection Hs as <-. exact (IH0 s' Hs').
      * exact (IHm i s s' Hs Hs').
Qed.

End SimFacts.




(** ** The cumulative contribution *)

Module ContributionFacts.

Import Sim SimSpec.

Lemma purchase_totalInvested (price : Q) (st : state) :
  totalInvested (purchase price st) = totalInvested st.
Proof.
  unfold purchase.
  destruct (Num.floor (cashBalance st / Fin price) >? Num.zero)%num;
    reflexivity.
Qed.

Lemma payDividend_totalInvested (d : Q) (st : state) :
  totalInvested (payDividend d st) = totalInvested st.
Proof.
  unfold payDividend. destruct (dividendDue d st); reflexivity.
Qed.

Lemma period_totalInvested (c : Q) (p : StockDataPoint.t) (st : state) :
  totalInvested (period c p st) = (totalInvested st + Fin c)%num.
Proof.
  unfold period.
  rewrite purchase_totalInvested, payDividend_totalInvested. reflexivity.
Qed.

Lemma initialPurchase_totalInvested (p : StockDataPoint.t) (b : Q) :
  totalInvested (initialPurchase p b) = Fin b.
Proof.
  unfold initialPurchase.
  destruct (Fin b >? Num.zero)%num; [|reflexivity].
  match goal with
  | |- context [if ?g then _ else _] => destruct g
  end; reflexivity.
Qed.

Lemma inject_succ (n : nat) :
  inject_Z (Z.of_nat (S n)) == inject_Z (Z.of_nat n) + 1.
Proof.
  rewrite Nat2Z.inj_succ. unfold Z.succ. rewrite inject_Z_plus. reflexivity.
Qed.

Lemma run_totalInvested (c : Q) (data : list StockDataPoint.t) :
  forall (st : state) (t : Q) (i : nat) (s : MonthlyDataPoint.t),
    totalInvested st = Fin t ->
    nth_error (run c st data) i = Some s ->
    (MonthlyDataPoint.totalInvested s
     ~= Fin (t + c * inject_Z (Z.of_nat (S i))))%num.
Proof.
  induction data as [|p rest IH]; intros st t i s Ht Hs.
  - destruct i; discriminate.
  - simpl run in Hs.
    assert (Ht' : totalInvested (period c p st) = Fin (t + c)).
    { rewrite period_totalInvested, Ht. reflexivity. }
    destruct i as [|i]; simpl in Hs.
    + injection Hs as <-. unfold emit.
      cbn [MonthlyDataPoint.totalInvested]. rewrite Ht'.
      cbv [Num.eqv]. change (inject_Z (Z.of_nat 1)) with 1. ring.
    + eapply NumFacts.eqv_trans; [exact (IH _ _ _ _ Ht' Hs)|].
      cbv [Num.eqv]. rewrite (inject_succ (S i)). ring.
Qed.

End ContributionFacts.

(** The running total on the engine's numbers. *)

Module DoubleFacts.

Import Double.

Lemma monthStep_totalInvested (c : PrimFloat.float) (st : state)
      (p : StockDataPoint.t) :
  totalInvested (fst (monthStep c st p))
  = PrimFloat.add (totalInvested st) c
  /\ MonthlyDataPoint.totalInvested (snd (monthStep c st p))
     = PrimFloat.add (totalInvested st) c.
Proof.
  unfold monthStep.
  repeat match goal with
         | |- context [if ?g then _ else _] => destruct g
         end; split; reflexivity.
Qed.

Lemma initialPurchase_records_balance (p : StockDataPoint.t)
      (b : PrimFloat.float) :
  totalInvested (initialPurchase p b) = b.
Proof.
  unfold initialPurchase.
  repeat match goal with
         | |- context [if ?g then _ else _] => destruct g
         end; reflexivity.
Qed.

Lemma mapMonths_length (c : PrimFloat.float) (data : list StockDataPoint.t) :
  forall st, List.length (mapMonths c st data) = List.length data.
Proof.
  induction data as [|p rest IH]; intro st; simpl; [reflexivity|].
  destruct (monthStep c st p) as [st' out]. simpl. rewrite IH. reflexivity.
Qed.

Lemma mapMonths_totalInvested (c : PrimFloat.float)
      (data : list StockDataPoint.t) :
  forall (st : state) (i : nat) (s : MonthlyDataPoint.t),
    nth_error (mapMonths c st data) i = Some s ->
    MonthlyDataPoint.totalInvested s
    = runningSum (totalInvested st) c (S i).
Proof.
  induction data as [|p rest IH]; intros st i s Hs.
  - destruct i; discriminate.
  - simpl in Hs.
    destruct (monthStep_totalInvested c st p) as [Hst Hout].
    destruct (monthStep c st p) as [st' out]. simpl in Hst, Hout.
    destruct i as [|i]; simpl in Hs.
    + injection Hs as <-. exact Hout.
    + rewrite (IH _ _ _ Hs), Hst. unfold runningSum.
      symmetry.
      exact (Nat.iter_succ_r (S i) _ (fun total => PrimFloat.add total c)
                             (totalInvested st)).
Qed.

End DoubleFacts.

(** C3, as stated, fails on the engine's numbers.  With contribution 0.1
    and no initial balance the tenth entry has a total contributed of
    [1 - 2^-53], the sum of ten rounded additions, which is neither the
    product of 0.1 by 10 nor its rounding, 1. *)
Lemma total_contributed_counterexample :
  exists out s,
    Double.calculateInvestmentGrowth Examples.ten_months_at_10
                                     Examples.tenth PrimFloat.zero
    = Ok out
    /\ PrimFloat.leb PrimFloat.zero Examples.tenth = true
    /\ nth_error out 9 = Some s
    /\ Double.exact (Double.MonthlyDataPoint.totalInvested s)
       = Fin (9007199254740991 # 9007199254740992)
    /\ ~ (Double.exact (Double.MonthlyDataPoint.totalInvested s)
          ~= Double.exact PrimFloat.zero
             + Double.exact Examples.tenth * Fin 10)%num
    /\ PrimFloat.eqb (Double.MonthlyDataPoint.totalInvested s)
                     (PrimFloat.add PrimFloat.zero
                        (PrimFloat.mul Examples.tenth (Double.ofZ 10)))
       = false.
Proof.
  eexists. eexists.
  split; [vm_compute; reflexivity|].
  split; [reflexivity|]. split; [reflexivity|].
  split; [vm_compute; reflexivity|].
  split; [|vm_compute; reflexivity].
  intro H. vm_compute in H. discriminate H.
Qed.

(** C3, amended.  On a non-empty monthly series of [k] periods with
    contribution [c] and initial balance [b], the simulator returns [k]
    entries, the [i]-th (from 0) with the total contributed that [i + 1]
    successive additions of [c] to [b] leave, each rounded to binary64:
    [((b + c) + c) + ...]; hence the last with the sum of [k] additions.
    The signs of [c] and [b] play no part. *)
Theorem total_contributed_running_sum
        (data : list Double.StockDataPoint.t) (c b : PrimFloat.float) :
  data <> [] ->
  exists out,
    Double.calculateInvestmentGrowth data c b = Ok out
    /\ List.length out = List.length data
    /\ (forall i s, nth_error out i = Some s ->
          Double.MonthlyDataPoint.totalInvested s
          = Double.runningSum b c (i + 1))
    /\ (exists s,
          nth_error out (List.length data - 1) = Some s
          /\ Double.MonthlyDataPoint.totalInvested s
             = Double.runningSum b c (List.length data)).
Proof.
  intro Hne. destruct data as [|p rest]; [congruence|].
  unfold Double.calculateInvestmentGrowth.
  eexists. split; [reflexivity|].
  split; [apply DoubleFacts.mapMonths_length|].
  assert (Hall : forall i s,
             nth_error (Double.mapMonths c (Double.initialPurchase p b)
                                         (p :: rest)) i = Some s ->
             Double.MonthlyDataPoint.totalInvested s
             = Double.runningSum b c (i + 1)).
  { intros i s Hs. rewrite Nat.add_1_r.
    rewrite (DoubleFacts.mapMonths_totalInvested _ _ _ _ Hs).
    rewrite DoubleFacts.initialPurchase_records_balance. reflexivity. }
  split; [exact Hall|].
  destruct (nth_error (Double.mapMonths c (Double.initialPurchase p b)
                                        (p :: rest))
                      (List.length (p :: rest) - 1)) as [s|] eqn:Hs.
  - exists s. split; [reflexivity|].
    rewrite (Hall _ _ Hs). f_equal. simpl. lia.
  - apply nth_error_None in Hs. rewrite DoubleFacts.mapMonths_length in Hs.
    simpl in Hs. lia.
Qed.

(** C3, amended, on ten months with contribution 0.1: the last total is
    the sum of ten additions, [1 - 2^-53]. *)
Lemma total_contributed_running_sum_witness :
  exists out,
    Double.calculateInvestmentGrowth Examples.ten_months_at_10
                                     Examples.tenth PrimFloat.zero
    = Ok out
    /\ List.length out = 10%nat
    /\ (forall i s, nth_error out i = Some s ->
          Double.MonthlyDataPoint.totalInvested s
          = Double.runningSum PrimFloat.zero Examples.tenth (i + 1))
    /\ (exists s,
          nth_error out 9 = Some s
          /\ Double.MonthlyDataPoint.totalInvested s
             = Double.runningSum PrimFloat.zero Examples.tenth 10
          /\ Double.exact (Double.runningSum PrimFloat.zero Examples.tenth 10)
             = Fin (9007199254740991 # 9007199254740992)).
Proof.
  destruct (@total_contributed_running_sum Examples.ten_months_at_10
              Examples.tenth PrimFloat.zero)
    as (out & Hout & Hlen & Hall & s & Hs & Hlast).
  - discriminate.
  - exists out. split; [exact Hout|]. split; [exact Hlen|].
    split; [exact Hall|]. exists s. split; [exact Hs|].
    split; [exact Hlast|]. vm_compute. reflexivity.
Defined.

(** ** Input validation *)

Lemma two_months_simulated :
  Sim.calculateInvestmentGrowth Examples.two_months 105 0
  = Ok [Examples.january; Examples.february].
Proof. vm_compute. reflexivity. Qed.

(** C4, as stated, fails: with a negative contribution, with a negative
    price and with a negative initial balance the simulator returns a
    series. *)
Lemma validation_counterexample :
  (-100 < 0
   /\ Sim.calculateInvestmentGrowth [obs "Jan 2020" "January 2020" 10 0]
                                    (-100) 0
      = Ok [MonthlyDataPoint.mk "Jan 2020" "January 2020" (Fin 10) (Fin 0)
              (Fin (-100)) (Fin (-100)) (Fin 0) (Fin (-100))])
  /\ (-5 <= 0
      /\ Sim.calculateInvestmentGrowth [obs "Jan 2020" "January 2020" (-5) 0]
                                       100 0
         = Ok [MonthlyDataPoint.mk "Jan 2020" "January 2020" (Fin (-5)) (Fin 0)
                 (Fin 100) (Fin 100) (Fin 0) (Fin 100)])
  /\ (-50 < 0
      /\ Sim.calculateInvestmentGrowth [obs "Jan 2020" "January 2020" 10 0]
                                       100 (-50)
         = Ok [MonthlyDataPoint.mk "Jan 2020" "January 2020" (Fin 10) (Fin 5)
                 (Fin 50) (Fin 50) (Fin 0) (Fin 0)]).
Proof.
  split; [|split]; (split; [|vm_compute; reflexivity]).
  - reflexivity.
  - discriminate.
  - reflexivity.
Qed.

Lemma calculateInvestmentGrowth_total (c b : Q)
      (p : StockDataPoint.t) (rest : list StockDataPoint.t) :
  exists out,
    Sim.calculateInvestmentGrowth (p :: rest) c b = Ok out
    /\ List.length out = List.length (p :: rest).
Proof.
  unfold Sim.calculateInvestmentGrowth.
  rewrite mapMonths_run. eexists. split; [reflexivity|].
  apply SimFacts.run_length.
Qed.

(** C4, amended.  The simulator validates nothing: on the empty series it
    raises the [TypeError] of reading [data[0]], before any entry exists; on
    every other series it returns one entry per observation, whatever the
    signs of the prices, of the contribution and of the initial balance. *)
Theorem simulator_validates_nothing (c b : Q) :
  Sim.calculateInvestmentGrowth [] c b = Throw TypeError
  /\ forall (p : StockDataPoint.t) (rest : list StockDataPoint.t),
      exists out,
        Sim.calculateInvestmentGrowth (p :: rest) c b = Ok out
        /\ List.length out = List.length (p :: rest).
Proof.
  split; [reflexivity|].
  intros p rest. apply calculateInvestmentGrowth_total.
Qed.

(** ** The interpolator *)

(** The interpolator raises nothing when there is a monthly state, and
    its output follows the denser series position by position. *)

Section InterpolatorTotal.

Variable parseDate : string -> option Z.

Lemma scanMatchingIndex_bound (periodDate : string) :
  forall (monthlyData : list MonthlyDataPoint.t) (i mi : nat),
    scanMatchingIndex parseDate periodDate monthlyData i mi = mi
    \/ (scanMatchingIndex parseDate periodDate monthlyData i mi
        < i + List.length monthlyData)%nat.
Proof.
  induction monthlyData as [|m rest IH]; intros i mi; simpl.
  - left. reflexivity.
  - destruct (dateLe parseDate _ periodDate); [|left; reflexivity].
    right. destruct (IH (S i) i) as [-> | H]; lia.
Qed.

Lemma interpolatePoint_total (monthlyData : list MonthlyDataPoint.t)
      (p : StockDataPoint.t) :
  monthlyData <> [] ->
  exists c, interpolatePoint parseDate monthlyData p = Ok c.
Proof.
  intro Hne. unfold interpolatePoint, index.
  destruct (nth_error monthlyData (matchingMonthlyIndex parseDate p monthlyData))
    as [m|] eqn:E.
  - cbn [bind]. destruct (String.eqb _ _); eexists; reflexivity.
  - apply nth_error_None in E. unfold matchingMonthlyIndex in E.
    destruct (scanMatchingIndex_bound (StockDataPoint.formattedDate p)
                                      monthlyData 0 0) as [H|H].
    + rewrite H in E. destruct monthlyData; [congruence|simpl in E; lia].
    + lia.
Qed.

Lemma interpolateChartData_total (monthlyData : list MonthlyDataPoint.t) :
  monthlyData <> [] ->
  forall periodStockData,
  exists chartData,
    interpolateChartData parseDate periodStockData monthlyData = Ok chartData
    /\ List.length chartData = List.length periodStockData.
Proof.
  intro Hne. unfold interpolateChartData.
  induction periodStockData as [|p rest IH]; simpl.
  - exists []. split; reflexivity.
  - destruct (interpolatePoint_total p Hne) as (c & ->).
    destruct IH as (cs & -> & Hlen). cbn [bind].
    exists (c :: cs). split; [reflexivity|]. simpl. rewrite Hlen. reflexivity.
Qed.

Lemma mapM_nth {A B : Type} (f : A -> result B) :
  forall (xs : list A) (ys : list B),
    mapM f xs = Ok ys ->
    List.length ys = List.length xs
    /\ forall i y, nth_error ys i = Some y ->
                   exists x, nth_error xs i = Some x /\ f x = Ok y.
Proof.
  induction xs as [|x xs IH]; intros ys H; simpl in H.
  - injection H as <-. split; [reflexivity|].
    intros i y Hy. destruct i; discriminate.
  - destruct (f x) as [y0|e] eqn:Hx; [|discriminate]. cbn [bind] in H.
    destruct (mapM f xs) as [ys0|e] eqn:Hxs; [|discriminate].
    cbn [bind] in H. injection H as <-.
    destruct (IH ys0 eq_refl) as [Hlen Hnth].
    split; [simpl; rewrite Hlen; reflexivity|].
    intros [|i] y Hy; simpl in Hy.
    + injection Hy as <-. exists x. split; [reflexivity|exact Hx].
    + exact (Hnth i y Hy).
Qed.

Lemma interpolateChartData_nth (monthlyData : list MonthlyDataPoint.t) :
  monthlyData <> [] ->
  forall (periodStockData : list StockDataPoint.t) (i : nat)
         (p : StockDataPoint.t),
    nth_error periodStockData i = Some p ->
    exists chartData c,
      interpolateChartData parseDate periodStockData monthlyData
      = Ok chartData
      /\ List.length chartData = List.length periodStockData
      /\ nth_error chartData i = Some c
      /\ interpolatePoint parseDate monthlyData p = Ok c.
Proof.
  intros Hne periodStockData i p Hp.
  destruct (interpolateChartData_total Hne periodStockData)
    as (chartData & Hchart & Hlen).
  destruct (mapM_nth _ _ Hchart) as [_ Hnth].
  destruct (nth_error chartData i) as [c|] eqn:Hc.
  - destruct (Hnth i c Hc) as (x & Hx & Hfx).
    rewrite Hp in Hx. injection Hx as <-.
    exists chartData, c. repeat split; assumption.
  - apply nth_error_None in Hc.
    assert (i < List.length periodStockData)%nat
      by (apply nth_error_Some; congruence).
    lia.
Qed.

End InterpolatorTotal.

Section InterpolatorFacts.

Variable parseDate : string -> option Z.

Lemma dateLe_trans (a b c : string) :
  dateLe parseDate a b = true -> dateLe parseDate b c = true ->
  dateLe parseDate a c = true.
Proof.
  unfold dateLe.
  destruct (parseDate a), (parseDate b), (parseDate c); try discriminate.
  rewrite !Z.leb_le. lia.
Qed.

Lemma precedes_not_dateLe (a b : string) :
  precedes parseDate a b -> dateLe parseDate b a = false.
Proof.
  intros (x & y & Ha & Hb & Hlt). unfold dateLe. rewrite Ha, Hb.
  apply Z.leb_gt. exact Hlt.
Qed.

(** The scan stops on the last of the [n] leading states that have
    started, when the next one, if any, has not. *)
Lemma scanMatchingIndex_prefix (periodDate : string) :
  forall (n : nat) (monthlyData : list MonthlyDataPoint.t) (i mi : nat),
    (n <= List.length monthlyData)%nat ->
    (forall a m, (a < n)%nat -> nth_error monthlyData a = Some m ->
                 dateLe parseDate (MonthlyDataPoint.formattedDate m)
                        periodDate = true) ->
    (forall m, nth_error monthlyData n = Some m ->
               dateLe parseDate (MonthlyDataPoint.formattedDate m)
                      periodDate = false) ->
    scanMatchingIndex parseDate periodDate monthlyData i mi
    = match n with O => mi | S n' => (i + n')%nat end.
Proof.
  induction n as [|n IH]; intros monthlyData i mi Hlen Hpre Hnext.
  - destruct monthlyData as [|m rest]; [reflexivity|].
    simpl. rewrite (Hnext m eq_refl). reflexivity.
  - destruct monthlyData as [|m rest]; [simpl in Hlen; lia|].
    simpl. rewrite (Hpre 0%nat m (Nat.lt_0_succ n) eq_refl).
    rewrite (IH rest (S i) i).
    + destruct n; lia.
    + simpl in Hlen. lia.
    + intros a m' Ha Hm'. apply (Hpre (S a) m'); [lia|exact Hm'].
    + intros m' Hm'. apply Hnext. exact Hm'.
Qed.

Lemma matchingMonthlyIndex_latest
      (monthlyData : list MonthlyDataPoint.t) (p : StockDataPoint.t)
      (j : nat) (m : MonthlyDataPoint.t) :
  chronological parseDate monthlyData ->
  latestStartedBy parseDate monthlyData p j m ->
  matchingMonthlyIndex parseDate p monthlyData = j.
Proof.
  intros Hchr (Hj & Hm & Hlater). unfold matchingMonthlyIndex.
  rewrite (@scanMatchingIndex_prefix _ (S j)).
  - reflexivity.
  - change (j < List.length monthlyData)%nat.
    apply nth_error_Some. rewrite Hj. discriminate.
  - intros a ma Ha Hma.
    eapply dateLe_trans; [|exact Hm].
    apply (Hchr a j ma m); [lia|exact Hma|exact Hj].
  - intros m' Hm'. apply not_true_is_false.
    apply (Hlater (S j) m'); [lia|exact Hm'].
Qed.

(** C8.  When the monthly series is in date order, [p] is the [i]-th
    observation of the denser series, [m] is the latest monthly state
    started by the date of [p], and the period keys of [p] and [m] differ,
    the scan matches [m] and the [i]-th point the interpolator returns has
    [p]'s date and price, portfolio value [m.shares * p.price + m.cash] and
    [m]'s total contributed, and carries neither shares nor total
    dividends. *)
Theorem intra_month_revaluation
        (monthlyData : list MonthlyDataPoint.t)
        (periodStockData : list StockDataPoint.t) (i : nat)
        (p : StockDataPoint.t) (j : nat) (m : MonthlyDataPoint.t) :
  chronological parseDate monthlyData ->
  nth_error periodStockData i = Some p ->
  latestStartedBy parseDate monthlyData p j m ->
  StockDataPoint.date p <> MonthlyDataPoint.date m ->
  matchingMonthlyIndex parseDate p monthlyData = j
  /\ exists chartData c,
      interpolateChartData parseDate periodStockData monthlyData
      = Ok chartData
      /\ List.length chartData = List.length periodStockData
      /\ nth_error chartData i = Some c
      /\ ChartDataPoint.date c = StockDataPoint.date p
      /\ ChartDataPoint.portfolioValue c
         = (MonthlyDataPoint.shares m * Fin (StockDataPoint.value p)
            + MonthlyDataPoint.cashBalance m)%num
      /\ ChartDataPoint.totalInvested c = MonthlyDataPoint.totalInvested m
      /\ ChartDataPoint.stockPrice c = Fin (StockDataPoint.value p)
      /\ ChartDataPoint.shares c = None
      /\ ChartDataPoint.totalDividends c = None.
Proof.
  intros Hchr Hp Hlatest Hkey.
  pose proof (matchingMonthlyIndex_latest Hchr Hlatest) as Hidx.
  split; [exact Hidx|].
  destruct Hlatest as (Hj & _ & _).
  assert (Hne : monthlyData <> []).
  { intro E. rewrite E in Hj. destruct j; discriminate. }
  destruct (interpolateChartData_nth parseDate Hne periodStockData i Hp)
    as (chartData & c & Hchart & Hlen & Hc & Hpoint).
  exists chartData, c.
  split; [exact Hchart|]. split; [exact Hlen|]. split; [exact Hc|].
  unfold interpolatePoint, index in Hpoint. rewrite Hidx, Hj in Hpoint.
  cbn [bind] in Hpoint.
  apply String.eqb_neq in Hkey. rewrite Hkey in Hpoint.
  injection Hpoint as <-. repeat split.
Qed.

(** C9, amended.  A denser observation [p] dated before the first monthly
    state [m0] raises nothing: the scan leaves the index at 0 and the
    emitted point is derived from [m0], copying its portfolio value when
    the period keys agree and revaluing its shares at [p]'s price
    otherwise. *)
Theorem before_first_boundary_uses_first
        (m0 : MonthlyDataPoint.t) (rest : list MonthlyDataPoint.t)
        (p : StockDataPoint.t) :
  precedes parseDate (StockDataPoint.formattedDate p)
           (MonthlyDataPoint.formattedDate m0) ->
  matchingMonthlyIndex parseDate p (m0 :: rest) = 0%nat
  /\ exists c,
      interpolatePoint parseDate (m0 :: rest) p = Ok c
      /\ ChartDataPoint.totalInvested c = MonthlyDataPoint.totalInvested m0
      /\ ChartDataPoint.portfolioValue c
         = if String.eqb (StockDataPoint.date p) (MonthlyDataPoint.date m0)
           then MonthlyDataPoint.portfolioValue m0
           else (MonthlyDataPoint.shares m0 * Fin (StockDataPoint.value p)
                 + MonthlyDataPoint.cashBalance m0)%num.
Proof.
  intro Hpre. apply precedes_not_dateLe in Hpre.
  assert (Hidx : matchingMonthlyIndex parseDate p (m0 :: rest) = 0%nat).
  { unfold matchingMonthlyIndex. simpl. rewrite Hpre. reflexivity. }
  split; [exact Hidx|].
  unfold interpolatePoint, index. rewrite Hidx. cbn [nth_error bind].
  destruct (String.eqb (StockDataPoint.date p) (MonthlyDataPoint.date m0));
    eexists; (split; [reflexivity|]); split; reflexivity.
Qed.

End InterpolatorFacts.

(** C7.  The test for "the exact monthly point" compares display labels,
    and the provider labels a daily or weekly observation with its day and
    a month without: the observation of 1 April 2020, the very instant
    April's state is dated, is not recognised as April's.  It is revalued at
    its own price (ten shares at 12 and 5 of cash, 125, where April's
    portfolio value is 105) and carries neither shares nor total dividends.
    Called with an observation labelled as the month is, the branch copies
    the portfolio value and the total contributed, and still omits the
    shares and the total dividends that the interface marks "only for
    monthly points" and that the point of a monthly chart carries. *)
Lemma boundary_point_divergence :
  Examples.parseDay (StockDataPoint.formattedDate Examples.on_april_first)
  = Examples.parseDay (MonthlyDataPoint.formattedDate Examples.april)
  /\ interpolateChartData Examples.parseDay [Examples.on_april_first]
                          [Examples.april]
     = Ok [ChartDataPoint.mk "Apr 1, 2020" "April 1, 2020"
             (Fin 125) (Fin 105) None None (Fin 12)]
  /\ MonthlyDataPoint.portfolioValue Examples.april = Fin 105
  /\ interpolateChartData Examples.parseDate [Examples.on_january]
                          [Examples.january; Examples.february]
     = Ok [ChartDataPoint.mk "Jan 2020" "January 2020"
             (Fin 105) (Fin 105) None None (Fin 11)]
  /\ ChartDataPoint.shares (Pacer.chartOfMonthly Examples.january)
     = Some (MonthlyDataPoint.shares Examples.january)
  /\ ChartDataPoint.totalDividends (Pacer.chartOfMonthly Examples.january)
     = Some (MonthlyDataPoint.totalDividends Examples.january).
Proof.
  split; [reflexivity|]. split; [vm_compute; reflexivity|].
  split; [reflexivity|]. split; [vm_compute; reflexivity|].
  split; reflexivity.
Qed.

(** C9, as stated, fails: the observation of 15 December 2019 precedes the
    first month and is given a point derived from January. *)
Lemma before_first_boundary_counterexample :
  precedes Examples.parseDate
           (StockDataPoint.formattedDate Examples.mid_december)
           (MonthlyDataPoint.formattedDate Examples.january)
  /\ interpolateChartData Examples.parseDate [Examples.mid_december]
                          [Examples.january; Examples.february]
     = Ok [ChartDataPoint.mk "Dec 15, 2019" "December 15, 2019"
             (Fin 95) (Fin 105) None None (Fin 9)].
Proof.
  split.
  - exists (-17)%Z, 0%Z. repeat split.
  - vm_compute. reflexivity.
Qed.

(** C9, amended, at the observation of 15 December 2019. *)
Lemma before_first_boundary_uses_first_witness :
  matchingMonthlyIndex Examples.parseDate Examples.mid_december
                       [Examples.january; Examples.february] = 0%nat
  /\ exists c,
      interpolatePoint Examples.parseDate
                       [Examples.january; Examples.february]
                       Examples.mid_december = Ok c
      /\ ChartDataPoint.totalInvested c = Fin 105
      /\ ChartDataPoint.portfolioValue c
         = (Fin 10 * Fin 9 + Fin 5)%num.
Proof.
  apply (@before_first_boundary_uses_first Examples.parseDate
           Examples.january [Examples.february] Examples.mid_december).
  exists (-17)%Z, 0%Z. repeat split.
Defined.

Lemma two_months_chronological_days :
  chronological Examples.parseDay [Examples.january; Examples.february].
Proof.
  intros a b ma mb Hab Ha Hb.
  destruct a as [|[|a]], b as [|[|b]]; simpl in Ha, Hb;
    try lia; try discriminate;
    try (destruct a; discriminate); try (destruct b; discriminate);
    injection Ha as <-; injection Hb as <-; reflexivity.
Qed.

Lemma february_latest_mid_february :
  latestStartedBy Examples.parseDay [Examples.january; Examples.february]
                  Examples.mid_february 1 Examples.february.
Proof.
  split; [reflexivity|]. split; [reflexivity|].
  intros j' m' Hj Hm'. destruct j' as [|[|j']]; [lia|lia|].
  simpl in Hm'. destruct j'; discriminate.
Qed.

(** C8 at the second observation of a daily series, that of 14 February
    2020: the scan advances to February, whose fifteen shares at 25 and 10
    of cash give 385. *)
Lemma intra_month_revaluation_witness :
  matchingMonthlyIndex Examples.parseDay Examples.mid_february
                       [Examples.january; Examples.february] = 1%nat
  /\ exists chartData c,
      interpolateChartData Examples.parseDay
                           [Examples.mid_january; Examples.mid_february]
                           [Examples.january; Examples.february]
      = Ok chartData
      /\ List.length chartData = 2%nat
      /\ nth_error chartData 1 = Some c
      /\ ChartDataPoint.date c = "Feb 14, 2020"%string
      /\ ChartDataPoint.portfolioValue c = (Fin 15 * Fin 25 + Fin 10)%num
      /\ ChartDataPoint.totalInvested c = Fin 210
      /\ ChartDataPoint.stockPrice c = Fin 25
      /\ ChartDataPoint.shares c = None
      /\ ChartDataPoint.totalDividends c = None.
Proof.
  apply (@intra_month_revaluation Examples.parseDay
           [Examples.january; Examples.february]
           [Examples.mid_january; Examples.mid_february] 1
           Examples.mid_february 1%nat Examples.february).
  - exact two_months_chronological_days.
  - reflexivity.
  - exact february_latest_mid_february.
  - discriminate.
Defined.

(** ** The frame pacer *)

Module PacerFacts.

Import Pacer PacerSpec.

Lemma ofZ_add (a b : Z) : (ofZ a + ofZ b)%num = ofZ (a + b).
Proof.
  unfold ofZ, Num.add, Qplus, inject_Z. simpl.
  rewrite !Z.mul_1_r. reflexivity.
Qed.

Lemma gtb_ofZ (a b : Z) : (ofZ a >? ofZ b)%num = (b <? a)%Z.
Proof.
  unfold ofZ, Num.gtb, Num.Qltb, Qle_bool, inject_Z. simpl.
  rewrite !Z.mul_1_r. symmetry. apply Z.ltb_antisym.
Qed.

Lemma toIndex_ofZ (a : Z) : (0 <= a)%Z -> toIndex (ofZ a) = Some (Z.to_nat a).
Proof.
  intro Ha. unfold toIndex, ofZ. rewrite Qfloor_Z.
  rewrite Qeq_bool_refl. apply Z.leb_le in Ha. rewrite Ha. reflexivity.
Qed.

Lemma Qeq_bool_inject_Z_0 (z : Z) :
  Qeq_bool (inject_Z z) 0 = (z =? 0)%Z.
Proof.
  unfold Qeq_bool, inject_Z. simpl. rewrite Z.mul_1_r.
  destruct z; reflexivity.
Qed.

Lemma frameStep_zero (config : ChartConfig.t) (len : nat) :
  chartFrames config = 0%Z -> (1 <= len)%nat ->
  frameStep config len = PosInf.
Proof.
  intros Hcf Hlen. unfold frameStep. rewrite Hcf.
  unfold ofZ at 2 3. unfold Num.div.
  rewrite Qeq_bool_inject_Z_0. simpl Z.eqb. cbv iota.
  assert (Hpos : Num.inf_of_sign (inject_Z (Z.of_nat len)) = PosInf).
  { unfold Num.inf_of_sign.
    assert (H : Num.Qltb 0 (inject_Z (Z.of_nat len)) = true).
    { apply NumFacts.Qltb_lt. change 0 with (inject_Z 0).
      rewrite <- Zlt_Qlt. lia. }
    rewrite H. reflexivity. }
  rewrite Hpos. reflexivity.
Qed.

Lemma frameStep_nonzero (config : ChartConfig.t) (len : nat) :
  chartFrames config <> 0%Z ->
  frameStep config len
  = ofZ (Z.max 1 (Z.of_nat len / chartFrames config)).
Proof.
  intro Hcf. unfold frameStep.
  assert (Hdiv : Num.floor (ofZ (Z.of_nat len) / ofZ (chartFrames config))%num
                 = ofZ (Z.of_nat len / chartFrames config)).
  { unfold ofZ, Num.div. rewrite Qeq_bool_inject_Z_0.
    apply Z.eqb_neq in Hcf. rewrite Hcf. unfold Num.floor.
    rewrite <- Zdiv_Qdiv. reflexivity. }
  rewrite Hdiv. set (q := (Z.of_nat len / chartFrames config)%Z).
  unfold Num.max. unfold ofZ at 1 2.
  change (Fin (inject_Z q)) with (ofZ q).
  change (Fin (inject_Z 1)) with (ofZ 1).
  rewrite gtb_ofZ.
  destruct (1 <? q)%Z eqn:E.
  - apply Z.ltb_lt in E. rewrite Z.max_r by lia. reflexivity.
  - apply Z.ltb_ge in E. rewrite Z.max_l by lia. reflexivity.
Qed.

Lemma stepOf_zero (config : ChartConfig.t) (len : nat) :
  chartFrames config = 0%Z -> (1 <= len)%nat -> stepOf config len = None.
Proof.
  intros Hcf Hlen. unfold stepOf. rewrite frameStep_zero by assumption.
  reflexivity.
Qed.

Lemma stepOf_nonzero (config : ChartConfig.t) (len : nat) :
  chartFrames config <> 0%Z ->
  stepOf config len
  = Some (Z.to_nat (Z.max 1 (Z.of_nat len / chartFrames config))).
Proof.
  intro Hcf. unfold stepOf. rewrite frameStep_nonzero by assumption.
  unfold ofZ. rewrite Qfloor_Z. reflexivity.
Qed.

Lemma ChartPeriod_eqb_eq (a b : ChartPeriod) :
  ChartPeriod_eqb a b = true <-> a = b.
Proof. destruct a, b; simpl; split; congruence. Qed.

Lemma growthCount_step (step len a : nat) :
  (1 <= step)%nat -> (a < len)%nat ->
  growthCount step (len - a) = S (growthCount step (len - (a + step))).
Proof.
  intros Hs Ha. unfold growthCount.
  destruct (Nat.le_gt_cases (a + step) len) as [Hle|Hgt].
  - replace (len - a + step - 1)%nat
      with ((len - (a + step) + step - 1) + 1 * step)%nat by lia.
    rewrite Nat.div_add by lia. lia.
  - replace (len - (a + step))%nat with 0%nat by lia.
    rewrite (Nat.div_small (0 + step - 1) step) by lia.
    symmetry. apply (Nat.div_unique _ _ 1%nat (len - a - 1)%nat); lia.
Qed.

Lemma growthCount_zero (step len : nat) :
  (1 <= step)%nat -> growthCount step len = 0%nat -> len = 0%nat.
Proof.
  intros Hs H. unfold growthCount in H.
  apply Nat.div_small_iff in H; lia.
Qed.

Lemma growthCount_le (step len : nat) :
  (1 <= step)%nat -> (growthCount step len <= len)%nat.
Proof.
  intro Hs. unfold growthCount.
  destruct len as [|len].
  - rewrite Nat.div_small; lia.
  - apply Nat.Div0.div_le_upper_bound. nia.
Qed.

Section Loops.

Variable parseDate : string -> option Z.
Variable config : ChartConfig.t.
Variable title : string.
Variable monthlyData : list MonthlyDataPoint.t.
Variable chartData : list ChartDataPoint.t.

Hypothesis Hcompat : compatible config monthlyData chartData.

Lemma scanMonthly_Some (pointDate : string) :
  forall rest cur,
    cur <> None -> scanMonthly parseDate pointDate rest cur <> None.
Proof.
  induction rest as [|m rest IH]; intros cur Hcur; simpl.
  - exact Hcur.
  - destruct (dateLe parseDate _ pointDate); [|exact Hcur].
    apply IH. discriminate.
Qed.

Lemma growthFrame_ok (k : nat) (cur : option MonthlyDataPoint.t) :
  (k < List.length chartData)%nat ->
  (chartPeriod config <> monthly -> cur <> None) ->
  exists cur' f,
    growthFrame parseDate config title monthlyData chartData k cur
    = Ok (cur', f)
    /\ (chartPeriod config <> monthly -> cur' <> None)
    /\ shown f = prefix chartData k false.
Proof.
  intros Hk Hcur. unfold growthFrame, index.
  destruct (nth_error chartData k) as [point|] eqn:Hpoint.
  2:{ apply nth_error_None in Hpoint. lia. }
  cbn [bind].
  set (cur' := if negb (ChartPeriod_eqb (chartPeriod config) monthly)
               then scanMonthly parseDate
                      (ChartDataPoint.formattedDate point) monthlyData cur
               else nth_error monthlyData k).
  assert (Hcur' : cur' <> None).
  { subst cur'.
    destruct (ChartPeriod_eqb (chartPeriod config) monthly) eqn:E; simpl.
    - apply ChartPeriod_eqb_eq in E. destruct Hcompat as [_ Hlen].
      apply nth_error_Some. specialize (Hlen E). lia.
    - apply scanMonthly_Some. apply Hcur. intro E'.
      apply ChartPeriod_eqb_eq in E'. congruence. }
  destruct cur' as [m|] eqn:Ecur; [|congruence].
  do 2 eexists. split; [reflexivity|]. split; [intros _; discriminate|].
  unfold shown, prefix. cbn [Frame.dates Frame.values Frame.totalInvested
                              Frame.isFinalFrame].
  rewrite firstn_map. reflexivity.
Qed.

Lemma growthLoop_eq (fuel : nat) (i : number)
      (cur : option MonthlyDataPoint.t) :
  growthLoop parseDate config title monthlyData chartData fuel i cur
  = if (ofZ (Z.of_nat (List.length chartData)) >? i)%num then
      match fuel with
      | O => None
      | S fuel' =>
          match toIndex i with
          | None => Some (Throw TypeError)
          | Some k =>
              match growthFrame parseDate config title monthlyData
                                chartData k cur with
              | Throw e => Some (Throw e)
              | Ok (cur', frame) =>
                  match growthLoop parseDate config title monthlyData
                                   chartData fuel'
                          (i + frameStep config (List.length chartData))%num
                          cur' with
                  | None => None
                  | Some (Throw e) => Some (Throw e)
                  | Some (Ok frames) => Some (Ok (frame :: frames))
                  end
              end
          end
      end
    else Some (Ok []).
Proof. destruct fuel; reflexivity. Qed.

(** The loop with a finite step, entered with the counter at [a]. *)
Lemma growthLoop_finite (step : nat) :
  (1 <= step)%nat ->
  frameStep config (List.length chartData) = ofZ (Z.of_nat step) ->
  forall (n a fuel : nat) (cur : option MonthlyDataPoint.t),
    growthCount step (List.length chartData - a) = n ->
    (n <= fuel)%nat ->
    (chartPeriod config <> monthly -> cur <> None) ->
    exists frames,
      growthLoop parseDate config title monthlyData chartData fuel
                 (ofZ (Z.of_nat a)) cur
      = Some (Ok frames)
      /\ map shown frames
         = map (fun k => prefix chartData (a + k * step) false) (seq 0 n).
Proof.
  intros Hstep Hfs.
  induction n as [|n IH]; intros a fuel cur Hn Hfuel Hcur;
    rewrite growthLoop_eq, gtb_ofZ.
  - apply growthCount_zero in Hn; [|exact Hstep].
    assert (E : (Z.of_nat a <? Z.of_nat (List.length chartData))%Z = false)
      by (apply Z.ltb_ge; lia).
    rewrite E. exists []. split; reflexivity.
  - assert (Ha : (a < List.length chartData)%nat).
    { destruct (Nat.lt_ge_cases a (List.length chartData)) as [H|H];
        [exact H|].
      replace (List.length chartData - a)%nat with 0%nat in Hn by lia.
      unfold growthCount in Hn. rewrite Nat.div_small in Hn; lia. }
    assert (E : (Z.of_nat a <? Z.of_nat (List.length chartData))%Z = true)
      by (apply Z.ltb_lt; lia).
    rewrite E. destruct fuel as [|fuel]; [lia|].
    rewrite toIndex_ofZ by lia. rewrite Nat2Z.id.
    destruct (growthFrame_ok Ha Hcur) as (cur' & f & Hf & Hcur' & Hshown).
    rewrite Hf, Hfs, ofZ_add, <- Nat2Z.inj_add.
    rewrite (@growthCount_step step (List.length chartData) a Hstep Ha) in Hn.
    destruct (IH (a + step)%nat fuel cur') as (frames & Hframes & Hmap);
      [lia|lia|exact Hcur'|].
    rewrite Hframes. exists (f :: frames). split; [reflexivity|].
    cbn [map seq]. rewrite Hshown, Hmap, <- seq_shift, map_map.
    f_equal; [f_equal; lia|].
    apply map_ext. intro k. f_equal. lia.
Qed.

(** The loop with a step that is not finite makes one pass. *)
Lemma growthLoop_infinite (fuel : nat) (cur : option MonthlyDataPoint.t) :
  frameStep config (List.length chartData) = PosInf ->
  (1 <= List.length chartData)%nat ->
  (1 <= fuel)%nat ->
  (chartPeriod config <> monthly -> cur <> None) ->
  exists f,
    growthLoop parseDate config title monthlyData chartData fuel
               (ofZ 0) cur
    = Some (Ok [f])
    /\ shown f = prefix chartData 0 false.
Proof.
  intros Hfs Hlen Hfuel Hcur. rewrite growthLoop_eq, gtb_ofZ.
  assert (E : (0 <? Z.of_nat (List.length chartData))%Z = true)
    by (apply Z.ltb_lt; lia).
  rewrite E. destruct fuel as [|fuel]; [lia|].
  rewrite toIndex_ofZ by lia. change (Z.to_nat 0) with 0%nat.
  destruct (@growthFrame_ok 0%nat cur Hlen Hcur)
    as (cur' & f & Hf & _ & Hshown).
  rewrite Hf, Hfs. change (ofZ 0 + PosInf)%num with PosInf.
  rewrite growthLoop_eq. change (ofZ _ >? PosInf)%num with false.
  cbv iota. exists f. split; [reflexivity|exact Hshown].
Qed.

Lemma endingLoop_ok :
  (1 <= List.length chartData)%nat ->
  exists f,
    endingLoop config title monthlyData chartData
    = Ok (repeat f (Z.to_nat (endingFrames config)))
    /\ shown f = entire chartData.
Proof.
  intro Hlen. unfold endingLoop, index.
  destruct (nth_error chartData (List.length chartData - 1))
    as [lastPoint|] eqn:Hlast.
  2:{ apply nth_error_None in Hlast. lia. }
  destruct (nth_error monthlyData (List.length monthlyData - 1))
    as [lastMonthlyPoint|] eqn:Hmonthly.
  2:{ apply nth_error_None in Hmonthly. destruct Hcompat as [Hne _].
      destruct monthlyData; [congruence|simpl in Hmonthly; lia]. }
  cbn [bind].
  eexists. split.
  - destruct (0 <? endingFrames config)%Z eqn:E; [reflexivity|].
    apply Z.ltb_ge in E.
    replace (Z.to_nat (endingFrames config)) with 0%nat by lia.
    reflexivity.
  - reflexivity.
Qed.

End Loops.

Lemma growthCount_pred (step len : nat) :
  (1 <= step)%nat -> (1 <= len)%nat ->
  growthCount step len = S ((len - 1) / step).
Proof.
  intros Hs Hl. unfold growthCount.
  replace (len + step - 1)%nat with ((len - 1) + 1 * step)%nat by lia.
  rewrite Nat.div_add by lia. lia.
Qed.

Lemma growthIndices_length (step len : nat) :
  List.length (growthIndices step len) = growthCount step len.
Proof. unfold growthIndices. rewrite length_map, length_seq. reflexivity. Qed.

Lemma growthIndices_nth (step len k : nat) :
  (k < growthCount step len)%nat ->
  nth_error (growthIndices step len) k = Some (k * step)%nat.
Proof.
  intro Hk. unfold growthIndices.
  rewrite nth_error_map, nth_error_seq.
  apply Nat.ltb_lt in Hk. rewrite Hk. reflexivity.
Qed.

(** The step is at least 1 when it is finite. *)
Lemma stepOf_positive (config : ChartConfig.t) (len step : nat) :
  (1 <= len)%nat -> stepOf config len = Some step -> (1 <= step)%nat.
Proof.
  intros Hlen H.
  destruct (Z.eq_dec (chartFrames config) 0) as [E|E].
  - rewrite stepOf_zero in H by assumption. discriminate.
  - rewrite stepOf_nonzero in H by assumption. injection H as <-. lia.
Qed.

Lemma stepOf_frameStep (config : ChartConfig.t) (len step : nat) :
  (1 <= len)%nat -> stepOf config len = Some step ->
  frameStep config len = ofZ (Z.of_nat step).
Proof.
  intros Hlen H.
  destruct (Z.eq_dec (chartFrames config) 0) as [E|E].
  - rewrite stepOf_zero in H by assumption. discriminate.
  - rewrite stepOf_nonzero in H by assumption. injection H as <-.
    rewrite frameStep_nonzero by assumption. rewrite Z2Nat.id by lia.
    reflexivity.
Qed.

Lemma stepOf_None (config : ChartConfig.t) (len : nat) :
  (1 <= len)%nat -> stepOf config len = None ->
  frameStep config len = PosInf.
Proof.
  intros Hlen H.
  destruct (Z.eq_dec (chartFrames config) 0) as [E|E].
  - apply frameStep_zero; assumption.
  - rewrite stepOf_nonzero in H by assumption. discriminate.
Qed.

(** A series that fits the chart frames is shown point by point. *)
Lemma indices_length_fit (config : ChartConfig.t) (len : nat) :
  (1 <= len)%nat -> (Z.of_nat len <= chartFrames config)%Z ->
  List.length (indices config len) = len.
Proof.
  intros Hlen Hfit. unfold indices.
  rewrite stepOf_nonzero by lia.
  assert (Hq : (Z.of_nat len / chartFrames config <= 1)%Z).
  { apply Z.lt_succ_r. apply Z.div_lt_upper_bound; lia. }
  rewrite Z.max_l by exact Hq. change (Z.to_nat 1) with 1%nat.
  rewrite growthIndices_length. unfold growthCount.
  rewrite Nat.div_1_r. lia.
Qed.

Section Frames.

Variable parseDate : string -> option Z.
Variable config : ChartConfig.t.
Variable title : string.
Variable monthlyData : list MonthlyDataPoint.t.
Variable chartData : list ChartDataPoint.t.
Variable fuel : nat.

Hypothesis Hcompat : compatible config monthlyData chartData.
Hypothesis Hlen : (1 <= List.length chartData)%nat.
Hypothesis Hfuel : (List.length chartData <= fuel)%nat.

(** The regular frames show the cumulative prefixes at the indices
    [0, step, 2 step, ...], in this order. *)
Lemma growthFrames_shown :
  exists growth,
    growthFrames parseDate config title monthlyData chartData fuel
    = Some (Ok growth)
    /\ map shown growth
       = map (fun i => prefix chartData i false)
             (indices config (List.length chartData)).
Proof.
  assert (Hcur : chartPeriod config <> monthly ->
                 nth_error monthlyData 0 <> None).
  { intros _. destruct Hcompat as [Hne _].
    destruct monthlyData; [congruence|discriminate]. }
  unfold growthFrames, indices.
  destruct (stepOf config (List.length chartData)) as [step|] eqn:E.
  - pose proof (stepOf_positive _ Hlen E) as Hstep.
    destruct (@growthLoop_finite parseDate config title monthlyData
                chartData Hcompat step Hstep (stepOf_frameStep _ Hlen E)
                (growthCount step (List.length chartData)) 0%nat fuel
                (nth_error monthlyData 0))
      as (frames & Hframes & Hmap).
    + rewrite Nat.sub_0_r. reflexivity.
    + pose proof (growthCount_le (List.length chartData) Hstep). lia.
    + exact Hcur.
    + exists frames. split; [exact Hframes|].
      rewrite Hmap. unfold growthIndices. rewrite map_map. reflexivity.
  - destruct (@growthLoop_infinite parseDate config title monthlyData
                chartData Hcompat fuel (nth_error monthlyData 0)
                (stepOf_None _ Hlen E) Hlen)
      as (f & Hf & Hshown); [lia|exact Hcur|].
    exists [f]. split; [exact Hf|]. simpl. rewrite Hshown. reflexivity.
Qed.

(** All the frames: the regular ones, then [endingFrames] frames that
    each show the entire series. *)
Lemma paceFrames_shown :
  exists growth ending,
    growthFrames parseDate config title monthlyData chartData fuel
    = Some (Ok growth)
    /\ paceFrames parseDate config title monthlyData chartData fuel
       = Some (Ok (growth ++ ending))
    /\ map shown growth
       = map (fun i => prefix chartData i false)
             (indices config (List.length chartData))
    /\ map shown ending
       = repeat (entire chartData) (Z.to_nat (endingFrames config)).
Proof.
  destruct growthFrames_shown as (growth & Hgrowth & Hmap).
  destruct (@endingLoop_ok config title monthlyData chartData Hcompat Hlen)
    as (f & Hending & Hshown).
  exists growth, (repeat f (Z.to_nat (endingFrames config))).
  split; [exact Hgrowth|]. split; [|split; [exact Hmap|]].
  - unfold paceFrames. rewrite Hgrowth, Hending. reflexivity.
  - clear Hending.
    induction (Z.to_nat (endingFrames config)) as [|n IH]; simpl;
      [reflexivity|].
    rewrite Hshown, IH. reflexivity.
Qed.

End Frames.

Lemma shown_final_false (growth : list Frame.t)
      (chartData : list ChartDataPoint.t) (idx : list nat) :
  map shown growth = map (fun i => prefix chartData i false) idx ->
  Forall (fun f => Frame.isFinalFrame f = false) growth.
Proof.
  revert idx. induction growth as [|f growth IH]; intros idx H.
  - constructor.
  - destruct idx as [|i idx]; [discriminate|].
    pose proof (f_equal (@List.tl _) H) as Hrest. simpl in Hrest.
    pose proof (f_equal (@List.hd_error _) H) as Hf. simpl in Hf.
    constructor; [|exact (IH _ Hrest)].
    unfold shown, prefix in Hf. congruence.
Qed.

Lemma shown_entire (ending : list Frame.t)
      (chartData : list ChartDataPoint.t) (n : nat) :
  map shown ending = repeat (entire chartData) n ->
  Forall (fun f => shown f = entire chartData) ending.
Proof.
  revert n. induction ending as [|f ending IH]; intros n H.
  - constructor.
  - destruct n as [|n]; [discriminate|].
    pose proof (f_equal (@List.tl _) H) as Hrest. simpl in Hrest.
    pose proof (f_equal (@List.hd_error _) H) as Hf. simpl in Hf.
    constructor; [congruence|exact (IH _ Hrest)].
Qed.

Lemma shown_nth (growth : list Frame.t)
      (g : nat -> list string * list number * list number * bool)
      (idx : list nat) (k : nat) (f : Frame.t) :
  map shown growth = map g idx ->
  nth_error growth k = Some f ->
  exists i, nth_error idx k = Some i /\ shown f = g i.
Proof.
  intros H Hk.
  pose proof (f_equal (fun l => nth_error l k) H) as E. simpl in E.
  rewrite !nth_error_map, Hk in E.
  destruct (nth_error idx k) as [i|]; [|discriminate].
  exists i. split; [reflexivity|]. simpl in E. congruence.
Qed.

End PacerFacts.

(** C5, as stated, fails: with the default 20 and 3 seconds at 30 frames
    per second a chart of one point gives 91 frames, not 690. *)
Lemma frame_total_counterexample :
  Pacer.chartFrames Examples.defaultConfig = 600%Z
  /\ Pacer.endingFrames Examples.defaultConfig = 90%Z
  /\ Pacer.frameCount
       (Pacer.paceFrames Examples.parseDate Examples.defaultConfig "title"
          [Examples.january] [Pacer.chartOfMonthly Examples.january] 1)
     = Some 91%nat.
Proof.
  split; [reflexivity|]. split; [reflexivity|].
  vm_compute. reflexivity.
Qed.

(** C6.  The step is computed "to ensure we use all data points within
    the chart duration", with a floor where the bound needs a ceiling: with
    the default 600 chart frames a chart of 601 points has step 1 and gives
    601 regular frames, one more than the chart frames. *)
Lemma growth_frames_exceed_chart_frames :
  Pacer.chartFrames Examples.defaultConfig = 600%Z
  /\ Pacer.frameStep Examples.defaultConfig
                     (List.length Examples.long_chart) = Pacer.ofZ 1
  /\ Pacer.frameCount
       (Pacer.growthFrames Examples.parseDate Examples.defaultConfig "title"
          Examples.long_monthly Examples.long_chart 601)
     = Some 601%nat.
Proof.
  split; [reflexivity|]. split; [vm_compute; reflexivity|].
  vm_compute. reflexivity.
Qed.

Lemma chartFrames_20 (config : ChartConfig.t) :
  Pacer.chartDuration config == 20 -> Pacer.chartFrames config = 600%Z.
Proof.
  intro H. unfold Pacer.chartFrames. rewrite H. reflexivity.
Qed.

Lemma endingFrames_3 (config : ChartConfig.t) :
  Pacer.endingDuration config == 3 -> Pacer.endingFrames config = 90%Z.
Proof.
  intro H. unfold Pacer.endingFrames. rewrite H. reflexivity.
Qed.

(** C5, amended.  On a non-empty chart series the pacer returns the regular
    frames, one per index 0, step, 2 step, ... below [N] and none of them
    final, followed by exactly [floor (D_end * 30)] final frames; the total
    is the sum of the two counts and depends on [N]: it is
    [N + floor (D_end * 30)] when [N] is at most [floor (D_chart * 30)].
    With 20 and 3 seconds exactly 90 frames are final, and the total is
    [N + 90] up to [N = 600], where it is 690.  The frame rate is the
    constant 30. *)
Theorem frame_total
        (parseDate : string -> option Z) (config : ChartConfig.t)
        (title : string) (monthlyData : list MonthlyDataPoint.t)
        (chartData : list ChartDataPoint.t) (fuel : nat) :
  chartData <> [] ->
  PacerSpec.compatible config monthlyData chartData ->
  (List.length chartData <= fuel)%nat ->
  exists growth ending,
    Pacer.paceFrames parseDate config title monthlyData chartData fuel
    = Some (Ok (growth ++ ending))
    /\ Forall (fun f => Frame.isFinalFrame f = false) growth
    /\ Forall (fun f => Frame.isFinalFrame f = true) ending
    /\ List.length growth
       = List.length (PacerSpec.indices config (List.length chartData))
    /\ List.length ending = Z.to_nat (Pacer.endingFrames config)
    /\ List.length (growth ++ ending)
       = (List.length (PacerSpec.indices config (List.length chartData))
          + Z.to_nat (Pacer.endingFrames config))%nat
    /\ ((Z.of_nat (List.length chartData) <= Pacer.chartFrames config)%Z ->
        List.length (growth ++ ending)
        = (List.length chartData + Z.to_nat (Pacer.endingFrames config))%nat)
    /\ (Pacer.chartDuration config == 20 ->
        Pacer.endingDuration config == 3 ->
        List.length ending = 90%nat
        /\ ((List.length chartData <= 600)%nat ->
            List.length (growth ++ ending)
            = (List.length chartData + 90)%nat)).
Proof.
  intros Hne Hcompat Hfuel.
  assert (Hlen : (1 <= List.length chartData)%nat)
    by (destruct chartData; [congruence|simpl; lia]).
  destruct (@PacerFacts.paceFrames_shown parseDate config title monthlyData
              chartData fuel Hcompat Hlen Hfuel)
    as (growth & ending & _ & Hpace & Hgrowth & Hending).
  assert (Lg : List.length growth
               = List.length (PacerSpec.indices config (List.length chartData))).
  { rewrite <- (length_map PacerSpec.shown growth), Hgrowth, length_map.
    reflexivity. }
  assert (Le : List.length ending = Z.to_nat (Pacer.endingFrames config)).
  { rewrite <- (length_map PacerSpec.shown ending), Hending, repeat_length.
    reflexivity. }
  assert (Lfit : (Z.of_nat (List.length chartData)
                  <= Pacer.chartFrames config)%Z ->
                 List.length (growth ++ ending)
                 = (List.length chartData
                    + Z.to_nat (Pacer.endingFrames config))%nat).
  { intro Hfit. rewrite length_app, Lg, Le.
    rewrite (PacerFacts.indices_length_fit config Hlen Hfit). reflexivity. }
  exists growth, ending.
  split; [exact Hpace|].
  split; [exact (PacerFacts.shown_final_false _ _ _ Hgrowth)|].
  split.
  { eapply Forall_impl; [|exact (PacerFacts.shown_entire _ _ _ Hending)].
    intros f Hf. unfold PacerSpec.shown, PacerSpec.entire in Hf. congruence. }
  split; [exact Lg|]. split; [exact Le|].
  split; [rewrite length_app, Lg, Le; reflexivity|].
  split; [exact Lfit|].
  intros H20 H3.
  pose proof (chartFrames_20 config H20) as Hcf.
  pose proof (endingFrames_3 config H3) as Hef.
  split.
  - rewrite Le, Hef. reflexivity.
  - intro H600. rewrite Lfit by lia. rewrite Hef. reflexivity.
Qed.

(** C10, as stated, fails: with a chart of a twentieth of a second and an
    ending of a hundredth there is one chart frame and no ending frame; on
    two points the step is 2, the only frame shows the first point, and
    February's value is in no frame. *)
Lemma freeze_counterexample :
  Pacer.endingFrames Examples.briefConfig = 0%Z
  /\ PacerSpec.stepOf Examples.briefConfig 2 = Some 2%nat
  /\ exists f,
      Pacer.paceFrames Examples.parseDate Examples.briefConfig "title"
                       [Examples.january; Examples.february]
                       Examples.two_month_chart 2
      = Some (Ok [f])
      /\ PacerSpec.shown f
         = PacerSpec.prefix Examples.two_month_chart 0 false
      /\ Frame.values f = [Fin 105]
      /\ ~ In (MonthlyDataPoint.portfolioValue Examples.february)
             (Frame.values f).
Proof.
  split; [reflexivity|]. split; [vm_compute; reflexivity|].
  eexists. split; [vm_compute; reflexivity|].
  split; [reflexivity|]. split; [reflexivity|].
  intros [H|[]]. discriminate H.
Qed.

(** C10, amended.  On a non-empty chart series the first regular frame
    shows exactly the first point; with a finite step [s] the last regular
    frame shows the prefix that ends at index [s * floor ((N - 1) / s)], no
    regular frame shows a later point, and at most [s - 1] points come after
    that index; there are [floor (D_end * 30)] final frames and every one
    shows the entire series, so that the last point is shown as soon as
    there is one final frame.  (With no chart frame at all the step is not
    finite and the first regular frame is the only one.) *)
Theorem growth_ends_and_freeze
        (parseDate : string -> option Z) (config : ChartConfig.t)
        (title : string) (monthlyData : list MonthlyDataPoint.t)
        (chartData : list ChartDataPoint.t) (fuel : nat) :
  chartData <> [] ->
  PacerSpec.compatible config monthlyData chartData ->
  (List.length chartData <= fuel)%nat ->
  exists growth ending first final,
    Pacer.paceFrames parseDate config title monthlyData chartData fuel
    = Some (Ok (growth ++ ending))
    /\ nth_error growth 0 = Some first
    /\ PacerSpec.shown first = PacerSpec.prefix chartData 0 false
    /\ nth_error growth (List.length growth - 1) = Some final
    /\ (Pacer.chartFrames config <> 0%Z ->
        PacerSpec.stepOf config (List.length chartData)
        = Some (Z.to_nat (Z.max 1 (Z.of_nat (List.length chartData)
                                    / Pacer.chartFrames config))))
    /\ (forall s,
          PacerSpec.stepOf config (List.length chartData) = Some s ->
          PacerSpec.shown final
          = PacerSpec.prefix chartData
                             (s * ((List.length chartData - 1) / s)) false
          /\ Forall (fun f =>
                       exists i,
                         (i <= s * ((List.length chartData - 1) / s))%nat
                         /\ PacerSpec.shown f
                            = PacerSpec.prefix chartData i false) growth
          /\ (List.length chartData - 1
              - s * ((List.length chartData - 1) / s) <= s - 1)%nat)
    /\ (PacerSpec.stepOf config (List.length chartData) = None ->
        growth = [first])
    /\ Forall (fun f => PacerSpec.shown f = PacerSpec.entire chartData) ending
    /\ List.length ending = Z.to_nat (Pacer.endingFrames config)
    /\ ((1 <= Pacer.endingFrames config)%Z ->
        exists f last,
          nth_error ending 0 = Some f
          /\ Frame.isFinalFrame f = true
          /\ nth_error chartData (List.length chartData - 1) = Some last
          /\ nth_error (Frame.values f) (List.length chartData - 1)
             = Some (ChartDataPoint.portfolioValue last)
          /\ nth_error (Frame.dates f) (List.length chartData - 1)
             = Some (ChartDataPoint.date last)).
Proof.
  intros Hne Hcompat Hfuel.
  assert (Hlen : (1 <= List.length chartData)%nat)
    by (destruct chartData; [congruence|simpl; lia]).
  destruct (@PacerFacts.paceFrames_shown parseDate config title monthlyData
              chartData fuel Hcompat Hlen Hfuel)
    as (growth & ending & _ & Hpace & Hgrowth & Hending).
  set (N := List.length chartData) in *.
  assert (Lg : List.length growth = List.length (PacerSpec.indices config N)).
  { rewrite <- (length_map PacerSpec.shown growth), Hgrowth, length_map.
    reflexivity. }
  assert (Hcount : forall s, PacerSpec.stepOf config N = Some s ->
                             (1 <= s)%nat
                             /\ List.length growth = S ((N - 1) / s)).
  { intros s Hs. pose proof (PacerFacts.stepOf_positive _ Hlen Hs) as H1.
    split; [exact H1|]. rewrite Lg. unfold PacerSpec.indices. rewrite Hs.
    rewrite PacerFacts.growthIndices_length.
    apply PacerFacts.growthCount_pred; assumption. }
  assert (Hpos : (1 <= List.length growth)%nat).
  { destruct (PacerSpec.stepOf config N) as [s|] eqn:Hs.
    - destruct (Hcount s eq_refl) as [_ ->]. lia.
    - rewrite Lg. unfold PacerSpec.indices. rewrite Hs. simpl. lia. }
  assert (Hidx0 : nth_error (PacerSpec.indices config N) 0 = Some 0%nat).
  { unfold PacerSpec.indices.
    destruct (PacerSpec.stepOf config N) as [s|] eqn:Hs; [|reflexivity].
    destruct (Hcount s eq_refl) as [H1 Hc].
    rewrite PacerFacts.growthIndices_nth; [reflexivity|].
    rewrite PacerFacts.growthCount_pred by assumption. lia. }
  destruct (nth_error growth 0) as [first|] eqn:Hfirst.
  2:{ apply nth_error_None in Hfirst. lia. }
  destruct (nth_error growth (List.length growth - 1)) as [final|] eqn:Hfinal.
  2:{ apply nth_error_None in Hfinal. lia. }
  exists growth, ending, first, final.
  split; [exact Hpace|]. split; [exact Hfirst|].
  split.
  { destruct (@PacerFacts.shown_nth _ _ _ _ _ Hgrowth Hfirst) as (i & Hi & Hsh).
    rewrite Hidx0 in Hi. injection Hi as <-. exact Hsh. }
  split; [exact Hfinal|].
  split; [intro Hcf; apply PacerFacts.stepOf_nonzero; exact Hcf|].
  split.
  { intros s Hs. destruct (Hcount s Hs) as [H1 Hc].
    assert (Hnth : forall k, (k < List.length growth)%nat ->
                             nth_error (PacerSpec.indices config N) k
                             = Some (k * s)%nat).
    { intros k Hk. unfold PacerSpec.indices. rewrite Hs.
      apply PacerFacts.growthIndices_nth.
      rewrite PacerFacts.growthCount_pred by assumption. lia. }
    split; [|split].
    - destruct (@PacerFacts.shown_nth _ _ _ _ _ Hgrowth Hfinal) as (i & Hi & Hsh).
      rewrite Hnth in Hi by lia. injection Hi as <-.
      rewrite Hsh, Hc. f_equal. simpl. rewrite Nat.sub_0_r. lia.
    - apply Forall_forall. intros f Hf.
      destruct (In_nth_error _ _ Hf) as (k & Hk).
      assert (Hlt : (k < List.length growth)%nat)
        by (apply nth_error_Some; congruence).
      destruct (@PacerFacts.shown_nth _ _ _ _ _ Hgrowth Hk) as (i & Hi & Hsh).
      rewrite Hnth in Hi by exact Hlt. injection Hi as <-.
      exists (k * s)%nat. split; [|exact Hsh]. nia.
    - pose proof (Nat.div_mod_eq (N - 1) s) as Hdm.
      pose proof (Nat.mod_upper_bound (N - 1) s) as Hub. lia. }
  split.
  { intro Hs.
    assert (L1 : List.length growth = 1%nat).
    { rewrite Lg. unfold PacerSpec.indices. rewrite Hs. reflexivity. }
    destruct growth as [|f [|f' growth]]; try discriminate.
    simpl in Hfirst. congruence. }
  split; [exact (PacerFacts.shown_entire _ _ _ Hending)|].
  split.
  { rewrite <- (length_map PacerSpec.shown ending), Hending, repeat_length.
    reflexivity. }
  intro Hef.
  destruct (nth_error chartData (N - 1)) as [last|] eqn:Hlast.
  2:{ apply nth_error_None in Hlast. subst N. lia. }
  destruct (Z.to_nat (Pacer.endingFrames config)) as [|n] eqn:En; [lia|].
  destruct ending as [|f ending]; [discriminate Hending|].
  simpl in Hending. unfold PacerSpec.shown, PacerSpec.entire in Hending.
  injection Hending as Hdates Hvalues _ Hfinal' _.
  exists f, last. split; [reflexivity|]. split; [exact Hfinal'|].
  split; [reflexivity|].
  rewrite Hvalues, Hdates. split; apply map_nth_error; exact Hlast.
Qed.

Lemma two_month_chart_compatible :
  PacerSpec.compatible Examples.defaultConfig
                       [Examples.january; Examples.february]
                       Examples.two_month_chart.
Proof.
  split; [discriminate|]. intros _. simpl. lia.
Qed.

(** C5, amended, on the monthly chart of two months with the default
    configuration: 2 regular frames and 90 final ones. *)
Lemma frame_total_witness :
  exists growth ending,
    Pacer.paceFrames Examples.parseDate Examples.defaultConfig "title"
                     [Examples.january; Examples.february]
                     Examples.two_month_chart 2
    = Some (Ok (growth ++ ending))
    /\ List.length ending = 90%nat
    /\ List.length (growth ++ ending) = 92%nat.
Proof.
  destruct (@frame_total Examples.parseDate Examples.defaultConfig "title"
              [Examples.january; Examples.february]
              Examples.two_month_chart 2)
    as (growth & ending & Hpace & _ & _ & _ & _ & _ & _ & Hdefault).
  - discriminate.
  - exact two_month_chart_compatible.
  - simpl. lia.
  - destruct Hdefault as [H90 Htotal]; [reflexivity|reflexivity|].
    exists growth, ending. split; [exact Hpace|]. split; [exact H90|].
    apply Htotal. simpl. lia.
Defined.

(** C10, amended, on a monthly chart of two months with one chart frame:
    step 2, so the only regular frame shows the first point, one point comes
    after it, and the 90 final frames show both, February's 310 last. *)
Lemma growth_ends_and_freeze_witness :
  exists growth ending first final f,
    Pacer.paceFrames Examples.parseDate
                     (ChartConfig.mk None (Some (1 # 30)) None) "title"
                     [Examples.january; Examples.february]
                     Examples.two_month_chart 2
    = Some (Ok (growth ++ ending))
    /\ nth_error growth 0 = Some first
    /\ PacerSpec.shown first
       = PacerSpec.prefix Examples.two_month_chart 0 false
    /\ nth_error growth (List.length growth - 1) = Some final
    /\ PacerSpec.shown final
       = PacerSpec.prefix Examples.two_month_chart 0 false
    /\ Forall (fun f => PacerSpec.shown f
                        = PacerSpec.entire Examples.two_month_chart) ending
    /\ List.length ending = 90%nat
    /\ nth_error ending 0 = Some f
    /\ Frame.isFinalFrame f = true
    /\ nth_error (Frame.values f) 1 = Some (Fin 310).
Proof.
  destruct (@growth_ends_and_freeze Examples.parseDate
              (ChartConfig.mk None (Some (1 # 30)) None) "title"
              [Examples.january; Examples.february]
              Examples.two_month_chart 2)
    as (growth & ending & first & final & Hpace & Hfirst & Hshown & Hfinal
        & _ & Hstep & _ & Hending & Hcount & Hfreeze).
  - discriminate.
  - split; [discriminate|]. intros _. simpl. lia.
  - simpl. lia.
  - destruct Hfreeze as (f & last & Hf & Hflag & Hlast & Hvalue & _).
    { vm_compute. discriminate. }
    simpl in Hlast. injection Hlast as <-.
    exists growth, ending, first, final, f.
    split; [exact Hpace|]. split; [exact Hfirst|]. split; [exact Hshown|].
    split; [exact Hfinal|].
    split; [exact (proj1 (Hstep 2%nat eq_refl))|].
    split; [exact Hending|]. split; [exact Hcount|].
    split; [exact Hf|]. split; [exact Hflag|exact Hvalue].
Defined.


(** ** The whole run

    The inputs the frame loops receive from [generateVideo] meet the
    conditions under which the loops were studied. *)

Section WholeRun.

Variable parseDate : string -> option Z.

(** A run on a non-empty monthly series (and, for a daily or weekly chart,
    a non-empty series of that period) reaches the frame loops with a
    non-empty chart series that is compatible with the monthly states. *)
Lemma generateVideo_reaches_loops
      (config : ChartConfig.t) (title : string)
      (monthlyStockData periodStockData : list StockDataPoint.t)
      (monthlyInvestment initialBalance : Q) (fuel : nat) :
  monthlyStockData <> [] ->
  (Pacer.chartPeriod config <> monthly -> periodStockData <> []) ->
  exists monthlyData chartData,
    Sim.calculateInvestmentGrowth monthlyStockData monthlyInvestment
                                  initialBalance = Ok monthlyData
    /\ chartData <> []
    /\ PacerSpec.compatible config monthlyData chartData
    /\ Pacer.generateVideo parseDate config title monthlyStockData
                           periodStockData monthlyInvestment initialBalance
                           fuel
       = Pacer.paceFrames parseDate config title monthlyData chartData fuel.
Proof.
  intros Hne Hperiod.
  destruct monthlyStockData as [|p rest]; [congruence|].
  destruct (calculateInvestmentGrowth_total monthlyInvestment initialBalance
              p rest) as (monthlyData & Hsim & Hlen).
  assert (Hmne : monthlyData <> []).
  { destruct monthlyData; [simpl in Hlen; discriminate|discriminate]. }
  unfold Pacer.generateVideo. rewrite Hsim.
  destruct (ChartPeriod_eqb (Pacer.chartPeriod config) monthly) eqn:E.
  - exists monthlyData, (map Pacer.chartOfMonthly monthlyData).
    split; [reflexivity|]. split.
    { destruct monthlyData; [congruence|discriminate]. }
    split; [|reflexivity].
    split; [exact Hmne|]. intros _. rewrite length_map. apply Nat.le_refl.
  - assert (Hp : Pacer.chartPeriod config <> monthly).
    { intro H. apply PacerFacts.ChartPeriod_eqb_eq in H. congruence. }
    destruct (interpolateChartData_total parseDate Hmne periodStockData)
      as (chartData & Hchart & Hclen).
    exists monthlyData, chartData. rewrite Hchart.
    split; [reflexivity|]. split.
    { specialize (Hperiod Hp).
      destruct chartData; [|discriminate].
      destruct periodStockData; [congruence|discriminate]. }
    split; [|reflexivity].
    split; [exact Hmne|]. intro H. congruence.
Qed.

End WholeRun.


(** * Further properties of the simulator *)

Module AccountFacts.

Lemma Qeq_bool_false (q : Q) : ~ q == 0 -> Qeq_bool q 0 = false.
Proof.
  intro H. destruct (Qeq_bool q 0) eqn:E; [|reflexivity].
  apply Qeq_bool_eq in E. contradiction.
Qed.

End AccountFacts.

Lemma run_firstn (c : Q) (data : list StockDataPoint.t) :
  forall (st : Sim.state) (k : nat),
    SimSpec.run c st (firstn k data) = firstn k (SimSpec.run c st data).
Proof.
  induction data as [|p rest IH]; intros st k.
  - simpl. rewrite !firstn_nil. reflexivity.
  - destruct k as [|k]; [reflexivity|].
    simpl. rewrite IH. reflexivity.
Qed.

(** X5.  No entry depends on a later observation: run on the first [k + 1]
    observations, the simulator returns the first [k + 1] entries of the run
    on the whole series. *)
Theorem entries_ignore_later_observations
        (p : StockDataPoint.t) (rest : list StockDataPoint.t) (c b : Q)
        (k : nat) :
  exists out,
    Sim.calculateInvestmentGrowth (p :: rest) c b = Ok out
    /\ Sim.calculateInvestmentGrowth (firstn (S k) (p :: rest)) c b
       = Ok (firstn (S k) out).
Proof.
  unfold Sim.calculateInvestmentGrowth. cbn [firstn].
  rewrite !mapMonths_run. eexists. split; [reflexivity|].
  change (p :: firstn k rest) with (firstn (S k) (p :: rest)).
  rewrite run_firstn. reflexivity.
Qed.

(** * The simulator's entries on the engine's numbers *)

Module DoubleRunFacts.

Import Double.

Lemma monthStep_stateOf (c : PrimFloat.float) (st : state)
      (p : StockDataPoint.t) :
  fst (monthStep c st p) = stateOf (snd (monthStep c st p)).
Proof.
  unfold monthStep.
  repeat match goal with
         | |- context [if ?g then _ else _] => destruct g
         end; reflexivity.
Qed.

Lemma monthStep_entry (c : PrimFloat.float) (st : state)
      (p : StockDataPoint.t) :
  let s := snd (monthStep c st p) in
  MonthlyDataPoint.date s = StockDataPoint.date p
  /\ MonthlyDataPoint.formattedDate s = StockDataPoint.formattedDate p
  /\ MonthlyDataPoint.stockPrice s = StockDataPoint.value p
  /\ MonthlyDataPoint.portfolioValue s
     = PrimFloat.add (PrimFloat.mul (MonthlyDataPoint.stockPrice s)
                                    (MonthlyDataPoint.shares s))
                     (MonthlyDataPoint.cashBalance s).
Proof.
  unfold monthStep.
  repeat match goal with
         | |- context [if ?g then _ else _] => destruct g
         end; repeat split.
Qed.

Lemma monthStep_totalDividends (c : PrimFloat.float) (st : state)
      (p : StockDataPoint.t) :
  MonthlyDataPoint.totalDividends (snd (monthStep c st p))
  = if PrimFloat.ltb PrimFloat.zero (StockDataPoint.dividend p)
       && PrimFloat.ltb PrimFloat.zero (totalShares st)
    then PrimFloat.add (totalDividendsReceived st)
                       (PrimFloat.mul (StockDataPoint.dividend p)
                                      (totalShares st))
    else totalDividendsReceived st.
Proof.
  unfold monthStep, PrimFloat.zero.
  repeat match goal with
         | |- context [if ?g then _ else _] => destruct g
         end; reflexivity.
Qed.

(** Each entry after the first comes from the entry before it and its own
    observation: the callback keeps nothing else. *)
Lemma mapMonths_next (c : PrimFloat.float) (data : list StockDataPoint.t) :
  forall (st : state) (i : nat) (s s' : MonthlyDataPoint.t)
         (p : StockDataPoint.t),
    nth_error (mapMonths c st data) i = Some s ->
    nth_error (mapMonths c st data) (S i) = Some s' ->
    nth_error data (S i) = Some p ->
    s' = snd (monthStep c (stateOf s) p).
Proof.
  induction data as [|p0 rest IH]; intros st i s s' p Hs Hs' Hp.
  - destruct i; discriminate.
  - simpl in Hs, Hs', Hp.
    pose proof (monthStep_stateOf c st p0) as Hst.
    destruct (monthStep c st p0) as [st' out]. simpl in Hst.
    destruct i as [|i]; simpl in Hs, Hs'.
    + injection Hs as <-.
      destruct rest as [|p1 rest]; [discriminate|].
      simpl in Hp, Hs'. injection Hp as <-.
      rewrite <- Hst.
      destruct (monthStep c st' p1) as [st'' out']. simpl in Hs' |- *.
      congruence.
    + exact (IH st' i s s' p Hs Hs' Hp).
Qed.

Lemma mapMonths_entries (c : PrimFloat.float)
      (data : list StockDataPoint.t) :
  forall st,
    Forall2 (fun p s =>
               MonthlyDataPoint.date s = StockDataPoint.date p
               /\ MonthlyDataPoint.formattedDate s
                  = StockDataPoint.formattedDate p
               /\ MonthlyDataPoint.stockPrice s = StockDataPoint.value p
               /\ MonthlyDataPoint.portfolioValue s
                  = PrimFloat.add
                      (PrimFloat.mul (MonthlyDataPoint.stockPrice s)
                                     (MonthlyDataPoint.shares s))
                      (MonthlyDataPoint.cashBalance s))
            data (mapMonths c st data).
Proof.
  induction data as [|p rest IH]; intro st; simpl; [constructor|].
  pose proof (monthStep_entry c st p) as Hentry.
  destruct (monthStep c st p) as [st' out]. simpl in Hentry.
  constructor; [exact Hentry|apply IH].
Qed.

End DoubleRunFacts.

(** X21.  In binary64 as the engine computes it, every entry is of one
    piece with its observation: it has the observation's date, label and
    price, and its portfolio value is the rounded product of that price by
    the shares it records, plus the cash it records, rounded. *)
Theorem portfolio_value_is_derived
        (data : list Double.StockDataPoint.t) (c b : PrimFloat.float) :
  data <> [] ->
  exists out,
    Double.calculateInvestmentGrowth data c b = Ok out
    /\ Forall2 (fun p s =>
                  Double.MonthlyDataPoint.date s
                  = Double.StockDataPoint.date p
                  /\ Double.MonthlyDataPoint.formattedDate s
                     = Double.StockDataPoint.formattedDate p
                  /\ Double.MonthlyDataPoint.stockPrice s
                     = Double.StockDataPoint.value p
                  /\ Double.MonthlyDataPoint.portfolioValue s
                     = PrimFloat.add
                         (PrimFloat.mul
                            (Double.MonthlyDataPoint.stockPrice s)
                            (Double.MonthlyDataPoint.shares s))
                         (Double.MonthlyDataPoint.cashBalance s))
               data out.
Proof.
  intro Hne. destruct data as [|p rest]; [congruence|].
  unfold Double.calculateInvestmentGrowth.
  eexists. split; [reflexivity|].
  apply DoubleRunFacts.mapMonths_entries.
Qed.

(** X21 at prices 85.04 and 19.16 with contribution 100: the second entry
    is worth 134.12, seven shares at 19.16 and the cash -1.42e-14. *)
Lemma portfolio_value_is_derived_witness :
  exists january february,
    Double.calculateInvestmentGrowth Examples.months_8504_1916
                                     (Double.ofZ 100) PrimFloat.zero
    = Ok [january; february]
    /\ Double.MonthlyDataPoint.stockPrice february = Examples.cents 1916
    /\ Double.MonthlyDataPoint.shares february = Double.ofZ 7
    /\ Double.MonthlyDataPoint.portfolioValue february
       = PrimFloat.add
           (PrimFloat.mul (Examples.cents 1916) (Double.ofZ 7))
           (Double.MonthlyDataPoint.cashBalance february)
    /\ Double.MonthlyDataPoint.portfolioValue february = Examples.cents 13412.
Proof.
  destruct (@portfolio_value_is_derived Examples.months_8504_1916
              (Double.ofZ 100) PrimFloat.zero)
    as (out & Hout & Hall).
  - discriminate.
  - vm_compute in Hout. injection Hout as <-.
    inversion Hall as [|p1 january r1 o1 _ Hrest]; subst.
    inversion Hrest as [|p2 february r2 o2 (_ & _ & Hprice & Hvalue) _]; subst.
    eexists. eexists. split; [vm_compute; reflexivity|].
    split; [exact Hprice|]. split; [vm_compute; reflexivity|].
    split; [exact Hvalue|vm_compute; reflexivity].
Defined.

(** X22.  In binary64 as the engine computes it, dividends are paid on the
    shares held before the period's purchase: the total dividends of an
    entry are those of the entry before it, to which the rounded product
    of the period's dividend per share by the earlier entry's shares is
    added when both are positive, and nothing otherwise. *)
Theorem dividend_is_paid_on_shares_held_before
        (data : list Double.StockDataPoint.t) (c b : PrimFloat.float) :
  data <> [] ->
  exists out,
    Double.calculateInvestmentGrowth data c b = Ok out
    /\ forall i s s' p,
        nth_error out i = Some s ->
        nth_error out (S i) = Some s' ->
        nth_error data (S i) = Some p ->
        Double.MonthlyDataPoint.totalDividends s'
        = if PrimFloat.ltb PrimFloat.zero (Double.StockDataPoint.dividend p)
             && PrimFloat.ltb PrimFloat.zero (Double.MonthlyDataPoint.shares s)
          then PrimFloat.add
                 (Double.MonthlyDataPoint.totalDividends s)
                 (PrimFloat.mul (Double.StockDataPoint.dividend p)
                                (Double.MonthlyDataPoint.shares s))
          else Double.MonthlyDataPoint.totalDividends s.
Proof.
  intro Hne. destruct data as [|p0 rest]; [congruence|].
  unfold Double.calculateInvestmentGrowth.
  eexists. split; [reflexivity|].
  intros i s s' p Hs Hs' Hp.
  rewrite (DoubleRunFacts.mapMonths_next _ _ _ _ Hs Hs' Hp).
  rewrite DoubleRunFacts.monthStep_totalDividends. reflexivity.
Qed.

(** X22 on two months at price 10, the second paying 0.1 per share, with
    contribution 30: the three shares of January earn 0.30000000000000004 in
    February, before February's three shares are bought. *)
Lemma dividend_is_paid_on_shares_held_before_witness :
  exists january february,
    Double.calculateInvestmentGrowth Examples.tenth_dividend_in_second_month
                                     (Double.ofZ 30) PrimFloat.zero
    = Ok [january; february]
    /\ Double.MonthlyDataPoint.shares january = Double.ofZ 3
    /\ Double.MonthlyDataPoint.shares february = Double.ofZ 6
    /\ Double.MonthlyDataPoint.totalDividends february
       = PrimFloat.add PrimFloat.zero
                       (PrimFloat.mul Examples.tenth (Double.ofZ 3))
    /\ Double.exact (Double.MonthlyDataPoint.totalDividends february)
       = Fin (5404319552844596 # 18014398509481984).
Proof.
  destruct (@dividend_is_paid_on_shares_held_before
              Examples.tenth_dividend_in_second_month
              (Double.ofZ 30) PrimFloat.zero)
    as (out & Hout & Hnext).
  - discriminate.
  - vm_compute in Hout. injection Hout as <-.
    eexists. eexists. split; [vm_compute; reflexivity|].
    split; [vm_compute; reflexivity|]. split; [vm_compute; reflexivity|].
    split.
    + rewrite (Hnext 0%nat _ _ _ eq_refl eq_refl eq_refl).
      vm_compute. reflexivity.
    + vm_compute. reflexivity.
Defined.

(** * Further properties of the interpolator *)

Section InterpolatorMore.

Variable parseDate : string -> option Z.

(** What every emitted point has, whichever branch emits it. *)
Lemma interpolatePoint_shape (monthlyData : list MonthlyDataPoint.t)
      (p : StockDataPoint.t) (c : ChartDataPoint.t) :
  interpolatePoint parseDate monthlyData p = Ok c ->
  ChartDataPoint.date c = StockDataPoint.date p
  /\ ChartDataPoint.formattedDate c = StockDataPoint.formattedDate p
  /\ ChartDataPoint.stockPrice c = Fin (StockDataPoint.value p)
  /\ ChartDataPoint.shares c = None
  /\ ChartDataPoint.totalDividends c = None
  /\ exists m,
      nth_error monthlyData (matchingMonthlyIndex parseDate p monthlyData)
      = Some m
      /\ ChartDataPoint.totalInvested c = MonthlyDataPoint.totalInvested m.
Proof.
  unfold interpolatePoint, index.
  destruct (nth_error monthlyData
                      (matchingMonthlyIndex parseDate p monthlyData))
    as [m|]; [|discriminate].
  cbn [bind].
  destruct (String.eqb _ _); intro H; injection H as <-;
    repeat split; exists m; split; reflexivity.
Qed.

(** X7.  With at least one monthly state the interpolator raises nothing
    and returns one point per observation of the denser series, in order:
    each point has its observation's date, label and price, the total
    invested of one of the monthly states, and neither shares nor total
    dividends. *)
Theorem interpolation_keeps_the_series
        (monthlyData : list MonthlyDataPoint.t)
        (periodStockData : list StockDataPoint.t) :
  monthlyData <> [] ->
  exists chartData,
    interpolateChartData parseDate periodStockData monthlyData = Ok chartData
    /\ map ChartDataPoint.date chartData
       = map StockDataPoint.date periodStockData
    /\ map ChartDataPoint.formattedDate chartData
       = map StockDataPoint.formattedDate periodStockData
    /\ map ChartDataPoint.stockPrice chartData
       = map (fun p => Fin (StockDataPoint.value p)) periodStockData
    /\ Forall (fun c =>
                 ChartDataPoint.shares c = None
                 /\ ChartDataPoint.totalDividends c = None
                 /\ exists m,
                     In m monthlyData
                     /\ ChartDataPoint.totalInvested c
                        = MonthlyDataPoint.totalInvested m) chartData.
Proof.
  intro Hne. unfold interpolateChartData.
  induction periodStockData as [|p rest IH].
  - exists []. simpl. repeat split; constructor.
  - destruct IH as (cs & Hcs & Hd & Hf & Hp & Hall).
    destruct (interpolatePoint_total parseDate p Hne) as (c & Hc).
    destruct (interpolatePoint_shape _ _ Hc)
      as (Ed & Ef & Ep & Es & Et & m & Hm & Eti).
    exists (c :: cs). simpl. rewrite Hc, Hcs. cbn [bind].
    split; [reflexivity|].
    rewrite Hd, Hf, Hp, Ed, Ef, Ep.
    repeat split. constructor; [|exact Hall].
    split; [exact Es|]. split; [exact Et|].
    exists m. split; [exact (nth_error_In _ _ Hm)|exact Eti].
Qed.

End InterpolatorMore.

(** X7 on the January boundary, mid January and mid December. *)
Lemma interpolation_keeps_the_series_witness :
  exists chartData,
    interpolateChartData Examples.parseDate
      [Examples.mid_december; Examples.on_january; Examples.mid_january]
      [Examples.january; Examples.february]
    = Ok chartData
    /\ map ChartDataPoint.date chartData
       = ["Dec 15, 2019"; "Jan 2020"; "Jan 15, 2020"]%string.
Proof.
  destruct (@interpolation_keeps_the_series Examples.parseDate
              [Examples.january; Examples.february]
              [Examples.mid_december; Examples.on_january;
               Examples.mid_january])
    as (chartData & Hchart & Hdates & _).
  - discriminate.
  - exists chartData. split; [exact Hchart|exact Hdates].
Defined.

Section InterpolatorOrder.

Variable parseDate : string -> option Z.

(** The scan returns the index it was given or one at or after the
    position it started from. *)
Lemma scanMatchingIndex_lower (periodDate : string) :
  forall (monthlyData : list MonthlyDataPoint.t) (i mi : nat),
    scanMatchingIndex parseDate periodDate monthlyData i mi = mi
    \/ (i <= scanMatchingIndex parseDate periodDate monthlyData i mi)%nat.
Proof.
  induction monthlyData as [|m rest IH]; intros i mi; simpl.
  - left. reflexivity.
  - destruct (dateLe parseDate _ periodDate); [|left; reflexivity].
    right. destruct (IH (S i) i) as [-> | H]; lia.
Qed.

Lemma scanMatchingIndex_monotone (d1 d2 : string) :
  dateLe parseDate d1 d2 = true ->
  forall (monthlyData : list MonthlyDataPoint.t) (i mi : nat),
    (mi <= i)%nat ->
    (scanMatchingIndex parseDate d1 monthlyData i mi
     <= scanMatchingIndex parseDate d2 monthlyData i mi)%nat.
Proof.
  intro Hd. induction monthlyData as [|m rest IH]; intros i mi Hmi; simpl.
  - apply Nat.le_refl.
  - destruct (dateLe parseDate (MonthlyDataPoint.formattedDate m) d1) eqn:E1.
    + rewrite (dateLe_trans parseDate _ _ _ E1 Hd). apply IH. lia.
    + destruct (dateLe parseDate (MonthlyDataPoint.formattedDate m) d2);
        [|apply Nat.le_refl].
      destruct (scanMatchingIndex_lower d2 rest (S i) i) as [-> | H]; lia.
Qed.

Lemma matchingMonthlyIndex_le
      (monthlyData : list MonthlyDataPoint.t) (p1 p2 : StockDataPoint.t) :
  dateLe parseDate (StockDataPoint.formattedDate p1)
         (StockDataPoint.formattedDate p2) = true ->
  (matchingMonthlyIndex parseDate p1 monthlyData
   <= matchingMonthlyIndex parseDate p2 monthlyData)%nat.
Proof.
  intro H. unfold matchingMonthlyIndex.
  apply scanMatchingIndex_monotone; [exact H|apply Nat.le_refl].
Qed.

(** X8.  The matched monthly state never moves back in time: when the date
    of [p1] is at or before the date of [p2], the index matched for [p1] is
    at most the index matched for [p2], whatever the order of the monthly
    series. *)
Theorem matching_index_is_monotone
        (monthlyData : list MonthlyDataPoint.t) (p1 p2 : StockDataPoint.t) :
  dateLe parseDate (StockDataPoint.formattedDate p1)
         (StockDataPoint.formattedDate p2) = true ->
  (matchingMonthlyIndex parseDate p1 monthlyData
   <= matchingMonthlyIndex parseDate p2 monthlyData)%nat.
Proof. apply matchingMonthlyIndex_le. Qed.

Lemma le_of_eqv (a b : number) (x y : Q) :
  (a ~= Fin x)%num -> (b ~= Fin y)%num -> x <= y -> (a <= b)%num.
Proof.
  destruct a, b; simpl; try tauto.
  intros Ha Hb Hxy. rewrite Ha, Hb. exact Hxy.
Qed.

(** X9.  Interpolating the simulator's own output over a denser series in
    date order, with a contribution that is not negative, gives points
    whose total invested never decreases along the series. *)
Theorem interpolated_contribution_never_decreases
        (data periodStockData : list StockDataPoint.t) (c b : Q) :
  data <> [] ->
  0 <= c ->
  dateOrdered parseDate periodStockData ->
  exists monthlyData chartData,
    Sim.calculateInvestmentGrowth data c b = Ok monthlyData
    /\ interpolateChartData parseDate periodStockData monthlyData
       = Ok chartData
    /\ List.length chartData = List.length periodStockData
    /\ forall i j ci cj,
        (i <= j)%nat ->
        nth_error chartData i = Some ci ->
        nth_error chartData j = Some cj ->
        (ChartDataPoint.totalInvested ci
         <= ChartDataPoint.totalInvested cj)%num.
Proof.
  intros Hne Hc Hord. destruct data as [|p0 rest]; [congruence|].
  unfold Sim.calculateInvestmentGrowth. rewrite mapMonths_run.
  set (monthlyData := SimSpec.run c (Sim.initialPurchase p0 b) (p0 :: rest)).
  assert (Hmne : monthlyData <> []) by (subst monthlyData; discriminate).
  destruct (interpolateChartData_total parseDate Hmne periodStockData)
    as (chartData & Hchart & Hlen).
  exists monthlyData, chartData.
  split; [reflexivity|]. split; [exact Hchart|]. split; [exact Hlen|].
  destruct (mapM_nth _ _ Hchart) as [_ Hnth].
  intros i j ci cj Hij Hi Hj.
  destruct (Hnth i ci Hi) as (pi & Hpi & Hci).
  destruct (Hnth j cj Hj) as (pj & Hpj & Hcj).
  destruct (interpolatePoint_shape parseDate _ _ Hci)
    as (_ & _ & _ & _ & _ & mi & Hmi & ->).
  destruct (interpolatePoint_shape parseDate _ _ Hcj)
    as (_ & _ & _ & _ & _ & mj & Hmj & ->).
  pose proof (@matchingMonthlyIndex_le monthlyData pi pj
                (Hord i j pi pj Hij Hpi Hpj)) as Hidx.
  eapply le_of_eqv.
  - exact (@ContributionFacts.run_totalInvested _ _ _ _ _ _
             (ContributionFacts.initialPurchase_totalInvested p0 b) Hmi).
  - exact (@ContributionFacts.run_totalInvested _ _ _ _ _ _
             (ContributionFacts.initialPurchase_totalInvested p0 b) Hmj).
  - assert (Hz : inject_Z (Z.of_nat (S (matchingMonthlyIndex parseDate pi
                                                              monthlyData)))
                 <= inject_Z (Z.of_nat (S (matchingMonthlyIndex parseDate pj
                                                              monthlyData)))).
    { rewrite <- Zle_Qle. lia. }
    nra.
Qed.

End InterpolatorOrder.

(** X8 at mid December and mid January. *)
Lemma matching_index_is_monotone_witness :
  (matchingMonthlyIndex Examples.parseDate Examples.mid_december
                        [Examples.january; Examples.february]
   <= matchingMonthlyIndex Examples.parseDate Examples.mid_january
                           [Examples.january; Examples.february])%nat.
Proof.
  apply (@matching_index_is_monotone Examples.parseDate
           [Examples.january; Examples.february]
           Examples.mid_december Examples.mid_january).
  reflexivity.
Defined.

Lemma dense_january_dateOrdered :
  dateOrdered Examples.parseDate
              [Examples.mid_december; Examples.on_january;
               Examples.mid_january].
Proof.
  intros i j pi pj Hij Hi Hj.
  destruct i as [|[|[|i]]], j as [|[|[|j]]]; simpl in Hi, Hj;
    try lia; try discriminate;
    try (destruct i; discriminate); try (destruct j; discriminate);
    injection Hi as <-; injection Hj as <-; reflexivity.
Qed.

(** X9 over mid December, the January boundary and mid January. *)
Lemma interpolated_contribution_never_decreases_witness :
  exists monthlyData chartData,
    Sim.calculateInvestmentGrowth Examples.two_months 105 0 = Ok monthlyData
    /\ interpolateChartData Examples.parseDate
         [Examples.mid_december; Examples.on_january; Examples.mid_january]
         monthlyData
       = Ok chartData
    /\ List.length chartData = 3%nat
    /\ forall i j ci cj,
        (i <= j)%nat ->
        nth_error chartData i = Some ci ->
        nth_error chartData j = Some cj ->
        (ChartDataPoint.totalInvested ci
         <= ChartDataPoint.totalInvested cj)%num.
Proof.
  apply (@interpolated_contribution_never_decreases Examples.parseDate
           Examples.two_months
           [Examples.mid_december; Examples.on_january; Examples.mid_january]
           105 0).
  - discriminate.
  - discriminate.
  - exact dense_january_dateOrdered.
Defined.

(** * The interpolator on the simulator's output, and the frames' lookup *)

Module RevalueFacts.

Import Num.

Lemma Qltb_comp (a b c d : Q) : a == b -> c == d -> Qltb a c = Qltb b d.
Proof. intros H1 H2. unfold Qltb. rewrite H1, H2. reflexivity. Qed.

Lemma inf_of_sign_comp (x y : Q) : x == y -> inf_of_sign x = inf_of_sign y.
Proof.
  intro H. unfold inf_of_sign.
  rewrite (@Qltb_comp 0 0 x y (Qeq_refl 0) H).
  rewrite (@Qltb_comp x y 0 0 H (Qeq_refl 0)). reflexivity.
Qed.

Lemma mul_eqv_r (a : number) (x y : Q) :
  x == y -> (a * Fin x ~= a * Fin y)%num.
Proof.
  intro H. destruct a; simpl.
  - rewrite H. reflexivity.
  - rewrite (inf_of_sign_comp H). apply NumFacts.eqv_refl.
  - rewrite (@inf_of_sign_comp (- x) (- y)) by (rewrite H; reflexivity).
    apply NumFacts.eqv_refl.
  - exact I.
Qed.

Lemma add_eqv_l (a a' b : number) :
  (a ~= a')%num -> (a + b ~= a' + b)%num.
Proof.
  destruct a, a', b; simpl; try tauto.
  intro H. rewrite H. reflexivity.
Qed.

End RevalueFacts.

(** Every entry of a run records its observation's price and values its
    shares at that price. *)
Lemma run_entry_value (c : Q) (data : list StockDataPoint.t) :
  forall (st : Sim.state) (s : MonthlyDataPoint.t),
    In s (SimSpec.run c st data) ->
    exists p,
      In p data
      /\ MonthlyDataPoint.stockPrice s = Fin (StockDataPoint.value p)
      /\ MonthlyDataPoint.portfolioValue s
         = (MonthlyDataPoint.shares s * Fin (StockDataPoint.value p)
            + MonthlyDataPoint.cashBalance s)%num.
Proof.
  induction data as [|p rest IH]; intros st s Hs; simpl in Hs.
  - contradiction.
  - destruct Hs as [<-|Hs].
    + exists p. split; [left; reflexivity|]. split; reflexivity.
    + destruct (IH _ _ Hs) as (q & Hq & H). exists q.
      split; [right; exact Hq|exact H].
Qed.

(** X10.  The two branches of the interpolator agree on the simulator's
    output: a denser observation whose price equals the price of the
    monthly state matched for it gets that state's portfolio value,
    whether or not its period key is the state's. *)
Theorem revaluation_at_the_month_price
        (parseDate : string -> option Z)
        (data periodStockData : list StockDataPoint.t) (c b : Q)
        (monthlyData : list MonthlyDataPoint.t) (i : nat)
        (p : StockDataPoint.t) (m : MonthlyDataPoint.t) :
  Sim.calculateInvestmentGrowth data c b = Ok monthlyData ->
  nth_error periodStockData i = Some p ->
  nth_error monthlyData (matchingMonthlyIndex parseDate p monthlyData)
  = Some m ->
  (MonthlyDataPoint.stockPrice m ~= Fin (StockDataPoint.value p))%num ->
  exists chartData cp,
    interpolateChartData parseDate periodStockData monthlyData = Ok chartData
    /\ nth_error chartData i = Some cp
    /\ (ChartDataPoint.portfolioValue cp
        ~= MonthlyDataPoint.portfolioValue m)%num.
Proof.
  intros Hsim Hp Hm Hprice.
  destruct data as [|p0 rest]; [discriminate Hsim|].
  unfold Sim.calculateInvestmentGrowth in Hsim. rewrite mapMonths_run in Hsim.
  assert (Hrun : SimSpec.run c (Sim.initialPurchase p0 b) (p0 :: rest)
                 = monthlyData) by congruence.
  assert (Hmne : monthlyData <> []).
  { intro E. rewrite E in Hm. destruct (matchingMonthlyIndex _ _ _) in Hm;
      discriminate Hm. }
  destruct (interpolateChartData_nth parseDate Hmne periodStockData i Hp)
    as (chartData & cp & Hchart & _ & Hcp & Hpoint).
  exists chartData, cp. split; [exact Hchart|]. split; [exact Hcp|].
  unfold interpolatePoint, index in Hpoint. rewrite Hm in Hpoint.
  cbn [bind] in Hpoint.
  destruct (String.eqb _ _); injection Hpoint as <-;
    cbn [ChartDataPoint.portfolioValue].
  - apply NumFacts.eqv_refl.
  - assert (Hin : In m (SimSpec.run c (Sim.initialPurchase p0 b) (p0 :: rest))).
    { rewrite Hrun. exact (nth_error_In _ _ Hm). }
    destruct (@run_entry_value c (p0 :: rest) _ m Hin)
      as (q & _ & Eprice & Evalue).
    rewrite Evalue. rewrite Eprice in Hprice. simpl in Hprice.
    apply RevalueFacts.add_eqv_l. apply RevalueFacts.mul_eqv_r.
    symmetry. exact Hprice.
Qed.

(** X10 on the daily observation of 14 February 2020 at February's price
    20, against the two simulated months: its key is not February's, and
    the fifteen shares at 20 and 10 of cash give February's 310. *)
Lemma revaluation_at_the_month_price_witness :
  StockDataPoint.date Examples.mid_february_unchanged
  <> MonthlyDataPoint.date Examples.february
  /\ exists chartData cp,
      interpolateChartData Examples.parseDay
                           [Examples.mid_january;
                            Examples.mid_february_unchanged]
                           [Examples.january; Examples.february]
      = Ok chartData
      /\ nth_error chartData 1 = Some cp
      /\ (ChartDataPoint.portfolioValue cp ~= Fin 310)%num.
Proof.
  split; [discriminate|].
  apply (@revaluation_at_the_month_price Examples.parseDay
           Examples.two_months
           [Examples.mid_january; Examples.mid_february_unchanged] 105 0
           [Examples.january; Examples.february] 1
           Examples.mid_february_unchanged Examples.february).
  - vm_compute. reflexivity.
  - reflexivity.
  - reflexivity.
  - reflexivity.
Defined.

Lemma scanMonthly_index (parseDate : string -> option Z)
      (pointDate : string) :
  forall (rest pre : list MonthlyDataPoint.t) (mi : nat),
    Pacer.scanMonthly parseDate pointDate rest (nth_error (pre ++ rest) mi)
    = nth_error (pre ++ rest)
                (scanMatchingIndex parseDate pointDate rest
                                   (List.length pre) mi).
Proof.
  induction rest as [|m rest IH]; intros pre mi; simpl.
  - reflexivity.
  - destruct (dateLe parseDate (MonthlyDataPoint.formattedDate m) pointDate);
      [|reflexivity].
    specialize (IH (pre ++ [m]) (List.length pre)).
    rewrite <- app_assoc in IH. simpl in IH.
    rewrite nth_error_app2 in IH by apply Nat.le_refl.
    rewrite Nat.sub_diag in IH. simpl in IH.
    rewrite length_app in IH. simpl in IH.
    rewrite Nat.add_1_r in IH. exact IH.
Qed.

(** X11.  The frame loop's search for the monthly state to display agrees
    with the interpolator's: when the first monthly state has started by
    the point's date, the loop lands on the state at the interpolator's
    matching index; when it has not, the interpolator's index is 0 while
    the loop keeps the state displayed before. *)
Theorem frame_lookup_agrees_with_interpolator
        (parseDate : string -> option Z) (pointDate : string)
        (m0 : MonthlyDataPoint.t) (rest : list MonthlyDataPoint.t)
        (currentMonthlyData : option MonthlyDataPoint.t) :
  (dateLe parseDate (MonthlyDataPoint.formattedDate m0) pointDate = true ->
   Pacer.scanMonthly parseDate pointDate (m0 :: rest) currentMonthlyData
   = nth_error (m0 :: rest)
               (scanMatchingIndex parseDate pointDate (m0 :: rest) 0 0))
  /\ (dateLe parseDate (MonthlyDataPoint.formattedDate m0) pointDate = false ->
      Pacer.scanMonthly parseDate pointDate (m0 :: rest) currentMonthlyData
      = currentMonthlyData
      /\ scanMatchingIndex parseDate pointDate (m0 :: rest) 0 0 = 0%nat).
Proof.
  split; intro H; simpl; rewrite H.
  - exact (scanMonthly_index parseDate pointDate rest [m0] 0).
  - split; reflexivity.
Qed.

(** X11 at 15 January 2020: the loop lands on January, the interpolator's
    index 0. *)
Lemma frame_lookup_agrees_with_interpolator_witness :
  Pacer.scanMonthly Examples.parseDate "January 15, 2020"
                    [Examples.january; Examples.february] None
  = nth_error [Examples.january; Examples.february]
              (scanMatchingIndex Examples.parseDate "January 15, 2020"
                                 [Examples.january; Examples.february] 0 0).
Proof.
  apply (proj1 (@frame_lookup_agrees_with_interpolator
                  Examples.parseDate "January 15, 2020" Examples.january
                  [Examples.february] None)).
  reflexivity.
Defined.

(** * Further properties of the frame loops *)

Section LoopsMore.

Variable parseDate : string -> option Z.
Variable config : ChartConfig.t.
Variable title : string.
Variable monthlyData : list MonthlyDataPoint.t.
Variable chartData : list ChartDataPoint.t.

(** Every frame the regular loop returns was built by one pass of its
    body. *)
Lemma growthLoop_frames :
  forall (fuel : nat) (i : number) (cur : option MonthlyDataPoint.t)
         (frames : list Frame.t),
    Pacer.growthLoop parseDate config title monthlyData chartData fuel i cur
    = Some (Ok frames) ->
    Forall (fun f =>
              exists k cur0 cur1,
                Pacer.growthFrame parseDate config title monthlyData
                                  chartData k cur0 = Ok (cur1, f)) frames.
Proof.
  induction fuel as [|fuel IH]; intros i cur frames H;
    rewrite PacerFacts.growthLoop_eq in H;
    destruct (Pacer.ofZ (Z.of_nat (List.length chartData)) >? i)%num;
    try discriminate;
    try (injection H as <-; constructor).
  destruct (Pacer.toIndex i) as [k|]; [|discriminate].
  destruct (Pacer.growthFrame parseDate config title monthlyData chartData
                              k cur) as [[cur' f]|e] eqn:Hf; [|discriminate].
  destruct (Pacer.growthLoop parseDate config title monthlyData chartData
                             fuel _ cur') as [[rest|e]|] eqn:Hrest;
    try discriminate.
  injection H as <-. constructor.
  - exists k, cur, cur'. exact Hf.
  - exact (IH _ _ _ Hrest).
Qed.

(** The ending loop, when both series have a last element. *)
Lemma endingLoop_last (lastPoint : ChartDataPoint.t)
      (lastMonthlyPoint : MonthlyDataPoint.t) :
  nth_error chartData (List.length chartData - 1) = Some lastPoint ->
  nth_error monthlyData (List.length monthlyData - 1) = Some lastMonthlyPoint ->
  Pacer.endingLoop config title monthlyData chartData
  = Ok (repeat
          {| Frame.dates := map ChartDataPoint.date chartData;
             Frame.values := map ChartDataPoint.portfolioValue chartData;
             Frame.title := title;
             Frame.totalInvested := map ChartDataPoint.totalInvested chartData;
             Frame.currentShares := MonthlyDataPoint.shares lastMonthlyPoint;
             Frame.totalDividends :=
               MonthlyDataPoint.totalDividends lastMonthlyPoint;
             Frame.formattedDate := ChartDataPoint.formattedDate lastPoint;
             Frame.currentStockPrice := ChartDataPoint.stockPrice lastPoint;
             Frame.isFinalFrame := true |}
          (Z.to_nat (Pacer.endingFrames config))).
Proof.
  intros Hc Hm. unfold Pacer.endingLoop, index. rewrite Hc, Hm. cbn [bind].
  destruct (0 <? Pacer.endingFrames config)%Z eqn:E; [reflexivity|].
  apply Z.ltb_ge in E.
  replace (Z.to_nat (Pacer.endingFrames config)) with 0%nat by lia.
  reflexivity.
Qed.

End LoopsMore.

Lemma nth_error_last_map {A B : Type} (f : A -> B) (xs : list A) (k : nat)
      (x : A) :
  nth_error xs k = Some x ->
  nth_error (map f (firstn (k + 1) xs))
            (List.length (map f (firstn (k + 1) xs)) - 1)
  = Some (f x)
  /\ List.length (map f (firstn (k + 1) xs)) = (k + 1)%nat.
Proof.
  intro H.
  assert (Hk : (k < List.length xs)%nat)
    by (apply nth_error_Some; congruence).
  assert (Hlen : List.length (map f (firstn (k + 1) xs)) = (k + 1)%nat).
  { rewrite length_map, length_firstn. lia. }
  split; [|exact Hlen].
  rewrite Hlen. replace (k + 1 - 1)%nat with k by lia.
  rewrite nth_error_map, nth_error_firstn.
  assert (E : (k <? k + 1)%nat = true) by (apply Nat.ltb_lt; lia).
  rewrite E, H. reflexivity.
Qed.

(** X12.  On a monthly chart every frame is of one piece: the shares, the
    dividends, the price and the date it displays are those of the month of
    the last value it plots.  This holds of the regular frames and of the
    final ones. *)
Theorem monthly_frames_show_their_month
        (parseDate : string -> option Z) (config : ChartConfig.t)
        (title : string)
        (monthlyStockData periodStockData : list StockDataPoint.t)
        (c b : Q) (fuel : nat) :
  monthlyStockData <> [] ->
  Pacer.chartPeriod config = monthly ->
  (List.length monthlyStockData <= fuel)%nat ->
  exists monthlyData frames,
    Sim.calculateInvestmentGrowth monthlyStockData c b = Ok monthlyData
    /\ Pacer.generateVideo parseDate config title monthlyStockData
                           periodStockData c b fuel
       = Some (Ok frames)
    /\ Forall (fun f =>
                 exists m,
                   nth_error monthlyData (List.length (Frame.values f) - 1)
                   = Some m
                   /\ nth_error (Frame.values f)
                                (List.length (Frame.values f) - 1)
                      = Some (MonthlyDataPoint.portfolioValue m)
                   /\ Frame.currentShares f = MonthlyDataPoint.shares m
                   /\ Frame.totalDividends f
                      = MonthlyDataPoint.totalDividends m
                   /\ Frame.currentStockPrice f
                      = MonthlyDataPoint.stockPrice m
                   /\ Frame.formattedDate f
                      = MonthlyDataPoint.formattedDate m) frames.
Proof.
  intros Hne Hmonthly Hfuel.
  destruct monthlyStockData as [|p0 rest]; [congruence|].
  destruct (calculateInvestmentGrowth_total c b p0 rest)
    as (monthlyData & Hsim & Hlen).
  assert (Hmne : monthlyData <> []).
  { destruct monthlyData; [simpl in Hlen; discriminate|discriminate]. }
  set (chartData := map Pacer.chartOfMonthly monthlyData).
  assert (Hclen : List.length chartData = List.length monthlyData)
    by (subst chartData; apply length_map).
  assert (Hcompat : PacerSpec.compatible config monthlyData chartData).
  { split; [exact Hmne|]. intros _. rewrite Hclen. apply Nat.le_refl. }
  assert (Hc1 : (1 <= List.length chartData)%nat).
  { rewrite Hclen. destruct monthlyData; [congruence|simpl; lia]. }
  assert (Hcfuel : (List.length chartData <= fuel)%nat)
    by (rewrite Hclen, Hlen; exact Hfuel).
  destruct (@PacerFacts.growthFrames_shown parseDate config title monthlyData
              chartData fuel Hcompat Hc1 Hcfuel) as (growth & Hgrowth & _).
  destruct (nth_error monthlyData (List.length monthlyData - 1))
    as [lastMonthly|] eqn:Hlast.
  2:{ apply nth_error_None in Hlast.
      destruct monthlyData; [congruence|simpl in Hlast; lia]. }
  assert (Hlastc : nth_error chartData (List.length chartData - 1)
                   = Some (Pacer.chartOfMonthly lastMonthly)).
  { subst chartData. rewrite nth_error_map, length_map, Hlast. reflexivity. }
  pose proof (endingLoop_last config title _ _ Hlastc Hlast) as Hending.
  exists monthlyData. eexists. split; [exact Hsim|].
  unfold Pacer.generateVideo. rewrite Hsim.
  apply PacerFacts.ChartPeriod_eqb_eq in Hmonthly. rewrite Hmonthly.
  fold chartData. unfold Pacer.paceFrames. rewrite Hgrowth, Hending.
  split; [reflexivity|].
  apply Forall_app. split.
  - unfold Pacer.growthFrames in Hgrowth.
    eapply Forall_impl; [|exact (growthLoop_frames _ _ _ _ _ _ _ _ Hgrowth)].
    intros f (k & cur0 & cur1 & Hf).
    unfold Pacer.growthFrame, index in Hf.
    destruct (nth_error chartData k) as [point|] eqn:Hpoint; [|discriminate].
    cbn [bind] in Hf. rewrite Hmonthly in Hf. cbn [negb] in Hf.
    destruct (nth_error monthlyData k) as [m|] eqn:Hm; [|discriminate].
    injection Hf as _ <-.
    cbn [Frame.values Frame.currentShares Frame.totalDividends
         Frame.currentStockPrice Frame.formattedDate].
    assert (Epoint : point = Pacer.chartOfMonthly m).
    { subst chartData. rewrite nth_error_map, Hm in Hpoint.
      simpl in Hpoint. congruence. }
    destruct (nth_error_last_map ChartDataPoint.portfolioValue _ _ Hpoint)
      as [Hval Hvlen].
    exists m. rewrite Hval, Hvlen.
    replace (k + 1 - 1)%nat with k by lia.
    subst point. repeat split. exact Hm.
  - apply Forall_forall. intros f Hf. apply repeat_spec in Hf. subst f.
    cbn [Frame.values Frame.currentShares Frame.totalDividends
         Frame.currentStockPrice Frame.formattedDate].
    exists lastMonthly. rewrite length_map, Hclen.
    split; [exact Hlast|]. split; [|repeat split].
    rewrite nth_error_map. subst chartData.
    rewrite nth_error_map, Hlast. reflexivity.
Qed.

(** X12 on the two months with the default configuration. *)
Lemma monthly_frames_show_their_month_witness :
  exists monthlyData frames,
    Sim.calculateInvestmentGrowth Examples.two_months 105 0 = Ok monthlyData
    /\ Pacer.generateVideo Examples.parseDate Examples.defaultConfig "title"
                           Examples.two_months [] 105 0 2
       = Some (Ok frames)
    /\ Forall (fun f =>
                 exists m,
                   nth_error monthlyData (List.length (Frame.values f) - 1)
                   = Some m
                   /\ nth_error (Frame.values f)
                                (List.length (Frame.values f) - 1)
                      = Some (MonthlyDataPoint.portfolioValue m)
                   /\ Frame.currentShares f = MonthlyDataPoint.shares m
                   /\ Frame.totalDividends f
                      = MonthlyDataPoint.totalDividends m
                   /\ Frame.currentStockPrice f
                      = MonthlyDataPoint.stockPrice m
                   /\ Frame.formattedDate f
                      = MonthlyDataPoint.formattedDate m) frames.
Proof.
  apply (@monthly_frames_show_their_month Examples.parseDate
           Examples.defaultConfig "title" Examples.two_months [] 105 0 2).
  - discriminate.
  - reflexivity.
  - simpl. lia.
Defined.

(** X13.  A daily or weekly chart whose series has no observation: the run
    on a non-empty monthly series raises a [TypeError] when there is at
    least one ending frame to draw (the last point is [undefined]), and
    returns no frame at all otherwise. *)
Theorem empty_period_series_fails_at_the_ending
        (parseDate : string -> option Z) (config : ChartConfig.t)
        (title : string) (monthlyStockData : list StockDataPoint.t)
        (c b : Q) (fuel : nat) :
  monthlyStockData <> [] ->
  Pacer.chartPeriod config <> monthly ->
  Pacer.generateVideo parseDate config title monthlyStockData [] c b fuel
  = if (0 <? Pacer.endingFrames config)%Z
    then Some (Throw TypeError)
    else Some (Ok []).
Proof.
  intros Hne Hperiod.
  destruct monthlyStockData as [|p0 rest]; [congruence|].
  destruct (calculateInvestmentGrowth_total c b p0 rest)
    as (monthlyData & Hsim & _).
  unfold Pacer.generateVideo. rewrite Hsim.
  destruct (ChartPeriod_eqb (Pacer.chartPeriod config) monthly) eqn:E.
  { apply PacerFacts.ChartPeriod_eqb_eq in E. contradiction. }
  cbn [interpolateChartData mapM].
  unfold Pacer.paceFrames, Pacer.growthFrames.
  rewrite PacerFacts.growthLoop_eq. cbn [List.length].
  rewrite PacerFacts.gtb_ofZ. cbn [Z.of_nat Z.ltb Z.compare].
  unfold Pacer.endingLoop.
  destruct (0 <? Pacer.endingFrames config)%Z; reflexivity.
Qed.

(** X13 for a daily chart with the default durations. *)
Lemma empty_period_series_fails_at_the_ending_witness :
  Pacer.generateVideo Examples.parseDate
                      (ChartConfig.mk (Some daily) None None) "title"
                      Examples.two_months [] 105 0 0
  = Some (Throw TypeError).
Proof.
  apply (@empty_period_series_fails_at_the_ending Examples.parseDate
           (ChartConfig.mk (Some daily) None None) "title"
           Examples.two_months 105 0 0).
  - discriminate.
  - discriminate.
Defined.

Lemma indices_length_multiple (config : ChartConfig.t) (len k : nat) :
  (1 <= k)%nat -> (1 <= Pacer.chartFrames config)%Z ->
  Z.of_nat len = (Z.of_nat k * Pacer.chartFrames config)%Z ->
  Z.of_nat (List.length (PacerSpec.indices config len))
  = Pacer.chartFrames config.
Proof.
  intros Hk Hcf Hlen. unfold PacerSpec.indices.
  rewrite PacerFacts.stepOf_nonzero by lia.
  rewrite Hlen, Z.div_mul by lia.
  rewrite Z.max_r by lia. rewrite Nat2Z.id.
  rewrite PacerFacts.growthIndices_length. unfold PacerSpec.growthCount.
  set (cf := Pacer.chartFrames config) in *.
  assert (Elen : len = (Z.to_nat cf * k)%nat) by nia.
  rewrite Elen.
  replace (Z.to_nat cf * k + k - 1)%nat
    with ((k - 1) + Z.to_nat cf * k)%nat by lia.
  rewrite Nat.div_add by lia.
  rewrite Nat.div_small by lia. lia.
Qed.

(** X14.  When the number of points is a positive multiple of the chart
    frames, the regular frames are exactly [floor (D_chart * 30)] and the
    whole sequence has [floor (D_chart * 30) + floor (D_end * 30)] frames
    (the ending counted as 0 when negative). *)
Theorem frames_fill_the_budget_on_multiples
        (parseDate : string -> option Z) (config : ChartConfig.t)
        (title : string) (monthlyData : list MonthlyDataPoint.t)
        (chartData : list ChartDataPoint.t) (fuel k : nat) :
  PacerSpec.compatible config monthlyData chartData ->
  (1 <= k)%nat ->
  (1 <= Pacer.chartFrames config)%Z ->
  Z.of_nat (List.length chartData)
  = (Z.of_nat k * Pacer.chartFrames config)%Z ->
  (List.length chartData <= fuel)%nat ->
  exists growth ending,
    Pacer.paceFrames parseDate config title monthlyData chartData fuel
    = Some (Ok (growth ++ ending))
    /\ Z.of_nat (List.length growth) = Pacer.chartFrames config
    /\ Z.of_nat (List.length (growth ++ ending))
       = (Pacer.chartFrames config
          + Z.max 0 (Pacer.endingFrames config))%Z.
Proof.
  intros Hcompat Hk Hcf Hlen Hfuel.
  assert (Hc1 : (1 <= List.length chartData)%nat) by nia.
  destruct (@PacerFacts.paceFrames_shown parseDate config title monthlyData
              chartData fuel Hcompat Hc1 Hfuel)
    as (growth & ending & _ & Hpace & Hgrowth & Hending).
  assert (Lg : Z.of_nat (List.length growth) = Pacer.chartFrames config).
  { rewrite <- (length_map PacerSpec.shown growth), Hgrowth, length_map.
    exact (indices_length_multiple config _ Hk Hcf Hlen). }
  assert (Le : List.length ending = Z.to_nat (Pacer.endingFrames config)).
  { rewrite <- (length_map PacerSpec.shown ending), Hending, repeat_length.
    reflexivity. }
  exists growth, ending. split; [exact Hpace|]. split; [exact Lg|].
  rewrite length_app, Nat2Z.inj_add, Lg, Le. lia.
Qed.

(** X14 on a monthly chart of two months with one chart frame. *)
Lemma frames_fill_the_budget_on_multiples_witness :
  exists growth ending,
    Pacer.paceFrames Examples.parseDate
                     (ChartConfig.mk None (Some (1 # 30)) None) "title"
                     [Examples.january; Examples.february]
                     Examples.two_month_chart 2
    = Some (Ok (growth ++ ending))
    /\ Z.of_nat (List.length growth) = 1%Z
    /\ Z.of_nat (List.length (growth ++ ending)) = 91%Z.
Proof.
  apply (@frames_fill_the_budget_on_multiples Examples.parseDate
           (ChartConfig.mk None (Some (1 # 30)) None) "title"
           [Examples.january; Examples.february]
           Examples.two_month_chart 2 2).
  - split; [discriminate|]. intros _. simpl. lia.
  - lia.
  - vm_compute. discriminate.
  - reflexivity.
  - simpl. lia.
Defined.


(** * The provider's response *)

Section FetchFacts.

Import Yahoo.

Variables monthShort monthLong dayShort dayLong : Z -> string.

Lemma priced_dec (quote : Quote) : {priced quote} + {~ priced quote}.
Proof.
  unfold priced. destruct (close quote) as [price|].
  - destruct (Qeq_bool price 0) eqn:E.
    + right. intros (q & Hq & Hne). injection Hq as <-.
      apply Qeq_bool_eq in E. contradiction.
    + left. exists price. split; [reflexivity|].
      apply Qeq_bool_neq. exact E.
  - right. intros (q & Hq & _). discriminate.
Qed.

Lemma all_priced_dec (qs : list Quote) :
  Forall priced qs \/ ~ Forall priced qs.
Proof.
  induction qs as [|quote rest IH].
  - left. constructor.
  - destruct (priced_dec quote) as [Hq|Hq].
    + destruct IH as [Hr|Hr].
      * left. constructor; assumption.
      * right. intro H. inversion H. contradiction.
    + right. intro H. inversion H. contradiction.
Qed.

(** With a date on every dividend the loop ends, with the map the updates
    leave. *)
Lemma addDividends_dated (ds : list Dividend) :
  Forall (fun d => validTime (dividendDate d * 1000)%Z = true) ds ->
  forall m,
    addDividends monthShort ds m
    = Fetched (fold_left (recordDividend monthShort) ds m).
Proof.
  induction 1 as [|d rest Hd _ IH]; intro m; simpl; [reflexivity|].
  unfold addDividend. rewrite Hd. apply IH.
Qed.

(** A dividend without a date stops the loop with the [RangeError]. *)
Lemma addDividends_undated (ds : list Dividend) :
  ~ Forall (fun d => validTime (dividendDate d * 1000)%Z = true) ds ->
  forall m, addDividends monthShort ds m = Failed RangeError.
Proof.
  induction ds as [|d rest IH]; intros H m.
  - exfalso. apply H. constructor.
  - simpl. unfold addDividend.
    destruct (validTime (dividendDate d * 1000)) eqn:E; [|reflexivity].
    apply IH. intro Hrest. apply H. constructor; assumption.
Qed.

Lemma buildDividendMap_dated (result : Response) :
  dated result ->
  buildDividendMap monthShort (dividends result)
  = Fetched (fold_left (recordDividend monthShort) (dividendsOf result) []).
Proof.
  unfold dated, dividendsOf, buildDividendMap.
  destruct (dividends result) as [ds|]; intro H; [|reflexivity].
  exact (addDividends_dated H []).
Qed.

Lemma buildDividendMap_undated (result : Response) :
  ~ dated result ->
  buildDividendMap monthShort (dividends result) = Failed RangeError.
Proof.
  unfold dated, dividendsOf, buildDividendMap.
  destruct (dividends result) as [ds|]; intro H.
  - exact (addDividends_undated H []).
  - exfalso. apply H. constructor.
Qed.

Lemma dated_dec (result : Response) : dated result \/ ~ dated result.
Proof.
  unfold dated. induction (dividendsOf result) as [|d rest IH].
  - left. constructor.
  - destruct (validTime (dividendDate d * 1000)) eqn:E.
    + destruct IH as [Hr|Hr].
      * left. constructor; assumption.
      * right. intro H. inversion H. contradiction.
    + right. intro H. inversion H; subst. congruence.
Qed.

Lemma combineQuote_priced (period : ChartPeriod)
      (dividendMap : list (string * Q)) (quote : Quote) :
  priced quote ->
  exists point,
    combineQuote monthShort monthLong dayShort dayLong period dividendMap quote
    = Fetched point
    /\ close quote = Some (StockDataPoint.value point)
    /\ ~ StockDataPoint.value point == 0
    /\ StockDataPoint.timestamp point = quoteDate quote
    /\ (StockDataPoint.date point, StockDataPoint.formattedDate point)
       = formatDate monthShort monthLong dayShort dayLong
                    (quoteDate quote) period
    /\ StockDataPoint.dividend point
       = if ChartPeriod_eqb period monthly
         then orZero (mapGet (StockDataPoint.date point) dividendMap)
         else 0.
Proof.
  intros (price & Hclose & Hne). unfold combineQuote. rewrite Hclose.
  rewrite (AccountFacts.Qeq_bool_false Hne).
  destruct (formatDate monthShort monthLong dayShort dayLong
                       (quoteDate quote) period) as [short long].
  eexists. split; [reflexivity|]. simpl. repeat split. exact Hne.
Qed.

Lemma combineQuote_unpriced (period : ChartPeriod)
      (dividendMap : list (string * Q)) (quote : Quote) :
  ~ priced quote ->
  combineQuote monthShort monthLong dayShort dayLong period dividendMap quote
  = Failed (Error "Missing stock price data").
Proof.
  intro H. unfold combineQuote. destruct (close quote) as [price|] eqn:E;
    [|reflexivity].
  destruct (Qeq_bool price 0) eqn:Ez; [reflexivity|].
  exfalso. apply H. exists price. split; [exact E|].
  apply Qeq_bool_neq. exact Ez.
Qed.

Lemma combineQuotes_priced (period : ChartPeriod)
      (dividendMap : list (string * Q)) (qs : list Quote) :
  Forall priced qs ->
  exists points,
    combineQuotes monthShort monthLong dayShort dayLong period dividendMap qs
    = Fetched points
    /\ Forall2 (fun quote point =>
                  combineQuote monthShort monthLong dayShort dayLong period
                               dividendMap quote = Fetched point) qs points.
Proof.
  induction 1 as [|quote rest Hq _ IH].
  - exists []. split; [reflexivity|constructor].
  - destruct (combineQuote_priced period dividendMap Hq) as (point & Hp & _).
    destruct IH as (points & Hps & Hall).
    exists (point :: points). simpl. rewrite Hp, Hps.
    split; [reflexivity|]. constructor; assumption.
Qed.

Lemma combineQuotes_unpriced (period : ChartPeriod)
      (dividendMap : list (string * Q)) (qs : list Quote) :
  ~ Forall priced qs ->
  combineQuotes monthShort monthLong dayShort dayLong period dividendMap qs
  = Failed (Error "Missing stock price data").
Proof.
  induction qs as [|quote rest IH]; intro H.
  - exfalso. apply H. constructor.
  - simpl. destruct (priced_dec quote) as [Hq|Hq].
    + destruct (combineQuote_priced period dividendMap Hq) as (point & -> & _).
      rewrite IH; [reflexivity|].
      intro Hrest. apply H. constructor; assumption.
    + rewrite (combineQuote_unpriced period dividendMap Hq). reflexivity.
Qed.

(** X15.  What the provider's response must have.  A dividend whose date
    is not a valid time value makes the function fail with the
    [RangeError] of its log line, whatever the quotes.  Otherwise the quotes
    are accepted only with a price each: when every quote has a close that
    is neither [null] nor 0 the function resolves to one observation per
    quote, in order, whose price is the quote's close (hence not 0) and
    whose timestamp is the quote's date; if not, it fails with "Missing
    stock price data". *)
Theorem fetch_needs_every_price
        (result : Response) (period : ChartPeriod) (qs : list Quote) :
  quotes result = Some qs ->
  (~ dated result
   /\ fetchStockData monthShort monthLong dayShort dayLong result period
      = Failed RangeError)
  \/ (dated result /\ Forall priced qs
      /\ exists points,
          fetchStockData monthShort monthLong dayShort dayLong result period
          = Fetched points
          /\ map (fun p => Some (StockDataPoint.value p)) points
             = map close qs
          /\ map StockDataPoint.timestamp points = map quoteDate qs
          /\ Forall (fun p => ~ StockDataPoint.value p == 0) points)
  \/ (dated result /\ ~ Forall priced qs
      /\ fetchStockData monthShort monthLong dayShort dayLong result period
         = Failed (Error "Missing stock price data")).
Proof.
  intro Hqs. unfold fetchStockData. rewrite Hqs.
  destruct (dated_dec result) as [Hdated|Hundated].
  2:{ left. split; [exact Hundated|].
      rewrite (buildDividendMap_undated Hundated). reflexivity. }
  right. rewrite (buildDividendMap_dated Hdated).
  set (dividendMap := fold_left (recordDividend monthShort)
                                (dividendsOf result) []).
  destruct (all_priced_dec qs) as [Hall|Hnot].
  - left. split; [exact Hdated|]. split; [exact Hall|].
    destruct (combineQuotes_priced period dividendMap Hall)
      as (points & Hpoints & Hrel).
    exists points. split; [exact Hpoints|].
    clear Hpoints Hqs. revert Hall.
    induction Hrel as [|quote point rest points Hp _ IH]; intro Hall.
    + repeat split; constructor.
    + inversion Hall as [|? ? Hq Hrest]; subst.
      destruct (IH Hrest) as (Hv & Ht & Hnz).
      destruct (combineQuote_priced period dividendMap Hq)
        as (point' & Hp' & Hclose & Hne & Hts & _).
      rewrite Hp in Hp'. injection Hp' as <-.
      simpl. rewrite Hv, Ht, Hclose, Hts.
      repeat split. constructor; assumption.
  - right. split; [exact Hdated|]. split; [exact Hnot|].
    exact (combineQuotes_unpriced period dividendMap Hnot).
Qed.

End FetchFacts.

(** X15 on a response of two priced quotes, on one with a [null] close and
    on one with a dividend dated beyond the last time value. *)
Lemma fetch_needs_every_price_witness :
  (exists points,
      Yahoo.fetchStockData Examples.monthLabel Examples.monthLabel
                           Examples.monthLabel Examples.monthLabel
                           Examples.response monthly
      = Yahoo.Fetched points
      /\ map StockDataPoint.timestamp points = [0%Z; 31%Z])
  /\ Yahoo.fetchStockData Examples.monthLabel Examples.monthLabel
                          Examples.monthLabel Examples.monthLabel
                          Examples.response_missing_price monthly
     = Yahoo.Failed (Yahoo.Error "Missing stock price data")
  /\ Yahoo.fetchStockData Examples.monthLabel Examples.monthLabel
                          Examples.monthLabel Examples.monthLabel
                          Examples.response_undated_dividend monthly
     = Yahoo.Failed Yahoo.RangeError.
Proof.
  split; [|split].
  - destruct (@fetch_needs_every_price
                Examples.monthLabel Examples.monthLabel Examples.monthLabel
                Examples.monthLabel Examples.response monthly
                [Yahoo.mkQuote 0 (Some 10); Yahoo.mkQuote 31 (Some 20)]
                eq_refl)
      as [(_ & H) | [(_ & _ & points & Hp & _ & Ht & _) | (_ & _ & H)]].
    + discriminate H.
    + exists points. split; [exact Hp|exact Ht].
    + discriminate H.
  - destruct (@fetch_needs_every_price
                Examples.monthLabel Examples.monthLabel Examples.monthLabel
                Examples.monthLabel Examples.response_missing_price monthly
                [Yahoo.mkQuote 0 (Some 10); Yahoo.mkQuote 31 None]
                eq_refl)
      as [(_ & H) | [(_ & _ & points & Hp & _) | (_ & _ & H)]].
    + discriminate H.
    + discriminate Hp.
    + exact H.
  - destruct (@fetch_needs_every_price
                Examples.monthLabel Examples.monthLabel Examples.monthLabel
                Examples.monthLabel Examples.response_undated_dividend monthly
                [Yahoo.mkQuote 0 (Some 10); Yahoo.mkQuote 31 (Some 20)]
                eq_refl)
      as [(_ & H) | [(_ & _ & points & Hp & _) | (_ & _ & H)]].
    + exact H.
    + discriminate Hp.
    + discriminate H.
Defined.

Section DividendFacts.

Import Yahoo.

Variables monthShort monthLong dayShort dayLong : Z -> string.

Lemma orZero_Some (v : Q) : orZero (Some v) == v.
Proof.
  unfold orZero. destruct (Qeq_bool v 0) eqn:E; [|reflexivity].
  apply Qeq_bool_eq in E. symmetry. exact E.
Qed.

Lemma mapGet_mapSet_same (key : string) (v : Q) (m : list (string * Q)) :
  mapGet key (mapSet key v m) = Some v.
Proof.
  induction m as [|[k v0] rest IH]; simpl.
  - rewrite String.eqb_refl. reflexivity.
  - destruct (String.eqb k key) eqn:E; simpl; rewrite E;
      [reflexivity|exact IH].
Qed.

Lemma mapGet_mapSet_other (key key' : string) (v : Q)
      (m : list (string * Q)) :
  key <> key' -> mapGet key' (mapSet key v m) = mapGet key' m.
Proof.
  intro Hne. induction m as [|[k v0] rest IH]; simpl.
  - apply String.eqb_neq in Hne. rewrite Hne. reflexivity.
  - destruct (String.eqb k key) eqn:E; simpl.
    + apply String.eqb_eq in E. subst k.
      apply String.eqb_neq in Hne. rewrite Hne. reflexivity.
    + rewrite IH. reflexivity.
Qed.

(** Dividends of other months leave the entry of a month as it is. *)
Lemma recordDividends_others (key : string) (ds : list Dividend) :
  Forall (fun d => dividendKey monthShort d <> key) ds ->
  forall m,
    mapGet key (fold_left (recordDividend monthShort) ds m) = mapGet key m.
Proof.
  induction 1 as [|d rest Hd _ IH]; intro m; simpl; [reflexivity|].
  rewrite IH. unfold recordDividend.
  exact (mapGet_mapSet_other _ _ Hd).
Qed.

(** X16.  Dividends are attached to the month they fall in.  On a response
    whose dividends all have a date and whose quotes all have a price, each
    observation of a daily or weekly series carries the dividend 0; an
    observation of the monthly series carries 0 when no dividend has its
    month key, and the amount of the dividend when exactly one has. *)
Theorem dividends_are_keyed_by_month
        (result : Response) (period : ChartPeriod) (qs : list Quote) :
  quotes result = Some qs ->
  Forall priced qs ->
  dated result ->
  exists points,
    fetchStockData monthShort monthLong dayShort dayLong result period
    = Fetched points
    /\ List.length points = List.length qs
    /\ Forall (fun p =>
                 match period with
                 | monthly =>
                     (Forall (fun d => dividendKey monthShort d
                                       <> StockDataPoint.date p)
                             (dividendsOf result) ->
                      StockDataPoint.dividend p == 0)
                     /\ forall before d after,
                         dividendsOf result = before ++ d :: after ->
                         dividendKey monthShort d = StockDataPoint.date p ->
                         Forall (fun d' => dividendKey monthShort d'
                                           <> StockDataPoint.date p)
                                (before ++ after) ->
                         StockDataPoint.dividend p == amount d
                 | _ => StockDataPoint.dividend p = 0
                 end) points.
Proof.
  intros Hqs Hall Hdated. unfold fetchStockData. rewrite Hqs.
  rewrite (buildDividendMap_dated monthShort Hdated).
  set (dividendMap := fold_left (recordDividend monthShort)
                                (dividendsOf result) []).
  destruct (combineQuotes_priced monthShort monthLong dayShort dayLong
              period dividendMap Hall) as (points & Hpoints & Hrel).
  exists points. split; [exact Hpoints|].
  split; [symmetry; exact (Forall2_length Hrel)|].
  clear Hpoints Hqs. revert Hall.
  induction Hrel as [|quote point rest points Hp _ IH]; intro Hall.
  - constructor.
  - inversion Hall as [|? ? Hq Hrest]; subst.
    constructor; [|exact (IH Hrest)].
    destruct (combineQuote_priced monthShort monthLong dayShort dayLong
                period dividendMap Hq)
      as (point' & Hp' & _ & _ & _ & _ & Hdiv).
    rewrite Hp in Hp'. injection Hp' as <-.
    rewrite Hdiv. destruct period; try reflexivity.
    cbn [ChartPeriod_eqb]. subst dividendMap. split.
    + intro Hnone. rewrite (recordDividends_others Hnone). reflexivity.
    + intros before d after Hds Hkey Hothers.
      apply Forall_app in Hothers. destruct Hothers as [Hbefore Hafter].
      rewrite Hds, fold_left_app. simpl.
      rewrite (recordDividends_others Hafter).
      unfold recordDividend at 1. rewrite Hkey.
      rewrite mapGet_mapSet_same.
      rewrite <- Hkey at 1. rewrite <- Hkey in Hbefore.
      rewrite (recordDividends_others Hbefore).
      rewrite orZero_Some. simpl. ring.
Qed.

End DividendFacts.

Lemma response_quotes_priced :
  Forall Yahoo.priced
         [Yahoo.mkQuote 0 (Some 10); Yahoo.mkQuote 31 (Some 20)].
Proof.
  repeat constructor.
  - exists 10. split; [reflexivity|discriminate].
  - exists 20. split; [reflexivity|discriminate].
Qed.

(** X16 on a response with a dividend of 9 in December and one of 1/2 in
    February: January carries nothing, February 1/2. *)
Lemma dividends_are_keyed_by_month_witness :
  exists january february,
    Yahoo.fetchStockData Examples.monthLabel Examples.monthLabel
                         Examples.monthLabel Examples.monthLabel
                         Examples.response_one_dividend monthly
    = Yahoo.Fetched [january; february]
    /\ StockDataPoint.dividend january == 0
    /\ StockDataPoint.dividend february == 1 # 2.
Proof.
  destruct (@dividends_are_keyed_by_month
              Examples.monthLabel Examples.monthLabel Examples.monthLabel
              Examples.monthLabel Examples.response_one_dividend monthly
              [Yahoo.mkQuote 0 (Some 10); Yahoo.mkQuote 31 (Some 20)]
              eq_refl response_quotes_priced)
    as (points & Hpoints & _ & Hall).
  - repeat constructor.
  - vm_compute in Hpoints. injection Hpoints as <-.
    inversion Hall as [|january rest [Hnone _] Hrest]; subst.
    inversion Hrest as [|february rest' [_ Hone] _]; subst.
    eexists. eexists. split; [vm_compute; reflexivity|]. split.
    + apply Hnone. repeat constructor; discriminate.
    + apply (Hone [Yahoo.mkDividend (-1) 9] (Yahoo.mkDividend 1 (1 # 2)) []).
      * reflexivity.
      * reflexivity.
      * repeat constructor; discriminate.
Defined.

Section RunFacts.

Import Yahoo.

Variables monthShort monthLong dayShort dayLong : Z -> string.

(** X17.  The monthly series fetched from a response whose dividends all
    have a date and whose quotes all have a price has one observation per
    quote, and the simulator runs on it without raising, one entry per
    quote, unless there is no quote at all: the empty series is fetched as
    well, and makes the simulator raise its [TypeError]. *)
Theorem fetched_series_runs_unless_empty
        (result : Response) (qs : list Quote) (c b : Q) :
  quotes result = Some qs ->
  Forall priced qs ->
  dated result ->
  exists data,
    fetchMonthlyStockData monthShort monthLong dayShort dayLong result
    = Fetched data
    /\ List.length data = List.length qs
    /\ (qs = [] ->
        Sim.calculateInvestmentGrowth data c b = Throw TypeError)
    /\ (qs <> [] ->
        exists out,
          Sim.calculateInvestmentGrowth data c b = Ok out
          /\ List.length out = List.length qs).
Proof.
  intros Hqs Hall Hdated. unfold fetchMonthlyStockData, fetchStockData.
  rewrite Hqs, (buildDividendMap_dated monthShort Hdated).
  destruct (combineQuotes_priced monthShort monthLong dayShort dayLong
              monthly
              (fold_left (recordDividend monthShort) (dividendsOf result) [])
              Hall) as (data & Hdata & Hrel).
  rewrite Hdata. exists data. split; [reflexivity|].
  pose proof (Forall2_length Hrel) as Hlen.
  split; [symmetry; exact Hlen|]. split.
  - intros ->. destruct data; [reflexivity|discriminate Hlen].
  - intro Hne. destruct data as [|p rest].
    + destruct qs; [congruence|discriminate Hlen].
    + destruct (calculateInvestmentGrowth_total c b p rest)
        as (out & Hout & Hl).
      exists out. split; [exact Hout|]. rewrite Hl. symmetry. exact Hlen.
Qed.

End RunFacts.

(** X17 on the response of two quotes with dividends, and on the response
    without quotes. *)
Lemma fetched_series_runs_unless_empty_witness :
  (exists data out,
      Yahoo.fetchMonthlyStockData Examples.monthLabel Examples.monthLabel
                                  Examples.monthLabel Examples.monthLabel
                                  Examples.response_with_dividends
      = Yahoo.Fetched data
      /\ Sim.calculateInvestmentGrowth data 100 0 = Ok out
      /\ List.length out = 2%nat)
  /\ (exists data,
         Yahoo.fetchMonthlyStockData Examples.monthLabel Examples.monthLabel
                                     Examples.monthLabel Examples.monthLabel
                                     Examples.response_without_quotes
         = Yahoo.Fetched data
         /\ Sim.calculateInvestmentGrowth data 100 0 = Throw TypeError).
Proof.
  split.
  - destruct (@fetched_series_runs_unless_empty
                Examples.monthLabel Examples.monthLabel Examples.monthLabel
                Examples.monthLabel Examples.response_with_dividends
                [Yahoo.mkQuote 0 (Some 10); Yahoo.mkQuote 31 (Some 20)]
                100 0 eq_refl response_quotes_priced)
      as (data & Hdata & _ & _ & Hrun).
    + repeat constructor.
    + destruct Hrun as (out & Hout & Hlen); [discriminate|].
      exists data, out. split; [exact Hdata|]. split; [exact Hout|exact Hlen].
  - destruct (@fetched_series_runs_unless_empty
                Examples.monthLabel Examples.monthLabel Examples.monthLabel
                Examples.monthLabel Examples.response_without_quotes
                [] 100 0 eq_refl (Forall_nil _))
      as (data & Hdata & _ & Hempty & _).
    + constructor.
    + exists data. split; [exact Hdata|]. exact (Hempty eq_refl).
Defined.


(** * From the provider to the chart: the exact-month branch *)

Lemma mapM_Forall2 {A B : Type} (f : A -> result B) :
  forall (xs : list A) (ys : list B),
    mapM f xs = Ok ys -> Forall2 (fun x y => f x = Ok y) xs ys.
Proof.
  induction xs as [|x xs IH]; intros ys H; simpl in H.
  - injection H as <-. constructor.
  - destruct (f x) as [y0|e] eqn:Hx; [|discriminate]. cbn [bind] in H.
    destruct (mapM f xs) as [ys0|e] eqn:Hxs; [|discriminate].
    cbn [bind] in H. injection H as <-.
    constructor; [exact Hx|exact (IH ys0 eq_refl)].
Qed.

(** Every entry of a run has the date of one of the observations. *)
Lemma run_entry_date (c : Q) (data : list StockDataPoint.t) :
  forall (st : Sim.state) (s : MonthlyDataPoint.t),
    In s (SimSpec.run c st data) ->
    exists p, In p data /\ MonthlyDataPoint.date s = StockDataPoint.date p.
Proof.
  induction data as [|p rest IH]; intros st s Hs; simpl in Hs.
  - contradiction.
  - destruct Hs as [<-|Hs].
    + exists p. split; [left; reflexivity|reflexivity].
    + destruct (IH _ _ Hs) as (q & Hq & H). exists q.
      split; [right; exact Hq|exact H].
Qed.

Section BoundaryFacts.

Import Yahoo.

Variables monthShort monthLong dayShort dayLong : Z -> string.
Variable parseDate : string -> option Z.

(** The labels of [toLocaleString('en-US', ...)]: with the day, "Jan 15,
    2020", and without, "Jan 2020". *)
Hypothesis month_without_comma :
  forall t, Chart.includes "," (monthShort t) = false.
Hypothesis day_with_comma :
  forall t, Chart.includes "," (dayShort t) = true.

(** The observations fetched have the short labels of their quotes. *)
Lemma combineQuotes_dates (period : ChartPeriod)
      (dividendMap : list (string * Q)) :
  forall (qs : list Quote) (points : list StockDataPoint.t),
    combineQuotes monthShort monthLong dayShort dayLong period dividendMap qs
    = Fetched points ->
    Forall2 (fun quote point =>
               StockDataPoint.date point
               = fst (formatDate monthShort monthLong dayShort dayLong
                                 (quoteDate quote) period)) qs points.
Proof.
  induction qs as [|quote rest IH]; intros points H; simpl in H.
  - injection H as <-. constructor.
  - destruct (combineQuote monthShort monthLong dayShort dayLong period
                           dividendMap quote) as [point|e] eqn:Hq;
      [|discriminate].
    destruct (combineQuotes monthShort monthLong dayShort dayLong period
                            dividendMap rest) as [points0|e] eqn:Hrest;
      [|discriminate].
    injection H as <-. constructor; [|exact (IH points0 eq_refl)].
    unfold combineQuote in Hq.
    destruct (close quote) as [price|]; [|discriminate].
    destruct (Qeq_bool price 0); [discriminate|].
    destruct (formatDate monthShort monthLong dayShort dayLong
                         (quoteDate quote) period) as [short long].
    injection Hq as <-. reflexivity.
Qed.

Lemma fetchStockData_dates (result : Response) (period : ChartPeriod)
      (points : list StockDataPoint.t) :
  fetchStockData monthShort monthLong dayShort dayLong result period
  = Fetched points ->
  exists qs,
    quotes result = Some qs
    /\ Forall2 (fun quote point =>
                  StockDataPoint.date point
                  = fst (formatDate monthShort monthLong dayShort dayLong
                                    (quoteDate quote) period)) qs points.
Proof.
  unfold fetchStockData. destruct (quotes result) as [qs|]; [|discriminate].
  destruct (buildDividendMap monthShort (dividends result))
    as [dividendMap|e]; [|discriminate].
  intro H. exists qs. split; [reflexivity|].
  exact (combineQuotes_dates _ _ _ H).
Qed.

Lemma monthly_label_without_comma (t : Z) :
  Chart.includes "," (localeLabel monthShort t) = false.
Proof.
  unfold localeLabel. destruct (validTime t);
    [apply month_without_comma|reflexivity].
Qed.

(** X23.  The branch for "the exact monthly point" is never taken on what
    the provider returns.  With the labels the engine gives (a comma in
    those that carry the day, none in those of a month), when the quotes of
    a daily or weekly chart have valid dates, every point of the chart
    differs in key from the monthly state matched for it and is revalued:
    its portfolio value is that state's shares at the point's price, plus
    that state's cash. *)
Theorem exact_month_branch_is_never_taken
        (monthlyResult periodResult : Response) (period : ChartPeriod)
        (qs : list Quote) (c b : Q)
        (monthlyStockData periodStockData : list StockDataPoint.t)
        (monthlyData : list MonthlyDataPoint.t)
        (chartData : list ChartDataPoint.t) :
  period <> monthly ->
  quotes periodResult = Some qs ->
  Forall (fun quote => validTime (quoteDate quote) = true) qs ->
  fetchMonthlyStockData monthShort monthLong dayShort dayLong monthlyResult
  = Fetched monthlyStockData ->
  fetchStockData monthShort monthLong dayShort dayLong periodResult period
  = Fetched periodStockData ->
  Sim.calculateInvestmentGrowth monthlyStockData c b = Ok monthlyData ->
  interpolateChartData parseDate periodStockData monthlyData = Ok chartData ->
  Forall2 (fun p cp =>
             exists m,
               nth_error monthlyData
                         (matchingMonthlyIndex parseDate p monthlyData)
               = Some m
               /\ StockDataPoint.date p <> MonthlyDataPoint.date m
               /\ ChartDataPoint.portfolioValue cp
                  = (MonthlyDataPoint.shares m * Fin (StockDataPoint.value p)
                     + MonthlyDataPoint.cashBalance m)%num)
          periodStockData chartData.
Proof.
  intros Hperiod Hqs Hvalid Hmonthly Hfetch Hsim Hchart.
  (* the monthly states have month labels *)
  assert (Hmonths : forall m, In m monthlyData ->
                      Chart.includes "," (MonthlyDataPoint.date m) = false).
  { intros m Hm.
    destruct (fetchStockData_dates _ _ Hmonthly) as (mqs & _ & Hdates).
    destruct monthlyStockData as [|p0 rest]; [discriminate Hsim|].
    unfold Sim.calculateInvestmentGrowth in Hsim.
    rewrite mapMonths_run in Hsim.
    assert (Hrun : SimSpec.run c (Sim.initialPurchase p0 b) (p0 :: rest)
                   = monthlyData) by congruence.
    rewrite <- Hrun in Hm.
    destruct (run_entry_date _ _ _ _ Hm) as (p & Hp & ->).
    clear - Hdates Hp month_without_comma.
    induction Hdates as [|quote point mqs' points Hd _ IH];
      [contradiction|].
    destruct Hp as [<-|Hp]; [|exact (IH Hp)].
    rewrite Hd. simpl. apply monthly_label_without_comma. }
  (* the chart's observations have day labels *)
  assert (Hdays : Forall (fun p => Chart.includes "," (StockDataPoint.date p)
                                   = true) periodStockData).
  { destruct (fetchStockData_dates _ _ Hfetch) as (qs' & Hqs' & Hdates).
    rewrite Hqs in Hqs'. injection Hqs' as <-.
    clear - Hdates Hvalid Hperiod day_with_comma.
    induction Hdates as [|quote point qs' points Hd _ IH]; [constructor|].
    inversion Hvalid as [|? ? Hq Hrest]; subst.
    constructor; [|exact (IH Hrest)].
    rewrite Hd. destruct period; [| |congruence];
      simpl; unfold localeLabel; rewrite Hq; apply day_with_comma. }
  pose proof (mapM_Forall2 _ _ Hchart) as Hpoints.
  clear Hchart Hfetch Hqs Hvalid.
  induction Hpoints as [|p cp ps cps Hp _ IH]; [constructor|].
  inversion Hdays as [|? ? Hday Hrest]; subst.
  constructor; [|exact (IH Hrest)].
  unfold interpolatePoint, index in Hp.
  destruct (nth_error monthlyData
                      (matchingMonthlyIndex parseDate p monthlyData))
    as [m|] eqn:Hm; [|discriminate Hp].
  cbn [bind] in Hp.
  assert (Hkey : StockDataPoint.date p <> MonthlyDataPoint.date m).
  { intro E. pose proof (Hmonths m (nth_error_In _ _ Hm)) as Hno.
    rewrite <- E in Hno. congruence. }
  exists m. split; [reflexivity|]. split; [exact Hkey|].
  apply String.eqb_neq in Hkey. rewrite Hkey in Hp.
  injection Hp as <-. reflexivity.
Qed.

End BoundaryFacts.

(** X23 from two responses of the provider, one of two months and one of
    two days: 15 January is worth ten shares at 12 and 5 of cash, 14
    February fifteen shares at 25 and 10 of cash. *)
Lemma exact_month_branch_is_never_taken_witness :
  Yahoo.fetchMonthlyStockData Examples.monthLabel Examples.monthLongLabel
                              Examples.dayLabel Examples.dayLongLabel
                              Examples.response
  = Yahoo.Fetched Examples.fetched_months
  /\ Yahoo.fetchStockData Examples.monthLabel Examples.monthLongLabel
                          Examples.dayLabel Examples.dayLongLabel
                          Examples.response_daily daily
     = Yahoo.Fetched Examples.fetched_days
  /\ Sim.calculateInvestmentGrowth Examples.fetched_months 105 0
     = Ok [Examples.january; Examples.february]
  /\ interpolateChartData Examples.parseDay Examples.fetched_days
                          [Examples.january; Examples.february]
     = Ok Examples.days_chart
  /\ Forall2 (fun p cp =>
               exists m,
                 nth_error [Examples.january; Examples.february]
                           (matchingMonthlyIndex
                              Examples.parseDay p
                              [Examples.january; Examples.february])
                 = Some m
                 /\ StockDataPoint.date p <> MonthlyDataPoint.date m
                 /\ ChartDataPoint.portfolioValue cp
                    = (MonthlyDataPoint.shares m
                       * Fin (StockDataPoint.value p)
                       + MonthlyDataPoint.cashBalance m)%num)
            Examples.fetched_days Examples.days_chart.
Proof.
  assert (Hmonths : Yahoo.fetchMonthlyStockData
                      Examples.monthLabel Examples.monthLongLabel
                      Examples.dayLabel Examples.dayLongLabel
                      Examples.response
                    = Yahoo.Fetched Examples.fetched_months)
    by (vm_compute; reflexivity).
  assert (Hdays : Yahoo.fetchStockData
                    Examples.monthLabel Examples.monthLongLabel
                    Examples.dayLabel Examples.dayLongLabel
                    Examples.response_daily daily
                  = Yahoo.Fetched Examples.fetched_days)
    by (vm_compute; reflexivity).
  assert (Hsim : Sim.calculateInvestmentGrowth Examples.fetched_months 105 0
                 = Ok [Examples.january; Examples.february])
    by (vm_compute; reflexivity).
  assert (Hchart : interpolateChartData
                     Examples.parseDay Examples.fetched_days
                     [Examples.january; Examples.february]
                   = Ok Examples.days_chart)
    by (vm_compute; reflexivity).
  split; [exact Hmonths|]. split; [exact Hdays|].
  split; [exact Hsim|]. split; [exact Hchart|].
  apply (@exact_month_branch_is_never_taken
           Examples.monthLabel Examples.monthLongLabel
           Examples.dayLabel Examples.dayLongLabel Examples.parseDay)
    with (monthlyResult := Examples.response)
         (periodResult := Examples.response_daily) (period := daily)
         (qs := [Yahoo.mkQuote 14 (Some 12); Yahoo.mkQuote 44 (Some 25)])
         (c := 105) (b := 0) (monthlyStockData := Examples.fetched_months).
  - intro t. unfold Examples.monthLabel.
    destruct (t <? 0)%Z; [reflexivity|]. destruct (t <? 31)%Z; reflexivity.
  - intro t. unfold Examples.dayLabel. destruct (t <? 31)%Z; reflexivity.
  - discriminate.
  - reflexivity.
  - repeat constructor.
  - exact Hmonths.
  - exact Hdays.
  - exact Hsim.
  - exact Hchart.
Defined.

(** * The chart service *)

Module ChartFacts.

Import Chart.

Lemma keptDaily_blank (n : nat) : keptDaily n "" = false.
Proof. unfold keptDaily. simpl. apply andb_false_r. Qed.

Lemma keptWeekly_blank : keptWeekly "" = false.
Proof. reflexivity. Qed.

Lemma append_assoc (a b c : string) :
  ((a ++ b) ++ c)%string = (a ++ (b ++ c))%string.
Proof.
  induction a as [|ch a IH]; simpl; [reflexivity|].
  rewrite IH. reflexivity.
Qed.

Lemma append_nil_r (a : string) : (a ++ "")%string = a.
Proof.
  induction a as [|ch a IH]; simpl; [reflexivity|].
  rewrite IH. reflexivity.
Qed.

Lemma spelled_app (xs ys : list string) :
  spelled (xs ++ ys) = (spelled xs ++ spelled ys)%string.
Proof.
  induction xs as [|x xs IH]; simpl; [reflexivity|].
  rewrite IH, append_assoc. reflexivity.
Qed.

Lemma splitSpaces_nonempty (s : string) : splitSpaces s <> [].
Proof.
  destruct s as [|c rest]; simpl; [discriminate|].
  destruct (Ascii.eqb c " "); [discriminate|].
  destruct (splitSpaces rest); discriminate.
Qed.

(** Joining the pieces with a space after each gives the text back, with
    one space more. *)
Lemma splitSpaces_spelled (s : string) :
  spelled (map (fun word => (word ++ " ")%string) (splitSpaces s))
  = (s ++ " ")%string.
Proof.
  induction s as [|c rest IH]; [reflexivity|].
  simpl splitSpaces. destruct (Ascii.eqb c " ") eqn:E.
  - apply Ascii.eqb_eq in E. subst c. simpl. rewrite IH. reflexivity.
  - destruct (splitSpaces rest) as [|word words] eqn:Hs.
    + exfalso. exact (splitSpaces_nonempty rest Hs).
    + simpl in IH |- *. rewrite IH. reflexivity.
Qed.

End ChartFacts.

(** X19.  The axis labels keep their places: for every period the result
    has one label per date, each the date itself or the empty string (for
    a monthly chart, the dates unchanged), and formatting the result again
    changes nothing. *)
Theorem axis_labels_keep_their_places
        (config : ChartConfig.t) (dates : list string) :
  List.length (Chart.formatXAxisLabels config dates) = List.length dates
  /\ Forall2 (fun date label => label = date \/ label = ""%string)
             dates (Chart.formatXAxisLabels config dates)
  /\ (Pacer.chartPeriod config = monthly ->
      Chart.formatXAxisLabels config dates = dates)
  /\ Chart.formatXAxisLabels config (Chart.formatXAxisLabels config dates)
     = Chart.formatXAxisLabels config dates.
Proof.
  unfold Chart.formatXAxisLabels.
  destruct (Pacer.chartPeriod config).
  - split; [apply length_map|]. split; [|split; [discriminate|]].
    + generalize (List.length dates). intro n.
      induction dates as [|d rest IH]; simpl; constructor; [|exact IH].
      destruct (Chart.keptDaily n d); [left|right]; reflexivity.
    + rewrite length_map, map_map. apply map_ext. intro d.
      destruct (Chart.keptDaily (List.length dates) d) eqn:E.
      * rewrite E. reflexivity.
      * rewrite ChartFacts.keptDaily_blank. reflexivity.
  - split; [apply length_map|]. split; [|split; [discriminate|]].
    + induction dates as [|d rest IH]; simpl; constructor; [|exact IH].
      destruct (Chart.keptWeekly d); [left|right]; reflexivity.
    + rewrite map_map. apply map_ext. intro d.
      destruct (Chart.keptWeekly d) eqn:E.
      * rewrite E. reflexivity.
      * reflexivity.
  - split; [reflexivity|]. split; [|split; reflexivity].
    induction dates as [|d rest IH]; constructor; [left; reflexivity|exact IH].
Qed.

Section TitleFacts.

Import Chart.

Variable measureText : string -> Q.
Variable width : Q.

Lemma fitsOrSingle_more (processed : list string) (word text : string) :
  fitsOrSingle measureText width processed text ->
  fitsOrSingle measureText width (processed ++ [word]) text.
Proof.
  intros [H|(w & Hw & H)]; [left; exact H|].
  right. exists w. split; [apply in_or_app; left; exact Hw|exact H].
Qed.

Lemma wrapWord_wellWrapped (st : wrapping) (i : nat)
      (processed : list string) (word : string) :
  wellWrapped measureText width st i processed ->
  wellWrapped measureText width (wrapWord measureText width st i word)
              (S i) (processed ++ [word]).
Proof.
  intros (Hsp & Hy & Hys & Hfit & H0 & Hpos & Hi).
  assert (Hspell : spelled (map (fun w => (w ++ " ")%string)
                                (processed ++ [word]))
                   = (spelled (map fst (drawn st))
                      ++ (line st ++ word ++ " "))%string).
  { rewrite map_app, ChartFacts.spelled_app, <- Hsp, ChartFacts.spelled_app.
    simpl. rewrite !ChartFacts.append_nil_r, ChartFacts.append_assoc.
    reflexivity. }
  unfold wrapWord.
  destruct (Num.Qltb (titleAreaWidth width)
                     (measureText (line st ++ word ++ " ")%string)
            && Nat.ltb 0 i) eqn:E.
  - apply andb_true_iff in E. destruct E as [_ Ei].
    apply Nat.ltb_lt in Ei. destruct (Hpos Ei) as [Hline Hlen].
    unfold wellWrapped. cbn [line y drawn].
    split.
    { rewrite Hspell, map_app, !ChartFacts.spelled_app. simpl.
      rewrite !ChartFacts.append_nil_r, ChartFacts.append_assoc.
      reflexivity. }
    split.
    { rewrite length_app. simpl. rewrite Nat.add_1_r, Hy.
      rewrite Nat2Z.inj_succ. unfold Z.succ. rewrite inject_Z_plus.
      change (inject_Z 1) with 1. ring. }
    split.
    { intros k text yk Hk.
      destruct (Nat.lt_ge_cases k (List.length (drawn st))) as [Hlt|Hge].
      - rewrite nth_error_app1 in Hk by exact Hlt. exact (Hys k text yk Hk).
      - rewrite nth_error_app2 in Hk by exact Hge.
        destruct (k - List.length (drawn st))%nat as [|j] eqn:Ek.
        + simpl in Hk. injection Hk as _ <-.
          replace k with (List.length (drawn st)) by lia. exact Hy.
        + simpl in Hk. destruct j; discriminate. }
    split.
    { apply Forall_app. split.
      - eapply Forall_impl; [|exact Hfit]. intros l Hl.
        exact (fitsOrSingle_more _ Hl).
      - constructor; [exact (fitsOrSingle_more _ Hline)|constructor]. }
    split; [discriminate|].
    split.
    { intros _. split.
      - right. exists word. split; [|reflexivity].
        apply in_or_app. right. left. reflexivity.
      - rewrite length_app. simpl. lia. }
    rewrite length_app. simpl. lia.
  - unfold wellWrapped. cbn [line y drawn].
    split.
    { rewrite Hspell, ChartFacts.spelled_app. simpl.
      rewrite ChartFacts.append_nil_r. reflexivity. }
    split; [exact Hy|]. split; [exact Hys|].
    split.
    { eapply Forall_impl; [|exact Hfit]. intros l Hl.
      exact (fitsOrSingle_more _ Hl). }
    split; [discriminate|].
    split.
    { intros _. apply andb_false_iff in E. destruct E as [E|E].
      - split.
        + left. apply NumFacts.Qltb_ge. exact E.
        + destruct i as [|i]; [destruct (H0 eq_refl) as [_ ->]; simpl; lia|].
          destruct (Hpos (Nat.lt_0_succ i)) as [_ H]. lia.
      - apply Nat.ltb_ge in E. assert (Ez : i = 0%nat) by lia.
        destruct (H0 Ez) as [E1 E2]. rewrite E1, E2.
        split; [|simpl; lia].
        right. exists word. split; [|reflexivity].
        apply in_or_app. right. left. reflexivity. }
    rewrite length_app. simpl. lia.
Qed.

Lemma wrapWords_wellWrapped (words : list string) :
  forall (st : wrapping) (i : nat) (processed : list string),
    wellWrapped measureText width st i processed ->
    wellWrapped measureText width
                (wrapWords measureText width st i words)
                (i + List.length words) (processed ++ words).
Proof.
  induction words as [|word rest IH]; intros st i processed H; simpl.
  - rewrite Nat.add_0_r, app_nil_r. exact H.
  - replace (i + S (List.length rest))%nat
      with (S i + List.length rest)%nat by lia.
    replace (processed ++ word :: rest)
      with ((processed ++ [word]) ++ rest)
      by (rewrite <- app_assoc; reflexivity).
    apply IH. apply wrapWord_wellWrapped. exact H.
Qed.

(** X20.  The title is wrapped without losing anything: the lines drawn,
    one after the other, spell the title followed by one space; there is at
    least one line and never more lines than words; the baseline of the
    [k]-th line is [380 + 50 k]; and every line is within the width of the
    title area or is one of the title's words alone. *)
Theorem title_is_wrapped_whole (title : string) :
  spelled (map fst (drawTitle measureText width title))
  = (title ++ " ")%string
  /\ (1 <= List.length (drawTitle measureText width title)
      <= List.length (splitSpaces title))%nat
  /\ (forall k text yk,
        nth_error (drawTitle measureText width title) k = Some (text, yk) ->
        yk == 380 + 50 * inject_Z (Z.of_nat k))
  /\ Forall (fun l =>
               fitsOrSingle measureText width (splitSpaces title) (fst l))
            (drawTitle measureText width title).
Proof.
  unfold drawTitle.
  set (st0 := {| line := ""; y := titleAreaY + 40; drawn := [] |}).
  assert (H0 : wellWrapped measureText width st0 0 []).
  { unfold wellWrapped, st0. cbn [line y drawn]. simpl.
    split; [reflexivity|]. split; [unfold titleAreaY; ring|].
    split; [intros k text yk Hk; destruct k; discriminate|].
    split; [constructor|]. split; [intros _; split; reflexivity|].
    split; [lia|reflexivity]. }
  pose proof (wrapWords_wellWrapped (splitSpaces title) H0) as H.
  simpl in H.
  set (st := wrapWords measureText width st0 0 (splitSpaces title)) in *.
  destruct H as (Hsp & Hy & Hys & Hfit & _ & Hpos & _).
  assert (Hwords : (0 < List.length (splitSpaces title))%nat).
  { pose proof (ChartFacts.splitSpaces_nonempty title).
    destruct (splitSpaces title); [congruence|simpl; lia]. }
  destruct (Hpos Hwords) as [Hline Hlen].
  split.
  { rewrite map_app. simpl. rewrite Hsp. apply ChartFacts.splitSpaces_spelled. }
  split.
  { rewrite length_app. simpl. lia. }
  split.
  { intros k text yk Hk.
    assert (E : titleAreaY + 40 == 380) by reflexivity.
    destruct (Nat.lt_ge_cases k (List.length (drawn st))) as [Hlt|Hge].
    - rewrite nth_error_app1 in Hk by exact Hlt.
      rewrite (Hys k text yk Hk), E. reflexivity.
    - rewrite nth_error_app2 in Hk by exact Hge.
      destruct (k - List.length (drawn st))%nat as [|j] eqn:Ek.
      + simpl in Hk. injection Hk as _ <-.
        replace k with (List.length (drawn st)) by lia.
        rewrite Hy, E. reflexivity.
      + simpl in Hk. destruct j; discriminate. }
  apply Forall_app. split; [exact Hfit|].
  constructor; [exact Hline|constructor].
Qed.

End TitleFacts.
